(** * Time-series utilities of MindsDB: a shallow embedding

    Source: [mindsdb/integrations/utilities/time_series_utils.py].

    The module is glue around pandas, numpy and an optional
    hierarchical-forecasting package.  The embedding keeps the Python
    functions' names and control flow.  Tables are modelled by a small
    data-frame type with exactly the operations the module calls;
    exceptions are values of an error monad; the numerical collaborators
    (timestamp parsing, resampling, frequency detection, sorting) are
    fields of an interface that the functions are written against. *)

From Stdlib Require Import List String Ascii ZArith QArith Bool Arith Lia Permutation Sorted.
Import ListNotations.
Open Scope string_scope.
Open Scope nat_scope.
Open Scope list_scope.

(* ================================================================== *)
(** * Python values, exceptions and built-ins *)
(* ================================================================== *)

Module Py.

(** The exception classes that reach this module. *)
Inductive exn : Type :=
| KeyError
| IndexError
| TypeError
| ValueError
| AttributeError
| UnboundLocalError.

Definition exn_eqb (a b : exn) : bool :=
  match a, b with
  | KeyError, KeyError | IndexError, IndexError | TypeError, TypeError
  | ValueError, ValueError | AttributeError, AttributeError
  | UnboundLocalError, UnboundLocalError => true
  | _, _ => false
  end.

(** A computation either returns or raises. *)
Inductive result (A : Type) : Type :=
| Ok (a : A)
| Raise (e : exn).
Arguments Ok {A} a.
Arguments Raise {A} e.

Definition bind {A B} (m : result A) (k : A -> result B) : result B :=
  match m with
  | Ok a => k a
  | Raise e => Raise e
  end.

(** [try: body except cls: handler] *)
Definition try_except {A} (body : result A) (cls : exn) (handler : result A)
  : result A :=
  match body with
  | Ok a => Ok a
  | Raise e => if exn_eqb e cls then handler else Raise e
  end.

(** [for x in xs: acc = step(acc, x)], leaving at the first exception. *)
Fixpoint for_each {A S} (xs : list A) (step : S -> A -> result S) (acc : S)
  : result S :=
  match xs with
  | [] => Ok acc
  | x :: rest => bind (step acc x) (for_each rest step)
  end.

(** [[f(x) for x in xs]] *)
Fixpoint map_result {A B} (f : A -> result B) (xs : list A) : result (list B) :=
  match xs with
  | [] => Ok []
  | x :: rest =>
      bind (f x) (fun y => bind (map_result f rest) (fun ys => Ok (y :: ys)))
  end.

(** [enumerate(xs)] *)
Definition enumerate {A} (xs : list A) : list (nat * A) :=
  combine (seq 0 (List.length xs)) xs.

(** [x in xs] on strings. *)
Definition str_in (x : string) (xs : list string) : bool :=
  existsb (String.eqb x) xs.

(** ** [str] methods *)

(** [sep.join(parts)] *)
Fixpoint join (sep : string) (parts : list string) : string :=
  match parts with
  | [] => EmptyString
  | [p] => p
  | p :: rest => String.append p (String.append sep (join sep rest))
  end.

(** [s.split(sep)] for a one-character separator. *)
Fixpoint split (sep : ascii) (s : string) : list string :=
  match s with
  | EmptyString => [EmptyString]
  | String c s' =>
      if Ascii.eqb c sep then EmptyString :: split sep s'
      else match split sep s' with
           | [] => [String c EmptyString]
           | w :: ws => String c w :: ws
           end
  end.

(** [sub in s] *)
Fixpoint contains (sub s : string) : bool :=
  String.prefix sub s ||
  match s with
  | EmptyString => false
  | String _ s' => contains sub s'
  end.

(** [s.replace(old, new)] for a non-empty [old]: a left-to-right scan
    that replaces each non-overlapping occurrence.  [skip] counts the
    characters of the occurrence just replaced that are still to be
    passed over. *)
Fixpoint replace_from (old new : string) (skip : nat) (s : string) : string :=
  match s with
  | EmptyString => EmptyString
  | String c s' =>
      match skip with
      | S k => replace_from old new k s'
      | O =>
          if String.prefix old s
          then String.append new (replace_from old new (String.length old - 1) s')
          else String c (replace_from old new 0 s')
      end
  end.

Definition replace (old new s : string) : string := replace_from old new 0 s.

(** [s.removeprefix(p)]: what stripping a prefix means. *)
Fixpoint after_prefix (p s : string) : option string :=
  match p, s with
  | EmptyString, _ => Some s
  | String a p', String b s' => if Ascii.eqb a b then after_prefix p' s' else None
  | String _ _, EmptyString => None
  end.

Definition removeprefix (p s : string) : string :=
  match after_prefix p s with
  | Some r => r
  | None => s
  end.

(** ** Numbers returned by a scoring function

    A Python [int] or [float] is, for the purposes of [>], a rational,
    an infinity or NaN. *)
Inductive number : Type :=
| Fin (q : Q)
| PosInf
| NegInf
| NaN.

Definition of_Z (z : Z) : number := Fin (inject_Z z).

(** [a > b] *)
Definition gt (a b : number) : bool :=
  match a, b with
  | NaN, _ | _, NaN => false
  | PosInf, PosInf => false
  | PosInf, _ => true
  | _, PosInf => false
  | NegInf, _ => false
  | Fin _, NegInf => true
  | Fin x, Fin y => negb (Qle_bool x y)
  end.

(** [a <= b] *)
Definition le (a b : number) : bool :=
  match a, b with
  | NaN, _ | _, NaN => false
  | _, PosInf => true
  | PosInf, _ => false
  | NegInf, _ => true
  | Fin _, NegInf => false
  | Fin x, Fin y => Qle_bool x y
  end.

(** ** [dict] with string keys: insertion-ordered *)
Definition dict (V : Type) : Type := list (string * V).

Fixpoint dict_get {V} (d : dict V) (k : string) : option V :=
  match d with
  | [] => None
  | (k', v) :: rest => if String.eqb k k' then Some v else dict_get rest k
  end.

(** [d[k] = v]: an existing key keeps its position. *)
Fixpoint dict_set {V} (d : dict V) (k : string) (v : V) : dict V :=
  match d with
  | [] => [(k, v)]
  | (k', v') :: rest =>
      if String.eqb k k' then (k', v) :: rest else (k', v') :: dict_set rest k v
  end.

(** A dict display [{k1: v1, ..., kn: vn}]. *)
Definition dict_of {V} (items : list (string * V)) : dict V :=
  fold_left (fun d kv => dict_set d (fst kv) (snd kv)) items [].

End Py.

Import Py.

Declare Scope py_scope.
Notation "x <- m ;; k" := (Py.bind m (fun x => k))
  (at level 61, m at next level, right associativity) : py_scope.
Notation "' p <- m ;; k" := (Py.bind m (fun x => match x with p => k end))
  (at level 61, p pattern, m at next level, right associativity) : py_scope.
Open Scope py_scope.

(* ================================================================== *)
(** * Data frames *)
(* ================================================================== *)

Module Pandas.

(** A cell.  [VNull] stands for every missing value ([None], NaN, NaT).
    The module never computes with a float cell, which is kept by its
    64-bit pattern.  Timestamps and time deltas count nanoseconds. *)
Inductive value : Type :=
| VNull
| VBool (b : bool)
| VInt (z : Z)
| VFloat (bits : Z)
| VStr (s : string)
| VTime (ns : Z)
| VDelta (ns : Z).

Definition value_eqb (a b : value) : bool :=
  match a, b with
  | VNull, VNull => true
  | VBool x, VBool y => Bool.eqb x y
  | VInt x, VInt y => Z.eqb x y
  | VFloat x, VFloat y => Z.eqb x y
  | VStr x, VStr y => String.eqb x y
  | VTime x, VTime y => Z.eqb x y
  | VDelta x, VDelta y => Z.eqb x y
  | _, _ => false
  end.

Definition isnull (v : value) : bool :=
  match v with VNull => true | _ => false end.

(** Values of a datetime column. *)
Definition is_datetime (v : value) : bool :=
  match v with VTime _ | VNull => true | _ => false end.

Fixpoint key_eqb (a b : list value) : bool :=
  match a, b with
  | [], [] => true
  | x :: a', y :: b' => value_eqb x y && key_eqb a' b'
  | _, _ => false
  end.

(** A row holds its cells by column label; a label without a cell reads
    as missing, which is how pandas pads the frames it concatenates. *)
Definition row : Type := list (string * value).

Fixpoint cell (c : string) (r : row) : value :=
  match r with
  | [] => VNull
  | (c', v) :: rest => if String.eqb c c' then v else cell c rest
  end.

Definition del_cell (c : string) (r : row) : row :=
  filter (fun kv => negb (String.eqb (fst kv) c)) r.

Definition set_cell (c : string) (v : value) (r : row) : row :=
  (c, v) :: del_cell c r.

(** A frame: its column labels in order, the name of its index, and its
    rows, each with its index label.  Column labels are taken to be
    distinct, as they are in every frame this module receives; the
    statements below say so where they depend on it. *)
Record DataFrame : Type := mkDF {
  columns : list string;
  index_name : option string;
  body : list (value * row)
}.

(** A column taken out of a frame keeps the frame's index. *)
Record Series : Type := mkSeries {
  name : string;
  sindex_name : option string;
  items : list (value * value)
}.

Definition values (s : Series) : list value := map snd (items s).
Definition index (df : DataFrame) : list value := map fst (body df).
Definition nrows (df : DataFrame) : nat := List.length (body df).

Definition with_values (s : Series) (vs : list value) : Series :=
  mkSeries (name s) (sindex_name s) (combine (map fst (items s)) vs).

Definition range_index (n : nat) : list value :=
  map (fun i => VInt (Z.of_nat i)) (seq 0 n).

(** [pd.DataFrame(columns=cols)] *)
Definition empty_frame (cols : list string) : DataFrame := mkDF cols None [].

(** The column labelled [c], with the frame's index. *)
Definition column (df : DataFrame) (c : string) : Series :=
  mkSeries c (index_name df) (map (fun ir => (fst ir, cell c (snd ir))) (body df)).

(** [df[c]] for a label that names one column.  (For a label that two
    columns carry pandas returns a frame, not a column; the statements
    below keep to frames whose labels are distinct, also after the
    module has renamed them.) *)
Definition getitem (df : DataFrame) (c : string) : result Series :=
  if str_in c (columns df) then Ok (column df c) else Raise KeyError.

(** [c in df.columns] after [df[c] = ...]: a new label goes last. *)
Definition add_label (c : string) (cols : list string) : list string :=
  if str_in c cols then cols else cols ++ [c].

(** [df[c] = vs] for values aligned with the rows of [df]. *)
Definition setitem (df : DataFrame) (c : string) (vs : list value)
  : result DataFrame :=
  if Nat.eqb (List.length vs) (nrows df)
  then Ok (mkDF (add_label c (columns df)) (index_name df)
             (map (fun p => (fst (fst p), set_cell c (snd p) (snd (fst p))))
                  (combine (body df) vs)))
  else Raise ValueError.

(** [df[c] = v] for a scalar [v]. *)
Definition setitem_scalar (df : DataFrame) (c : string) (v : value) : DataFrame :=
  mkDF (add_label c (columns df)) (index_name df)
       (map (fun ir => (fst ir, set_cell c v (snd ir))) (body df)).

(** [df[cols]] for a list of labels, each naming one column of a frame
    whose labels are distinct: the columns asked for, in the order asked
    for.  (Under a label that two columns carry pandas returns both;
    see [getitem].) *)
Definition select (df : DataFrame) (cols : list string) : result DataFrame :=
  if forallb (fun c => str_in c (columns df)) cols
  then Ok (mkDF cols (index_name df)
             (map (fun ir => (fst ir, map (fun c => (c, cell c (snd ir))) cols))
                  (body df)))
  else Raise KeyError.

(** [df.drop(labels, axis=1)] *)
Definition drop (df : DataFrame) (labels : list string) : result DataFrame :=
  if forallb (fun c => str_in c (columns df)) labels
  then Ok (mkDF (filter (fun c => negb (str_in c labels)) (columns df))
             (index_name df)
             (map (fun ir => (fst ir,
                              filter (fun kv => negb (str_in (fst kv) labels)) (snd ir)))
                  (body df)))
  else Raise KeyError.

(** [df.rename(mapping, axis=1)]: labels absent from the mapping stay. *)
Definition rename_label (mapping : dict string) (c : string) : string :=
  match dict_get mapping c with
  | Some c' => c'
  | None => c
  end.

Definition rename (df : DataFrame) (mapping : dict string) : DataFrame :=
  mkDF (map (rename_label mapping) (columns df)) (index_name df)
       (map (fun ir => (fst ir,
                        map (fun kv => (rename_label mapping (fst kv), snd kv)) (snd ir)))
            (body df)).

(** [df.pop(c)] returns the column and the frame without it. *)
Definition pop (df : DataFrame) (c : string) : result (Series * DataFrame) :=
  s <- getitem df c ;;
  rest <- drop df [c] ;;
  Ok (s, rest).

(** [df.index = s] *)
Definition set_index (df : DataFrame) (s : Series) : result DataFrame :=
  if Nat.eqb (List.length (items s)) (nrows df)
  then Ok (mkDF (columns df) (Some (name s))
             (map (fun p => (snd p, snd (fst p))) (combine (body df) (values s))))
  else Raise ValueError.

(** [pd.DataFrame(s)] *)
Definition frame_of_series (s : Series) : DataFrame :=
  mkDF [name s] (sindex_name s)
       (map (fun iv => (fst iv, [(name s, snd iv)])) (items s)).

Definition reindexed (rows : list (value * row)) : list (value * row) :=
  combine (range_index (List.length rows)) (map snd rows).

(** [df.reset_index(drop=d)] *)
Definition reset_index (df : DataFrame) (d : bool) : result DataFrame :=
  if d then Ok (mkDF (columns df) None (reindexed (body df)))
  else
    let label :=
      match index_name df with
      | Some n => n
      | None => if str_in "index" (columns df) then "level_0" else "index"
      end in
    if str_in label (columns df) then Raise ValueError
    else Ok (mkDF (label :: columns df) None
               (reindexed (map (fun ir => (fst ir, set_cell label (fst ir) (snd ir)))
                               (body df)))).

(** [pd.concat([a, b])]: rows of [a] then rows of [b], over the union of
    the labels. *)
Definition concat (a b : DataFrame) : DataFrame :=
  mkDF (columns a ++ filter (fun c => negb (str_in c (columns a))) (columns b))
       (match index_name a, index_name b with
        | Some x, Some y => if String.eqb x y then Some x else None
        | _, _ => None
        end)
       (body a ++ body b).

(** [df.insert(0, c, v)] for a scalar [v]. *)
Definition insert_first (df : DataFrame) (c : string) (v : value)
  : result DataFrame :=
  if str_in c (columns df) then Raise ValueError
  else Ok (mkDF (c :: columns df) (index_name df)
             (map (fun ir => (fst ir, set_cell c v (snd ir))) (body df))).

(** [df[df.index.isin(labels)]] *)
Definition isin (labels : list string) (v : value) : bool :=
  match v with
  | VStr s => str_in s labels
  | _ => false
  end.

Definition filter_index (df : DataFrame) (keep : value -> bool) : DataFrame :=
  mkDF (columns df) (index_name df) (filter (fun ir => keep (fst ir)) (body df)).

(** [df.index.str]: pandas gives the accessor by the type of the index.
    An index of text has it, and keeps it through a filter, also when
    the filter leaves no row; an index of numbers or of timestamps has
    not, and reading [.str] raises an attribute error.  The type is read
    off the labels here: an index is of text when it holds a text label.
    An index without labels shows no type; it is taken to be of text, as
    that of a frame built from column names alone is, and the statements
    about the accessor are about an index with labels. *)
Definition has_str_accessor (labels : list value) : bool :=
  match labels with
  | [] => true
  | _ => existsb (fun v => match v with VStr _ => true | _ => false end) labels
  end.

(** [index.str.replace(old, new)] on one label of an index that has the
    accessor; a label that is not a string becomes missing. *)
Definition str_replace (old new : string) (v : value) : value :=
  match v with
  | VStr s => VStr (Py.replace old new s)
  | _ => VNull
  end.

Definition map_index (df : DataFrame) (f : value -> value) : DataFrame :=
  mkDF (columns df) (index_name df) (map (fun ir => (f (fst ir), snd ir)) (body df)).

(** The key of a row under [groupby(by=labels)]. *)
Definition row_key (by_ : list string) (r : row) : list value :=
  map (fun c => cell c r) by_.

Fixpoint distinct (ks : list (list value)) : list (list value) :=
  match ks with
  | [] => []
  | k :: rest => k :: filter (fun k' => negb (key_eqb k' k)) (distinct rest)
  end.

(** The keys [groupby] finds: rows with a missing key cell are left out
    (pandas' default [dropna=True]). *)
Definition group_keys (df : DataFrame) (by_ : list string) : list (list value) :=
  distinct (filter (fun k => negb (existsb isnull k))
                   (map (fun ir => row_key by_ (snd ir)) (body df))).

Definition group_frame (df : DataFrame) (by_ : list string) (k : list value)
  : DataFrame :=
  mkDF (columns df) (index_name df)
       (filter (fun ir => key_eqb (row_key by_ (snd ir)) k) (body df)).

(** The collaborators: what pandas and numpy compute for this module. *)
Class Library : Type := {
  (** [pd.to_datetime] on the values of a column *)
  to_datetime : list value -> result (list value);
  (** [Series.resample(freq).mean()] on (timestamp, value) pairs *)
  resample_mean : string -> list (value * value) -> result (list (value * value));
  (** the order in which [groupby] yields the keys it found *)
  group_order : list (list value) -> list (list value);
  (** [str(x)] for a cell that is not a string *)
  format_scalar : value -> string;
  (** the row order [sort_values] chooses for a column *)
  argsort : list value -> result (list nat);
  (** [pd.infer_freq] *)
  infer_freq : list value -> result (option string);
  (** [to_offset(pd.to_timedelta(d)).freqstr] *)
  timedelta_freqstr : value -> result string
}.

Section WithLibrary.
Context {lib : Library}.

(** [pd.to_datetime(s)] *)
Definition pd_to_datetime (s : Series) : result Series :=
  vs <- to_datetime (values s) ;;
  Ok (with_values s vs).

(** [s.resample(freq).mean()] *)
Definition resample (s : Series) (freq : string) : result Series :=
  out <- resample_mean freq (items s) ;;
  Ok (mkSeries (name s) (sindex_name s) out).

(** [s.astype(str)] *)
Definition to_str (v : value) : string :=
  match v with
  | VStr s => s
  | _ => format_scalar v
  end.

Definition astype_str (s : Series) : list value :=
  map (fun v => VStr (to_str v)) (values s).

(** [df.groupby(by=labels)], iterated: the pairs (key, frame). From
    pandas 2 on the key is a tuple also for a single label. *)
Definition groupby (df : DataFrame) (by_ : list string)
  : result (list (list value * DataFrame)) :=
  match by_ with
  | [] => Raise ValueError
  | _ =>
      if forallb (fun c => str_in c (columns df)) by_
      then Ok (map (fun k => (k, group_frame df by_ k))
                   (group_order (group_keys df by_)))
      else Raise KeyError
  end.

(** [df.sort_values(by=c)] *)
Definition sort_values (df : DataFrame) (c : string) : result DataFrame :=
  s <- getitem df c ;;
  order <- argsort (values s) ;;
  Ok (mkDF (columns df) (index_name df)
        (flat_map (fun i => match nth_error (body df) i with
                            | Some r => [r]
                            | None => []
                            end) order)).

End WithLibrary.

End Pandas.

Import Pandas.

(* ================================================================== *)
(** * numpy: the three array functions the module calls *)
(* ================================================================== *)

Module Numpy.

(** [np.diff] on a datetime array: successive differences; a missing
    timestamp makes the difference missing. *)
Definition minus (later earlier : value) : result value :=
  match later, earlier with
  | VTime b, VTime a => Ok (VDelta (b - a))
  | VNull, VTime _ | VTime _, VNull | VNull, VNull => Ok VNull
  | _, _ => Raise TypeError
  end.

Fixpoint diff (a : list value) : result (list value) :=
  match a with
  | x :: ((y :: _) as rest) =>
      d <- minus y x ;;
      ds <- diff rest ;;
      Ok (d :: ds)
  | _ => Ok []
  end.

(** Time deltas in increasing order, the missing one last. *)
Definition delta_ltb (a b : value) : bool :=
  match a, b with
  | VDelta x, VDelta y => Z.ltb x y
  | VDelta _, _ => true
  | _, _ => false
  end.

Fixpoint count_in (v : value) (acc : list (value * nat)) : list (value * nat) :=
  match acc with
  | [] => [(v, 1)]
  | (w, n) :: rest =>
      if value_eqb v w then (w, S n) :: rest
      else if delta_ltb v w then (v, 1) :: (w, n) :: rest
      else (w, n) :: count_in v rest
  end.

(** [np.unique(a, return_counts=True)]: the sorted distinct values and
    how often each occurs. *)
Definition unique_counts (a : list value) : list value * list nat :=
  let table := fold_left (fun acc v => count_in v acc) a [] in
  (map fst table, map snd table).

Fixpoint argmax_from (best_i best : nat) (i : nat) (a : list nat) : nat :=
  match a with
  | [] => best_i
  | x :: rest =>
      if Nat.ltb best x then argmax_from i x (S i) rest
      else argmax_from best_i best (S i) rest
  end.

(** [np.argmax]: the first position of the largest entry. *)
Definition argmax (a : list nat) : result nat :=
  match a with
  | [] => Raise ValueError
  | x :: rest => Ok (argmax_from 0 x 1 rest)
  end.

End Numpy.

(** [a[i]] on a list. *)
Definition list_index {A} (a : list A) (i : nat) : result A :=
  match nth_error a i with
  | Some x => Ok x
  | None => Raise IndexError
  end.

Fixpoint list_eqb (a b : list string) : bool :=
  match a, b with
  | [], [] => true
  | x :: a', y :: b' => String.eqb x y && list_eqb a' b'
  | _, _ => false
  end.

(** [Series.unique()]: first occurrences, in order. *)
Fixpoint unique (a : list value) : list value :=
  match a with
  | [] => []
  | x :: rest => x :: filter (fun y => negb (value_eqb y x)) (unique rest)
  end.

(* ================================================================== *)
(** * The module *)
(* ================================================================== *)

(** [settings_dict] / [model_args]: the keys the module reads. *)
Record settings : Type := mkSettings {
  frequency : string;
  group_by : list string;
  order_by : string;
  target : string;
  hierarchy : list string
}.

Definition DEFAULT_FREQUENCY : string := "D".

(** The optional dependency: [aggregate] and
    [HierarchicalReconciliation(reconcilers).reconcile]. *)
Inductive reconciler : Type := BottomUp.

Definition tags : Type := dict (list string).

Record HierarchicalForecast : Type := {
  aggregate : DataFrame -> list (list string) -> result (DataFrame * DataFrame * tags);
  reconcile : list reconciler -> DataFrame -> DataFrame -> DataFrame -> tags
              -> result DataFrame
}.

Definition DEFAULT_RECONCILER : reconciler := BottomUp.

(** A value together with the warnings logged while computing it. *)
Definition logged (A : Type) : Type := (A * list string)%type.

(** A scoring function takes the actual and the predicted column. *)
Definition metric_fn : Type := Series -> Series -> number.

Section Module_.
Context {lib : Library}.

(** [row.agg(sep.join, axis=1)]: [str.join] accepts strings only. *)
Definition expect_str (v : value) : result string :=
  match v with
  | VStr s => Ok s
  | _ => Raise TypeError
  end.

(** [df.agg(sep.join, axis=1)], as line 54 assigns it to a column.  On a
    frame without rows pandas has no row to join and hands the frame
    back, not a column; the assignment of line 54 then raises a value
    error. *)
Definition agg_join (sep : string) (df : DataFrame) : result (list value) :=
  match body df with
  | [] => Raise ValueError
  | _ =>
      map_result
        (fun ir =>
           parts <- map_result expect_str (row_key (columns df) (snd ir)) ;;
           Ok (VStr (join sep parts)))
        (body df)
  end.

(** Lines 42-43: the group's target, indexed by the timestamps of its
    order column and resampled to the mean of each period. *)
Definition resample_target (settings_dict : settings) (groupdf : DataFrame)
  : result Series :=
  popped <- pop groupdf (order_by settings_dict) ;;
  stamps <- pd_to_datetime (fst popped) ;;
  groupdf <- set_index (snd popped) stamps ;;
  tgt <- getitem groupdf (target settings_dict) ;;
  resample tgt (frequency settings_dict).

(** The body of the loop over groups, lines 42-47. *)
Definition resample_group (settings_dict : settings) (resampled_df : DataFrame)
    (g : list value * DataFrame) : result DataFrame :=
  let (group, groupdf) := g in
  means <- resample_target settings_dict groupdf ;;
  let resampled_groupdf := frame_of_series means in
  let resampled_groupdf :=
    fold_left (fun d kv => setitem_scalar d (fst kv) (snd kv))
              (combine (group_by settings_dict) group) resampled_groupdf in
  resampled_groupdf <- reset_index resampled_groupdf false ;;
  Ok (concat resampled_df resampled_groupdf).

(** Lines 37-48: every group resampled, when there is a grouping. *)
Definition resample_every_group (nixtla_df : DataFrame) (settings_dict : settings)
  : result DataFrame :=
  let resampled_df := empty_frame (columns nixtla_df) in
  match group_by settings_dict with
  | [] => Ok nixtla_df
  | _ =>
      if negb (list_eqb (group_by settings_dict) ["__group_by"])
      then
        groups <- groupby nixtla_df (group_by settings_dict) ;;
        for_each groups (resample_group settings_dict) resampled_df
      else Ok nixtla_df
  end.

(** Lines 53-54, also lines 152-153: the grouping columns as text. *)
Definition astype_str_columns (nixtla_df : DataFrame) (cols : list string)
  : result DataFrame :=
  for_each cols (fun d col => s <- getitem d col ;; setitem d col (astype_str s))
           nixtla_df.

(** Lines 50-57: the grouping columns made into [unique_id], and the
    label that line 60 is to rename to [unique_id]. *)
Definition unique_id_column (nixtla_df : DataFrame) (settings_dict : settings)
  : result (DataFrame * string) :=
  if Nat.ltb 1 (List.length (group_by settings_dict))
  then
    nixtla_df <- astype_str_columns nixtla_df (group_by settings_dict) ;;
    keys <- select nixtla_df (group_by settings_dict) ;;
    joined <- agg_join "/" keys ;;
    nixtla_df <- setitem nixtla_df "unique_id" joined ;;
    Ok (nixtla_df, "ignore this")
  else
    group_col <- list_index (group_by settings_dict) 0 ;;
    Ok (nixtla_df, group_col).

(** Lines 59-70: the names statsforecast expects, the default
    [unique_id], timestamps, and the columns to keep. *)
Definition statsforecast_columns (nixtla_df : DataFrame) (settings_dict : settings)
    (group_col : string) (exog_vars : list string) : result DataFrame :=
  let nixtla_df :=
    rename nixtla_df
      (dict_of [(target settings_dict, "y"); (order_by settings_dict, "ds");
                (group_col, "unique_id")]) in
  let nixtla_df :=
    if negb (str_in "unique_id" (columns nixtla_df))
    then setitem_scalar nixtla_df "unique_id" (VStr "1")
    else nixtla_df in
  let columns_to_keep := ["unique_id"; "ds"; "y"] ++ exog_vars in
  ds <- getitem nixtla_df "ds" ;;
  ds <- pd_to_datetime ds ;;
  nixtla_df <- setitem nixtla_df "ds" (values ds) ;;
  select nixtla_df columns_to_keep.

Definition transform_to_nixtla_df (df : DataFrame) (settings_dict : settings)
    (exog_vars : list string) : result DataFrame :=
  let nixtla_df := df in
  nixtla_df <- resample_every_group nixtla_df settings_dict ;;
  grouped <- unique_id_column nixtla_df settings_dict ;;
  statsforecast_columns (fst grouped) settings_dict (snd grouped) exog_vars.

(** [lambda x: x.split("/")[i]] *)
Definition split_part (i : nat) (x : value) : result value :=
  match x with
  | VStr s => part <- list_index (split "/"%char s) i ;; Ok (VStr part)
  | _ => Raise AttributeError
  end.

(** Line 82, for the [i]-th grouping column [group]. *)
Definition split_unique_id (return_df : DataFrame) (ig : nat * string)
  : result DataFrame :=
  let (i, group) := ig in
  uid <- getitem return_df "unique_id" ;;
  parts <- map_result (split_part i) (values uid) ;;
  setitem return_df group parts.

Definition get_results_from_nixtla_df (nixtla_df : DataFrame) (model_args : settings)
  : result DataFrame :=
  return_df <-
    reset_index nixtla_df
      (if str_in "unique_id" (columns nixtla_df) then true else false) ;;
  return_df <-
    (if Nat.ltb 0 (List.length (group_by model_args))
     then
       if Nat.ltb 1 (List.length (group_by model_args))
       then
         for_each (enumerate (group_by model_args)) split_unique_id return_df
       else
         group_by_col <- list_index (group_by model_args) 0 ;;
         uid <- getitem return_df "unique_id" ;;
         setitem return_df group_by_col (values uid)
     else Ok return_df) ;;
  dropped <- drop return_df ["unique_id"] ;;
  Ok (rename dropped (dict_of [("ds", order_by model_args)])).

(** Line 92: the distinct timestamps of the time column, the table sorted
    by that column first. *)
Definition date_series_of (df : DataFrame) (time_column : string)
  : result (list value) :=
  sorted <- sort_values df time_column ;;
  col <- getitem sorted time_column ;;
  stamps <- pd_to_datetime col ;;
  Ok (unique (values stamps)).

(** Lines 95-96: the most frequent difference of successive timestamps. *)
Definition most_common_delta (date_series : list value) : result value :=
  deltas <- Numpy.diff date_series ;;
  let (vals, counts) := Numpy.unique_counts deltas in
  i <- Numpy.argmax counts ;;
  list_index vals i.

(** The [try] block of [infer_frequency], lines 92-97. *)
Definition infer_frequency_try (df : DataFrame) (time_column : string)
  : result (option string) :=
  date_series <- date_series_of df time_column ;;
  inferred_freq <- infer_freq date_series ;;
  match inferred_freq with
  | Some f => Ok (Some f)
  | None =>
      delta <- most_common_delta date_series ;;
      f <- timedelta_freqstr delta ;;
      Ok (Some f)
  end.

Definition infer_frequency (df : DataFrame) (time_column : string) (default : string)
  : result string :=
  inferred_freq <-
    try_except (infer_frequency_try df time_column) TypeError (Ok (Some default)) ;;
  Ok (match inferred_freq with
      | Some f => f
      | None => default
      end).

Definition get_model_accuracy_dict (nixtla_results_df : DataFrame) (metric : metric_fn)
  : result (dict number) :=
  for_each (columns nixtla_results_df)
    (fun accuracy_dict column =>
       if str_in column ["unique_id"; "ds"; "y"; "cutoff"]
       then Ok accuracy_dict
       else
         y <- getitem nixtla_results_df "y" ;;
         predicted <- getitem nixtla_results_df column ;;
         let model_error := metric y predicted in
         Ok (dict_set accuracy_dict column model_error))
    [].

Definition get_best_model_from_results_df (nixtla_results_df : DataFrame)
    (metric : metric_fn) : result (option string) :=
  accuracy_dict <- get_model_accuracy_dict nixtla_results_df metric ;;
  Ok (fst (fold_left
             (fun best item =>
                if gt (snd item) (snd best) then (Some (fst item), snd item) else best)
             accuracy_dict (None, of_Z 0))).

Definition spec_hierarchy_from_list (col_list : list string) : list (list string) :=
  fold_left (fun spec i => spec ++ [["Total"] ++ firstn (i + 1) col_list])
            (seq 0 (List.length col_list)) [["Total"]].

Section Optional.
(** The module-level names bound by the guarded import: [None] when the
    package is missing. *)
Variable HierarchicalReconciliation : option HierarchicalForecast.

Definition get_hierarchy_from_df (df : DataFrame) (model_args : settings)
  : logged (result (option (DataFrame * DataFrame * tags))) :=
  match HierarchicalReconciliation with
  | Some hf =>
      (let spec := spec_hierarchy_from_list (hierarchy model_args) in
       let nixtla_df :=
         rename df (dict_of [(order_by model_args, "ds"); (target model_args, "y")]) in
       ds <- getitem nixtla_df "ds" ;;
       ds <- pd_to_datetime ds ;;
       nixtla_df <- setitem nixtla_df "ds" (values ds) ;;
       nixtla_df <- astype_str_columns nixtla_df (group_by model_args) ;;
       nixtla_df <- insert_first nixtla_df "Total" (VStr "total") ;;
       out <- aggregate hf nixtla_df spec ;;
       Ok (Some out),
       [])
  | None =>
      (Ok None,
       ["HierarchicalForecast is not installed, but `get_hierarchy_from_df` has been called. This should never happen."])
  end.

(** The loop of lines 181-185: [Some] once [results_df] is bound. *)
Fixpoint drop_unreconciled (reconciled_df : DataFrame) (cols : list string)
  : result (option DataFrame) :=
  match cols with
  | [] => Ok None
  | col :: rest =>
      if negb (str_in col ["ds"; "y"])
      then
        if negb (contains "BottomUp" col)
        then results_df <- drop reconciled_df [col] ;; Ok (Some results_df)
        else drop_unreconciled reconciled_df rest
      else drop_unreconciled reconciled_df rest
  end.

Definition get_results_from_reconciled_df (reconciled_df hierarchy_df : DataFrame)
  : result DataFrame :=
  bound <- drop_unreconciled reconciled_df (columns reconciled_df) ;;
  let lowest_level_ids := columns hierarchy_df in
  match bound with
  | None => Raise UnboundLocalError
  | Some results_df =>
      (* the type of the index, which the filter of line 189 keeps *)
      let text_index := has_str_accessor (index results_df) in
      let results_df := filter_index results_df (isin lowest_level_ids) in
      if text_index
      then Ok (map_index results_df (str_replace "total/" ""))
      else Raise AttributeError
  end.

Definition reconcile_forecasts (nixtla_df forecast_df hierarchy_df : DataFrame)
    (hierarchy_dict : tags) : logged (result (option DataFrame)) :=
  match HierarchicalReconciliation with
  | Some hf =>
      (let reconcilers := [DEFAULT_RECONCILER] in
       reconciled_df <-
         reconcile hf reconcilers forecast_df nixtla_df hierarchy_df hierarchy_dict ;;
       out <- get_results_from_reconciled_df reconciled_df hierarchy_df ;;
       Ok (Some out),
       [])
  | None =>
      (Ok None,
       ["HierarchicalForecast is not installed, but `reconcile_forecasts` has been called. This should never happen."])
  end.

End Optional.
End Module_.

(* ================================================================== *)
(** * A reference instance of the collaborators

    Enough of pandas to run the module on concrete tables: timestamps
    that are already parsed (or given as integers), series that are
    already regular at the requested frequency, the daily rule of
    frequency detection, and the sort of a column whose cells are of one
    kind. *)
(* ================================================================== *)

Module Reference.

Definition day : Z := 86400000000000%Z.

(** Timestamps convert to themselves, integers count nanoseconds since
    the epoch, booleans are refused with a type error; text is not
    parsed here: a text cell is refused with the value error that text
    holding no date gets. *)
Definition to_datetime1 (v : value) : result value :=
  match v with
  | VTime t => Ok (VTime t)
  | VNull => Ok VNull
  | VInt n => Ok (VTime n)
  | VBool _ => Raise TypeError
  | _ => Raise ValueError
  end.

(** The kinds of cells that compare with one another. *)
Inductive kind : Type := Numbers | Floats | Texts | Times | Deltas.

Definition kind_of (v : value) : option kind :=
  match v with
  | VNull => None
  | VBool _ | VInt _ => Some Numbers
  | VFloat _ => Some Floats
  | VStr _ => Some Texts
  | VTime _ => Some Times
  | VDelta _ => Some Deltas
  end.

Definition kind_eqb (a b : kind) : bool :=
  match a, b with
  | Numbers, Numbers | Floats, Floats | Texts, Texts | Times, Times
  | Deltas, Deltas => true
  | _, _ => false
  end.

(** A column sorts when its cells, the missing ones apart, are of one
    kind; comparing text with a number or a timestamp is a type error.
    (pandas keeps integers and floats in columns of their own; a column
    that holds both is outside this instance and is refused likewise.) *)
Definition one_kind (vs : list value) : bool :=
  match flat_map (fun v => match kind_of v with
                           | Some k => [k]
                           | None => []
                           end) vs with
  | [] => true
  | k :: ks => forallb (kind_eqb k) ks
  end.

(** Booleans count as 0 and 1; a float is ordered by the number its
    pattern encodes (sign and magnitude). *)
Definition sort_key (v : value) : option Z :=
  match v with
  | VBool b => Some (if b then 1 else 0)%Z
  | VInt z | VTime z | VDelta z => Some z
  | VFloat bits => Some (if Z.ltb bits (2 ^ 63) then bits else 2 ^ 63 - bits)%Z
  | _ => None
  end.

(** The ascending order of [sort_values]: text by its characters' codes,
    the other kinds by their numbers, a missing cell after every other. *)
Definition value_ltb (a b : value) : bool :=
  match a, b with
  | VNull, _ => false
  | _, VNull => true
  | VStr x, VStr y => String.ltb x y
  | _, _ =>
      match sort_key a, sort_key b with
      | Some x, Some y => Z.ltb x y
      | _, _ => false
      end
  end.

Fixpoint insert_sorted (p : value * nat) (acc : list (value * nat))
  : list (value * nat) :=
  match acc with
  | [] => [p]
  | q :: rest => if value_ltb (fst p) (fst q) then p :: q :: rest
                 else q :: insert_sorted p rest
  end.

(** The row numbers in ascending order of the cells.  Rows with equal
    cells keep their order here; pandas does not promise that, and the
    column read off the sorted table does not depend on it. *)
Definition argsort_values (vs : list value) : result (list nat) :=
  if one_kind vs
  then Ok (map snd (fold_left (fun acc p => insert_sorted p acc)
                              (combine vs (seq 0 (List.length vs))) []))
  else Raise TypeError.

Fixpoint daily (stamps : list value) : bool :=
  match stamps with
  | VTime a :: ((VTime b :: _) as rest) => Z.eqb (b - a) day && daily rest
  | [VTime _] => true
  | _ => false
  end.

(** [pd.infer_freq] needs at least three dates and raises a value error
    otherwise; of its rules only the daily one is here. *)
Definition infer_daily (stamps : list value) : result (option string) :=
  if negb (forallb is_datetime stamps) then Raise TypeError
  else if Nat.ltb (List.length stamps) 3 then Raise ValueError
  else Ok (if daily stamps then Some "D" else None).

Definition one_day_freqstr (d : value) : result string :=
  match d with
  | VDelta ns => if Z.eqb ns day then Ok "D" else Raise ValueError
  | _ => Raise ValueError
  end.

Definition format_basic (v : value) : string :=
  match v with
  | VNull => "nan"
  | VBool true => "True"
  | VBool false => "False"
  | _ => ""
  end.

(** Resampling leaves a series that is already regular as it is, and
    the groups come in the order of their keys' first rows. *)
Definition library : Library := {|
  to_datetime := map_result to_datetime1;
  resample_mean := fun _ its => Ok its;
  group_order := fun ks => ks;
  format_scalar := format_basic;
  argsort := argsort_values;
  infer_freq := infer_daily;
  timedelta_freqstr := one_day_freqstr
|}.

End Reference.

(* ================================================================== *)
(** * Vocabulary of the statements and example tables *)
(* ================================================================== *)

(** The column names a results table reserves. *)
Definition reserved (c : string) : bool :=
  str_in c ["unique_id"; "ds"; "y"; "cutoff"].

(** The models of a results table: its columns that are not reserved. *)
Definition models (df : DataFrame) : list string :=
  filter (fun c => negb (reserved c)) (columns df).

(** A metric that looks the score of a model up in a table. *)
Definition scored_by (scores : dict number) : metric_fn :=
  fun _ predicted =>
    match dict_get scores (name predicted) with
    | Some s => s
    | None => NaN
    end.

(** Results tables with one and with two models. *)
Definition results_row (cells : list (string * value)) : row :=
  [("unique_id", VStr "a"); ("ds", VTime 0); ("y", VInt 10)] ++ cells.

Definition results_m1_m2 : DataFrame :=
  mkDF ["unique_id"; "ds"; "y"; "m1"; "m2"] None
       [(VInt 0, results_row [("m1", VInt 9); ("m2", VInt 10)])].

Definition results_m1 : DataFrame :=
  mkDF ["unique_id"; "ds"; "y"; "m1"] None
       [(VInt 0, results_row [("m1", VInt 12)])].

(** The first column, other than ds and y, whose name lacks the
    reconciliation marker. *)
Fixpoint first_unreconciled (cols : list string) : option string :=
  match cols with
  | [] => None
  | c :: rest =>
      if negb (str_in c ["ds"; "y"]) && negb (contains "BottomUp" c)
      then Some c
      else first_unreconciled rest
  end.

(** A list of labels with one occurrence of [c] taken out. *)
Fixpoint remove_one (c : string) (cols : list string) : list string :=
  match cols with
  | [] => []
  | x :: rest => if String.eqb x c then rest else x :: remove_one c rest
  end.

Definition strip_total (v : value) : value :=
  match v with
  | VStr s => VStr (removeprefix "total/" s)
  | _ => v
  end.

Definition is_str (v : value) : bool :=
  match v with VStr _ => true | _ => false end.

(** What the specification says of unpacking a reconciled table: exactly
    one column goes, the first unreconciled one; the rows kept are those
    labelled by a leaf of the hierarchy matrix; their labels lose the
    prefix. *)
Definition unpacked (reconciled_df hierarchy_df out : DataFrame) : Prop :=
  exists c,
    first_unreconciled (columns reconciled_df) = Some c
    /\ columns out = remove_one c (columns reconciled_df)
    /\ body out
       = map (fun ir => (strip_total (fst ir), del_cell c (snd ir)))
             (filter (fun ir => isin (columns hierarchy_df) (fst ir))
                     (body reconciled_df)).

Definition unpacks_as_specified (reconciled_df hierarchy_df : DataFrame) : Prop :=
  exists out,
    get_results_from_reconciled_df reconciled_df hierarchy_df = Ok out
    /\ unpacked reconciled_df hierarchy_df out.

(** Reconciled tables. *)
Definition forecast_row (raw reconciled : Z) : row :=
  [("ds", VTime 0); ("y", VInt 1); ("m1", VInt raw); ("m1/BottomUp", VInt reconciled)].

Definition reconciled_example : DataFrame :=
  mkDF ["ds"; "y"; "m1"; "m1/BottomUp"] (Some "unique_id")
       [(VStr "total", forecast_row 7 5);
        (VStr "total/x", forecast_row 6 5);
        (VStr "a", forecast_row 4 2);
        (VStr "b", forecast_row 2 3)].

Definition leaves_a_b : DataFrame := mkDF ["a"; "b"] None [].

Definition reconciled_only : DataFrame :=
  mkDF ["ds"; "y"; "m1/BottomUp"] (Some "unique_id")
       [(VStr "a", [("ds", VTime 0); ("y", VInt 1); ("m1/BottomUp", VInt 2)])].

Definition reconciled_subtotal : DataFrame :=
  mkDF ["ds"; "y"; "m1"; "m1/BottomUp"] (Some "unique_id")
       [(VStr "total", forecast_row 7 5);
        (VStr "total/subtotal/x", forecast_row 4 5)].

Definition leaves_subtotal : DataFrame := mkDF ["total/subtotal/x"] None [].

(** What the specification says of frequency inference: it returns. *)
Definition never_raises {lib : Library} (df : DataFrame) (time_column default : string)
  : Prop :=
  exists f, infer_frequency df time_column default = Ok f.

(** How often [v] occurs in [l]. *)
Definition occurrences (v : value) (l : list value) : nat :=
  List.length (filter (value_eqb v) l).

(** Tables for frequency inference: daily timestamps with one gap, given
    out of order and with a repeated day; a column of booleans; a table
    without the time column; two timestamps only. *)
Definition stamp_rows (c : string) (vs : list value) : list (value * row) :=
  combine (range_index (List.length vs)) (map (fun v => [(c, v)]) vs).

Definition daily_with_gap : DataFrame :=
  mkDF ["ds"] None
       (stamp_rows "ds"
          [VTime (2 * Reference.day); VTime 0; VTime Reference.day;
           VTime (4 * Reference.day); VTime Reference.day]).

Definition boolean_column : DataFrame :=
  mkDF ["ds"] None (stamp_rows "ds" [VBool true; VBool false; VBool true]).

Definition without_time_column : DataFrame :=
  mkDF ["y"] None (stamp_rows "y" [VInt 1; VInt 2; VInt 3]).

Definition two_days : DataFrame :=
  mkDF ["ds"] None (stamp_rows "ds" [VTime 0; VTime Reference.day]).

(** What the selection loop maintains: no score seen so far exceeds the
    current accuracy; without a best model the accuracy is the baseline;
    with one, it is that model's score, above the baseline, and no
    earlier score reaches it. *)
Definition best_invariant (seen : dict number) (best : option string * number) : Prop :=
  (forall m s, In (m, s) seen -> gt s (snd best) = false)
  /\ (fst best = None -> snd best = of_Z 0)
  /\ (forall m, fst best = Some m ->
        gt (snd best) (of_Z 0) = true
        /\ exists earlier later,
             seen = earlier ++ (m, snd best) :: later
             /\ forall m' s', In (m', s') earlier -> le (snd best) s' = false).

Definition is_delta (v : value) : Prop :=
  match v with VDelta _ | VNull => True | _ => False end.

(** The count a table of (value, count) pairs holds for [w]. *)
Fixpoint table_count (t : list (value * nat)) (w : value) : nat :=
  match t with
  | [] => 0
  | (k, n) :: rest => if value_eqb w k then n else table_count rest w
  end.

(** Every key of the table is above [v]. *)
Definition above (v : value) (t : list (value * nat)) : Prop :=
  Forall (fun kn => Numpy.delta_ltb v (fst kn) = true) t.

Fixpoint increasing (t : list (value * nat)) : Prop :=
  match t with
  | [] => True
  | (k, _) :: rest => above k rest /\ increasing rest
  end.

(** The grouping values of a table, row by row. *)
Definition group_rows (df : DataFrame) (by_ : list string) : list (list value) :=
  map (fun ir => row_key by_ (snd ir)) (body df).

(** There and back, as section 8 of the specification writes it. *)
Definition round_trip {lib : Library} (df : DataFrame) (cfg : settings)
  : result DataFrame :=
  normalized <- transform_to_nixtla_df df cfg [] ;;
  get_results_from_nixtla_df normalized cfg.

(** The result has the order column under its original name and holds
    the same grouping values as the table, compared as text (row order
    and dtype aside). *)
Definition restored {lib : Library} (df : DataFrame) (cfg : settings)
    (out : DataFrame) : Prop :=
  In (order_by cfg) (columns out)
  /\ incl (group_by cfg) (columns out)
  /\ forall key,
       In key (map (map to_str) (group_rows out (group_by cfg)))
       <-> In key (map (map to_str) (group_rows df (group_by cfg))).

Definition round_trip_restores {lib : Library} (df : DataFrame) (cfg : settings)
  : Prop :=
  exists out, round_trip df cfg = Ok out /\ restored df cfg out.

(** What pandas guarantees of two collaborators: [groupby] yields every
    key it found, once; timestamps convert to themselves. *)
Class LibraryContract (lib : Library) : Prop := {
  group_order_permutes : forall ks, Permutation (group_order ks) ks;
  to_datetime_of_datetimes :
    forall vs, forallb is_datetime vs = true -> to_datetime vs = Ok vs
}.

(** A wide table for the settings: distinct labels, among them the
    grouping columns (at least one, not the marker of no grouping), the
    order column and the target, all different; the names the normalized
    format uses are free, or already name the column they will name. *)
Record wide_table (df : DataFrame) (cfg : settings) : Prop := {
  labels_distinct : NoDup (columns df);
  groups_given : group_by cfg <> [];
  groups_not_marker : group_by cfg <> ["__group_by"];
  groups_distinct : NoDup (group_by cfg);
  groups_present : incl (group_by cfg) (columns df);
  order_present : In (order_by cfg) (columns df);
  target_present : In (target cfg) (columns df);
  order_not_target : order_by cfg <> target cfg;
  order_not_group : ~ In (order_by cfg) (group_by cfg);
  target_not_group : ~ In (target cfg) (group_by cfg);
  unique_id_free : ~ In "unique_id" (columns df);
  placeholder_free : ~ In "ignore this" (columns df);
  ds_is_order : In "ds" (columns df) -> order_by cfg = "ds";
  y_is_target : In "y" (columns df) -> target cfg = "y"
}.

(** Every group converts and resamples, to at least one period. *)
Definition resamples_well {lib : Library} (df : DataFrame) (cfg : settings) : Prop :=
  forall k, In k (group_keys df (group_by cfg)) ->
    exists means,
      resample_target cfg (group_frame df (group_by cfg) k) = Ok means
      /\ items means <> []
      /\ forallb is_datetime (map fst (items means)) = true.

(** With several grouping columns, some row has all its grouping
    values: [groupby] finds a group, and line 54 has a row to join. *)
Definition some_group (df : DataFrame) (cfg : settings) : Prop :=
  1 < List.length (group_by cfg) ->
  exists key, In key (group_rows df (group_by cfg)) /\ existsb isnull key = false.

(** No grouping value is missing. *)
Definition groups_known (df : DataFrame) (cfg : settings) : Prop :=
  forall key, In key (group_rows df (group_by cfg)) -> existsb isnull key = false.

(** With several grouping columns, no grouping value contains the
    delimiter. *)
Definition delimiter_free {lib : Library} (df : DataFrame) (cfg : settings) : Prop :=
  1 < List.length (group_by cfg) ->
  forall key v, In key (group_rows df (group_by cfg)) -> In v key ->
                contains "/" (to_str v) = false.

(** Wide tables: two grouping columns, a daily order column, a target. *)
Definition sales_row (region store : value) (t : Z) (sold : Z) : row :=
  [("region", region); ("store", store); ("day", VTime t); ("sold", VInt sold)].

Definition sales : DataFrame :=
  mkDF ["region"; "store"; "day"; "sold"] None
       [(VInt 0, sales_row (VStr "north") (VStr "n1") 0 5);
        (VInt 1, sales_row (VStr "north") (VStr "n1") Reference.day 6);
        (VInt 2, sales_row (VStr "south") (VStr "s1") 0 7)].

Definition sales_with_delimiter : DataFrame :=
  mkDF ["region"; "store"; "day"; "sold"] None
       [(VInt 0, sales_row (VStr "a/b") (VStr "c") 0 5)].

Definition sales_with_missing_region : DataFrame :=
  mkDF ["region"; "store"; "day"; "sold"] None
       [(VInt 0, sales_row VNull (VStr "c") 0 5);
        (VInt 1, sales_row (VStr "north") (VStr "n1") 0 6)].

Definition sales_without_rows : DataFrame :=
  mkDF ["region"; "store"; "day"; "sold"] None [].

Definition by_region_and_store : settings :=
  mkSettings "D" ["region"; "store"] "day" "sold" [].

Definition by_region : settings := mkSettings "D" ["region"] "day" "sold" [].

Definition ungrouped : settings := mkSettings "D" [] "day" "sold" [].

(** The settings of a caller without grouping: the marker. *)
Definition marked_ungrouped : settings :=
  mkSettings "D" ["__group_by"] "day" "sold" [].


(** [r] after the assignments [kvs], in order. *)
Definition set_cells (kvs : list (string * value)) (r : row) : row :=
  fold_left (fun r kv => set_cell (fst kv) (snd kv) r) kvs r.

(** The row the loop over groups builds for the group [k] from one
    resampled (timestamp, mean) pair. *)
Definition resampled_row (cfg : settings) (k : list value) (iv : value * value) : row :=
  set_cell (order_by cfg) (fst iv)
           (set_cells (combine (group_by cfg) k) [(target cfg, snd iv)]).

(** The series identifier of a group. *)
Definition uid_of {lib : Library} (cfg : settings) (k : list value) : value :=
  if Nat.ltb 1 (List.length (group_by cfg))
  then VStr (join "/" (map to_str k))
  else hd VNull k.

(** A row of the normalized table. *)
Definition normalized_row {lib : Library} (cfg : settings) (r : row) : row :=
  [("unique_id", uid_of cfg (row_key (group_by cfg) r));
   ("ds", cell (order_by cfg) r);
   ("y", cell (target cfg) r)].

(** The grouping values as they come back. *)
Definition returned_key {lib : Library} (cfg : settings) (k : list value) : list value :=
  if Nat.ltb 1 (List.length (group_by cfg))
  then map (fun v => VStr (to_str v)) k
  else k.

(** A row with the cells under [cols] turned to text. *)
Definition astype_cells {lib : Library} (cols : list string) (r : row) : row :=
  fold_left (fun r c => set_cell c (VStr (to_str (cell c r))) r) cols r.

(** The part of the series identifier that line 82 puts under a
    grouping column. *)
Definition part_of (i : nat) (r : row) : value :=
  match split_part i (cell "unique_id" r) with
  | Ok v => v
  | Raise _ => VNull
  end.

Definition split_cells (igs : list (nat * string)) (r : row) : row :=
  fold_left (fun r ig => set_cell (snd ig) (part_of (fst ig) r) r) igs r.

(** The resampled series of a group, and the rows the loop adds for it. *)
Definition group_means {lib : Library} (df : DataFrame) (cfg : settings)
    (k : list value) : Series :=
  match resample_target cfg (group_frame df (group_by cfg) k) with
  | Ok means => means
  | Raise _ => mkSeries (target cfg) None []
  end.

Definition group_rows_resampled {lib : Library} (df : DataFrame) (cfg : settings)
    (k : list value) : list (value * row) :=
  reindexed (map (fun iv => (fst iv, resampled_row cfg k iv))
                 (items (group_means df cfg k))).

(** A label of the frame that reaches line 60: one of the table's, or
    the new [unique_id] when the placeholder is in use. *)
Definition known_label (df : DataFrame) (gc l : string) : Prop :=
  (l = "unique_id" /\ gc = "ignore this") \/ In l (columns df).

(** ** Further example tables

    Tables and settings for the properties beyond the specification's
    claims, and a stand-in for the optional package. *)

(** A results table that lacks the actuals. *)
Definition results_without_actuals : DataFrame :=
  mkDF ["unique_id"; "ds"; "m1"] None
       [(VInt 0, [("unique_id", VStr "a"); ("ds", VTime 0); ("m1", VInt 9)])].

(** A results table without any model column. *)
Definition results_without_models : DataFrame :=
  mkDF ["unique_id"; "ds"] None
       [(VInt 0, [("unique_id", VStr "a"); ("ds", VTime 0)])].

(** A reconciled table whose rows are labelled by their position. *)
Definition reconciled_by_position : DataFrame :=
  mkDF ["ds"; "y"; "m1"; "m1/BottomUp"] None
       [(VInt 0, forecast_row 7 5); (VInt 1, forecast_row 4 2)].

(** A reconciled table of two models. *)
Definition reconciled_two_models : DataFrame :=
  mkDF ["ds"; "y"; "m1"; "m2"; "m1/BottomUp"; "m2/BottomUp"] (Some "unique_id")
       [(VStr "total", [("ds", VTime 0); ("y", VInt 3); ("m1", VInt 7); ("m2", VInt 8);
                        ("m1/BottomUp", VInt 5); ("m2/BottomUp", VInt 6)]);
        (VStr "a", [("ds", VTime 0); ("y", VInt 1); ("m1", VInt 4); ("m2", VInt 3);
                    ("m1/BottomUp", VInt 2); ("m2/BottomUp", VInt 1)])].

(** Timestamps whose successive differences tie: one and two days. *)
Definition days_0_1_3 : list value :=
  [VTime 0; VTime Reference.day; VTime (3 * Reference.day)].

(** A wide table whose single grouping value contains the delimiter. *)
Definition sales_of_one_region : DataFrame :=
  mkDF ["region"; "store"; "day"; "sold"] None
       [(VInt 0, sales_row (VStr "a/b") (VStr "c") 0 5);
        (VInt 1, sales_row (VStr "a/b") (VStr "c") Reference.day 6)].

(** A table without grouping columns, its days given as integers. *)
Definition readings : DataFrame :=
  mkDF ["day"; "sold"] (Some "id")
       [(VStr "r1", [("day", VInt 0); ("sold", VInt 5)]);
        (VStr "r2", [("day", VInt 7); ("sold", VInt 6)])].

(** A wide table with a further column, for use as an exogenous
    variable. *)
Definition sales_with_price : DataFrame :=
  mkDF ["region"; "day"; "sold"; "price"] None
       [(VInt 0, [("region", VStr "north"); ("day", VTime 0); ("sold", VInt 5);
                  ("price", VInt 3)]);
        (VInt 1, [("region", VStr "north"); ("day", VTime Reference.day);
                  ("sold", VInt 6); ("price", VInt 4)])].

(** Forecasts in the normalized layout: one identifier lacks a part,
    another has one too many. *)
Definition forecast_of (uid : string) (t : Z) (v : Z) : row :=
  [("unique_id", VStr uid); ("ds", VTime t); ("m1", VInt v)].

Definition forecasts_short_id : DataFrame :=
  mkDF ["unique_id"; "ds"; "m1"] None
       [(VInt 0, forecast_of "north/n1" 0 5); (VInt 1, forecast_of "south" 0 7)].

Definition forecasts_long_id : DataFrame :=
  mkDF ["unique_id"; "ds"; "m1"] None
       [(VInt 0, forecast_of "north/n1" 0 5); (VInt 1, forecast_of "south/s1/x" 0 7)].

(** Forecasts labelled by their series, as the forecasting library
    returns them. *)
Definition forecasts_by_series : DataFrame :=
  mkDF ["ds"; "m1"] (Some "unique_id")
       [(VStr "north", [("ds", VTime 0); ("m1", VInt 5)]);
        (VStr "south", [("ds", VTime 0); ("m1", VInt 7)])].

(** A normalized table that still carries an index of its own. *)
Definition normalized_labelled : DataFrame :=
  mkDF ["unique_id"; "ds"; "y"] (Some "id")
       [(VStr "r1", [("unique_id", VStr "north"); ("ds", VTime 0); ("y", VInt 5)]);
        (VStr "r2", [("unique_id", VStr "south"); ("ds", VTime 0); ("y", VInt 7)])].

(** A stand-in for the optional package: [aggregate] hands back the table
    it was given, with an empty summing matrix and the levels of the
    specification as tags; [reconcile] adds to the forecasts a reconciled
    copy of the column m1. *)
Definition echo_package : HierarchicalForecast := {|
  aggregate := fun df spec =>
    Ok (df, mkDF [] None [], map (fun level => (join "/" level, level)) spec);
  reconcile := fun _ Y_hat_df _ _ _ =>
    s <- getitem Y_hat_df "m1" ;;
    setitem Y_hat_df "m1/BottomUp" (values s)
|}.

(** Settings with a hierarchy, and a table that already has a column
    named Total. *)
Definition hierarchical : settings :=
  mkSettings "D" ["region"; "store"] "day" "sold" ["region"; "store"].

Definition sales_with_total : DataFrame :=
  mkDF ["Total"; "region"; "store"; "day"; "sold"] None
       [(VInt 0, ("Total", VInt 1) :: sales_row (VStr "north") (VInt 1) 0 5)].

(** Forecasts of one model, labelled by series. *)
Definition forecasts_m1 : DataFrame :=
  mkDF ["ds"; "m1"] (Some "unique_id")
       [(VStr "total", [("ds", VTime 0); ("m1", VInt 7)]);
        (VStr "total/a", [("ds", VTime 0); ("m1", VInt 4)]);
        (VStr "total/b", [("ds", VTime 0); ("m1", VInt 3)])].

Definition leaves_total_a_b : DataFrame := mkDF ["total/a"; "total/b"] None [].

(** ** Frequency inference: sorted timestamps *)

(** Timestamps in increasing order, the missing one last. *)
Definition stamp_ltb (a b : value) : bool :=
  match a, b with
  | VTime x, VTime y => Z.ltb x y
  | VTime _, VNull => true
  | _, _ => false
  end.

(** The entries of [l] at the positions [order], the way [sort_values]
    lays the rows out. *)
Definition take {A : Type} (l : list A) (order : list nat) : list A :=
  flat_map (fun i => match nth_error l i with
                     | Some r => [r]
                     | None => []
                     end) order.

(** No timestamp comes before an earlier one; each timestamp comes
    before the later ones. *)
Definition ascending (vs : list value) : Prop :=
  StronglySorted (fun a b => stamp_ltb b a = false) vs.

Definition strictly_ascending (vs : list value) : Prop :=
  StronglySorted (fun a b => stamp_ltb a b = true) vs.

(** What pandas guarantees of [sort_values]: when it returns, every row
    is there once; on a datetime column it returns, and the column
    ascends, the missing timestamps last. *)
Class SortContract (lib : Library) : Prop := {
  argsort_permutes :
    forall vs order,
      argsort vs = Ok order -> Permutation order (seq 0 (List.length vs));
  argsort_of_datetimes :
    forall vs, forallb is_datetime vs = true -> exists order, argsort vs = Ok order;
  argsort_ascends :
    forall vs order,
      forallb is_datetime vs = true -> argsort vs = Ok order ->
      ascending (take vs order)
}.

(** [n] successive days from [t] on. *)
Fixpoint days_from (t : Z) (n : nat) : list value :=
  match n with
  | 0 => []
  | S n' => VTime t :: days_from (t + Reference.day) n'
  end.

(** Daily timestamps with one gap: [a] steps of one day from [t] on,
    then one step of [k] days, then [b] steps of one day. *)
Definition daily_with_one_gap (t : Z) (a b : nat) (k : Z) : list value :=
  days_from t (S a)
  ++ days_from (t + (Z.of_nat a + k) * Reference.day) (S b).

(** Three successive days, out of order; a column of words that hold no
    date. *)
Definition three_days : DataFrame :=
  mkDF ["ds"] None
       (stamp_rows "ds" [VTime Reference.day; VTime 0; VTime (2 * Reference.day)]).

Definition words_column : DataFrame :=
  mkDF ["ds"] None (stamp_rows "ds" [VStr "pear"; VStr "apple"; VStr "plum"]).

(* ================================================================== *)
(** * Properties *)
(* ================================================================== *)

(** ** Lists and strings *)

Lemma str_in_In (x : string) (xs : list string) :
  str_in x xs = true <-> In x xs.
Proof.
  unfold str_in. rewrite existsb_exists. split.
  - intros [y [Hy Heq]]. apply String.eqb_eq in Heq. now subst.
  - intros H. exists x. split; [assumption | apply String.eqb_refl].
Qed.

Lemma str_in_not_In (x : string) (xs : list string) :
  str_in x xs = false <-> ~ In x xs.
Proof.
  rewrite <- str_in_In. destruct (str_in x xs); split; congruence.
Qed.

Lemma prefix_append (p r : string) : String.prefix p (String.append p r) = true.
Proof.
  induction p as [|a p IH]; simpl.
  - destruct r; reflexivity.
  - destruct (ascii_dec a a) as [_|n]; [exact IH | now elim n].
Qed.

Lemma after_prefix_append (p s r : string) :
  after_prefix p s = Some r -> s = String.append p r.
Proof.
  revert s. induction p as [|a p IH]; intros s H; simpl in *.
  - now inversion H.
  - destruct s as [|b s]; [discriminate|].
    destruct (Ascii.eqb_spec a b) as [->|]; [|discriminate].
    simpl. f_equal. now apply IH.
Qed.

Lemma replace_from_skip (old new a s : string) :
  replace_from old new (String.length a) (String.append a s)
  = replace_from old new 0 s.
Proof.
  induction a as [|c a IH]; simpl.
  - destruct s; reflexivity.
  - exact IH.
Qed.

(** An occurrence at the start is replaced and the scan goes on after it. *)
Lemma replace_at_prefix (c : ascii) (old' new r : string) :
  Py.replace (String c old') new (String.append (String c old') r)
  = String.append new (Py.replace (String c old') new r).
Proof.
  unfold Py.replace.
  change (String.append (String c old') r) with (String c (String.append old' r)).
  cbn [replace_from].
  change (String c (String.append old' r)) with (String.append (String c old') r).
  rewrite prefix_append.
  replace (String.length (String c old') - 1) with (String.length old')
    by (cbn [String.length]; lia).
  now rewrite replace_from_skip.
Qed.

(** A string without occurrence is left as it is. *)
Lemma replace_absent (old new s : string) :
  contains old s = false -> Py.replace old new s = s.
Proof.
  unfold Py.replace. induction s as [|c s IH]; intros H; [reflexivity|].
  cbn [contains] in H. apply orb_false_iff in H. destruct H as [Hp Hc].
  cbn [replace_from]. rewrite Hp. f_equal. now apply IH.
Qed.

(** When the text occurs at the start only, replacing every occurrence
    by nothing is stripping the prefix. *)
Lemma replace_is_removeprefix (c : ascii) (old' s : string) :
  contains (String c old') (removeprefix (String c old') s) = false ->
  Py.replace (String c old') "" s = removeprefix (String c old') s.
Proof.
  unfold removeprefix. destruct (after_prefix (String c old') s) as [r|] eqn:E.
  - intros H. apply after_prefix_append in E. subst s.
    rewrite replace_at_prefix. cbn [String.append]. now apply replace_absent.
  - apply replace_absent.
Qed.

(** ** [spec_hierarchy_from_list] *)

Lemma spec_loop (col_list : list string) (n a : nat) (spec : list (list string)) :
  fold_left (fun spec i => spec ++ [["Total"] ++ firstn (i + 1) col_list])
            (seq a n) spec
  = spec ++ map (fun i => "Total" :: firstn (S i) col_list) (seq a n).
Proof.
  revert a spec. induction n as [|n IH]; intros a spec; simpl.
  - now rewrite app_nil_r.
  - rewrite IH, <- app_assoc. simpl. now rewrite Nat.add_1_r.
Qed.

Lemma spec_hierarchy_closed_form (col_list : list string) :
  spec_hierarchy_from_list col_list
  = map (fun i => "Total" :: firstn i col_list) (seq 0 (S (List.length col_list))).
Proof.
  unfold spec_hierarchy_from_list. rewrite spec_loop.
  cbn [seq map firstn app]. f_equal.
  now rewrite <- seq_shift, map_map.
Qed.

Lemma prefixes_step (A : Type) (l : list A) (a n : nat) :
  a + n <= List.length l ->
  map (fun i => firstn (S i) l) (seq a n)
  = map (fun p => fst p ++ [snd p])
        (combine (map (fun i => firstn i l) (seq a n)) (skipn a l)).
Proof.
  revert a. induction n as [|n IH]; intros a Ha; [reflexivity|].
  cbn [seq map].
  destruct (skipn a l) as [|x rest] eqn:E.
  - assert (List.length (skipn a l) = 0) by now rewrite E.
    rewrite length_skipn in H. lia.
  - cbn [combine map fst snd].
    assert (Hx : nth_error l a = Some x).
    { rewrite <- (firstn_skipn a l) at 1.
      rewrite nth_error_app2 by (rewrite length_firstn; lia).
      rewrite length_firstn, Nat.min_l by lia.
      rewrite Nat.sub_diag, E. reflexivity. }
    assert (Hrest : skipn (S a) l = rest).
    { replace (S a) with (1 + a) by lia.
      rewrite <- skipn_skipn, E. reflexivity. }
    f_equal.
    + clear -Hx. revert l Hx. induction a as [|a IHa]; intros [|y l] Hx;
        simpl in *; try discriminate.
      * now inversion Hx.
      * f_equal. now apply IHa.
    + rewrite IH by lia. now rewrite Hrest.
Qed.

Lemma combine_map_fst (A B C : Type) (f : A -> C) (a : list A) (b : list B) :
  combine (map f a) b = map (fun p => (f (fst p), snd p)) (combine a b).
Proof.
  revert b. induction a as [|x a IH]; intros [|y b]; simpl; try reflexivity.
  now rewrite IH.
Qed.

(** C4. For every ordered list of level names [L1..Ln],
    [spec_hierarchy_from_list] returns the cumulative paths
    [["Total"], ["Total", L1], ..., ["Total", L1..Ln]], root first: entry
    [i] is "Total" followed by the first [i] names, there are [n + 1]
    entries, the last one carries all names, and every entry after the
    root is the entry before it extended by exactly the next name.  For
    the empty list the result is [[["Total"]]]; for region/store it is
    the three paths of the specification. *)
Theorem spec_hierarchy_from_list_cumulative (col_list : list string) :
  let spec := spec_hierarchy_from_list col_list in
  spec = map (fun i => "Total" :: firstn i col_list)
             (seq 0 (S (List.length col_list)))
  /\ List.length spec = S (List.length col_list)
  /\ hd [] spec = ["Total"]
  /\ last spec [] = "Total" :: col_list
  /\ tl spec = map (fun p => fst p ++ [snd p]) (combine (removelast spec) col_list)
  /\ spec_hierarchy_from_list [] = [["Total"]]
  /\ spec_hierarchy_from_list ["region"; "store"]
     = [["Total"]; ["Total"; "region"]; ["Total"; "region"; "store"]].
Proof.
  intros spec. subst spec.
  pose proof (spec_hierarchy_closed_form col_list) as Hc.
  set (n := List.length col_list) in *.
  assert (Hsnoc : spec_hierarchy_from_list col_list
                  = map (fun i => "Total" :: firstn i col_list) (seq 0 n)
                    ++ ["Total" :: col_list]).
  { rewrite Hc, seq_S, map_app. cbn [map Nat.add]. unfold n.
    now rewrite firstn_all. }
  repeat split.
  - exact Hc.
  - now rewrite Hc, length_map, length_seq.
  - now rewrite Hc.
  - rewrite Hsnoc. apply last_last.
  - rewrite Hsnoc at 2. rewrite removelast_last.
    rewrite Hc. cbn [seq map tl]. rewrite <- seq_shift, map_map.
    rewrite <- (map_map (fun i => firstn i col_list) (cons "Total")).
    rewrite combine_map_fst, map_map. cbn [fst snd].
    rewrite <- (map_map (fun i => firstn (S i) col_list) (cons "Total")).
    rewrite (@prefixes_step _ col_list 0 n) by (unfold n; lia).
    rewrite map_map. cbn [skipn]. reflexivity.
Qed.

(** ** Comparing scores *)

Lemma Qle_bool_false (x y : Q) : Qle_bool x y = false <-> (y < x)%Q.
Proof.
  split.
  - intros H. apply Qnot_le_lt. intros Hle.
    apply Qle_bool_iff in Hle. congruence.
  - intros H. destruct (Qle_bool x y) eqn:E; [|reflexivity].
    apply Qle_bool_iff in E. exfalso. now apply (Qlt_not_le _ _ H).
Qed.

Lemma gt_irrefl (a : number) : gt a a = false.
Proof.
  destruct a; simpl; try reflexivity.
  apply negb_false_iff, Qle_bool_iff, Qle_refl.
Qed.

Lemma gt_trans (a b c : number) :
  gt a b = true -> gt b c = true -> gt a c = true.
Proof.
  destruct a, b, c; simpl; try congruence.
  rewrite !negb_true_iff, !Qle_bool_false. intros H1 H2.
  now apply Qlt_trans with q0.
Qed.

(** From [a > c] and [a <= b] follows [b > c]. *)
Lemma gt_le_trans (a b c : number) :
  gt a c = true -> le a b = true -> gt b c = true.
Proof.
  destruct a, b, c; simpl; try congruence.
  rewrite !negb_true_iff, !Qle_bool_false, Qle_bool_iff. intros H1 H2.
  now apply Qlt_le_trans with q.
Qed.

Lemma le_gt_false (a b : number) : le a b = true -> gt a b = false.
Proof.
  destruct a, b; simpl; try congruence. intros ->. reflexivity.
Qed.

(** ** [get_model_accuracy_dict] *)

Lemma dict_set_fresh (V : Type) (d : dict V) (k : string) (v : V) :
  ~ In k (map fst d) -> dict_set d k v = d ++ [(k, v)].
Proof.
  induction d as [|[k' v'] d IH]; intros H; simpl in *; [reflexivity|].
  destruct (String.eqb_spec k k') as [->|_].
  - exfalso. apply H. now left.
  - f_equal. apply IH. intros Hin. apply H. now right.
Qed.

Lemma accuracy_loop (df : DataFrame) (metric : metric_fn)
    (cols : list string) (acc : dict number) :
  In "y" (columns df) ->
  incl cols (columns df) ->
  NoDup cols ->
  (forall c, In c cols -> ~ In c (map fst acc)) ->
  for_each cols
    (fun accuracy_dict column =>
       if str_in column ["unique_id"; "ds"; "y"; "cutoff"]
       then Ok accuracy_dict
       else
         y <- getitem df "y" ;;
         predicted <- getitem df column ;;
         let model_error := metric y predicted in
         Ok (dict_set accuracy_dict column model_error))
    acc
  = Ok (acc ++ map (fun c => (c, metric (column df "y") (column df c)))
                   (filter (fun c => negb (reserved c)) cols)).
Proof.
  intros Hy.
  match goal with |- context [for_each _ ?f _] => set (step := f) end.
  revert acc. induction cols as [|c cols IH]; intros acc Hincl Hnd Hfresh.
  - simpl. now rewrite app_nil_r.
  - cbn [for_each filter].
    inversion Hnd as [|? ? Hc Hnd']; subst.
    assert (Hincl' : incl cols (columns df)).
    { intros x Hx. apply Hincl. now right. }
    unfold step at 1. unfold reserved at 1.
    destruct (str_in c ["unique_id"; "ds"; "y"; "cutoff"]) eqn:E; cbn [negb bind].
    + apply IH; auto. intros x Hx. apply Hfresh. now right.
    + unfold getitem.
      rewrite (proj2 (str_in_In "y" (columns df)) Hy).
      rewrite (proj2 (str_in_In c (columns df)) (Hincl c (or_introl eq_refl))).
      cbn [bind]. cbv zeta. cbn [bind].
      rewrite dict_set_fresh by (apply Hfresh; now left).
      rewrite IH; auto.
      * now rewrite <- app_assoc.
      * intros x Hx. rewrite map_app, in_app_iff. cbn [map fst In].
        intros [Hin|[->|[]]].
        -- apply (Hfresh x); [now right | assumption].
        -- contradiction.
Qed.

(** The dict is the model columns, in order, each with its score. *)
Lemma accuracy_dict_of_models (df : DataFrame) (metric : metric_fn) :
  NoDup (columns df) ->
  In "y" (columns df) ->
  get_model_accuracy_dict df metric
  = Ok (map (fun c => (c, metric (column df "y") (column df c))) (models df)).
Proof.
  intros Hnd Hy. unfold get_model_accuracy_dict.
  rewrite accuracy_loop; auto; apply incl_refl.
Qed.

(** C8. For a results table (distinct column labels, among them the
    actual column [y]) and every metric, [get_model_accuracy_dict]
    returns a mapping whose keys are exactly the table's columns other
    than unique_id, ds, y and cutoff, in column order, and whose value at
    each model column is the metric applied to the [y] column first and
    the model column second. *)
Theorem get_model_accuracy_dict_scores (df : DataFrame) (metric : metric_fn) :
  NoDup (columns df) ->
  In "y" (columns df) ->
  exists accuracy_dict,
    get_model_accuracy_dict df metric = Ok accuracy_dict
    /\ map fst accuracy_dict = models df
    /\ (forall c, In c (map fst accuracy_dict)
                  <-> In c (columns df) /\ ~ In c ["unique_id"; "ds"; "y"; "cutoff"])
    /\ (forall c, In c (models df) ->
                  dict_get accuracy_dict c = Some (metric (column df "y") (column df c)))
    /\ (forall c, ~ In c (models df) -> dict_get accuracy_dict c = None).
Proof.
  intros Hnd Hy.
  exists (map (fun c => (c, metric (column df "y") (column df c))) (models df)).
  assert (Hkeys : map fst (map (fun c => (c, metric (column df "y") (column df c)))
                               (models df)) = models df).
  { rewrite map_map. cbn [fst]. apply map_id. }
  split; [|split; [|split; [|split]]].
  - now apply accuracy_dict_of_models.
  - exact Hkeys.
  - intros c. rewrite Hkeys. unfold models. rewrite filter_In.
    unfold reserved. rewrite negb_true_iff, str_in_not_In. reflexivity.
  - intros c. generalize (models df). intros l. induction l as [|x l IH]; intros Hin.
    + destruct Hin.
    + cbn [map dict_get]. destruct (String.eqb_spec c x) as [->|Hne].
      * reflexivity.
      * destruct Hin as [->|Hin]; [congruence | now apply IH].
  - intros c. generalize (models df). intros l. induction l as [|x l IH]; intros Hin.
    + reflexivity.
    + cbn [map dict_get]. destruct (String.eqb_spec c x) as [->|Hne].
      * exfalso. apply Hin. now left.
      * apply IH. intros H. apply Hin. now right.
Qed.

Lemma get_model_accuracy_dict_scores_witness :
  NoDup (columns results_m1_m2) /\ In "y" (columns results_m1_m2) /\
  exists accuracy_dict,
    get_model_accuracy_dict results_m1_m2 (scored_by [("m1", Fin (8 # 10)); ("m2", Fin (95 # 100))])
    = Ok accuracy_dict
    /\ map fst accuracy_dict = ["m1"; "m2"].
Proof.
  assert (Hnd : NoDup (columns results_m1_m2)).
  { repeat constructor; simpl; intuition discriminate. }
  assert (Hy : In "y" (columns results_m1_m2)) by (simpl; tauto).
  split; [exact Hnd | split; [exact Hy|]].
  destruct (get_model_accuracy_dict_scores results_m1_m2
              (scored_by [("m1", Fin (8 # 10)); ("m2", Fin (95 # 100))]) Hnd Hy)
    as [d [H1 [H2 _]]].
  exists d. split; [exact H1 | exact H2].
Defined.

(** ** [get_best_model_from_results_df] *)

Lemma le_false_of_gt (a b c : number) :
  gt a c = true -> gt b c = false -> le a b = false.
Proof.
  intros Ha Hb. destruct (le a b) eqn:E; [|reflexivity].
  rewrite (gt_le_trans _ _ _ Ha E) in Hb. discriminate.
Qed.

Lemma gt_false_above (a b c : number) :
  gt a c = true -> gt b c = false -> gt b a = false.
Proof.
  intros Ha Hb. destruct (gt b a) eqn:E; [|reflexivity].
  rewrite (gt_trans _ _ _ E Ha) in Hb. discriminate.
Qed.

Lemma best_loop_invariant (d : dict number) :
  best_invariant d
    (fold_left
       (fun best item =>
          if gt (snd item) (snd best) then (Some (fst item), snd item) else best)
       d (None, of_Z 0)).
Proof.
  induction d as [|[m s] d IH] using rev_ind.
  - repeat split; simpl; try tauto; discriminate.
  - rewrite fold_left_app. cbn [fold_left fst snd].
    destruct (fold_left _ d (None, of_Z 0)) as [b c].
    destruct IH as [Hseen [Hnone Hsome]]. cbn [fst snd] in *.
    destruct (gt s c) eqn:E.
    + split; [|split]; cbn [fst snd].
      * intros m' s' Hin. apply in_app_iff in Hin. destruct Hin as [Hin|[Heq|[]]].
        -- apply gt_false_above with c; [assumption | now apply (Hseen m')].
        -- inversion Heq; subst. apply gt_irrefl.
      * discriminate.
      * intros m0 Hm0. inversion Hm0; subst m0. split.
        -- destruct b as [m1|].
           ++ destruct (Hsome m1 eq_refl) as [Hpos _].
              now apply gt_trans with c.
           ++ now rewrite <- (Hnone eq_refl).
        -- exists d, []. split; [reflexivity|].
           intros m' s' Hin. apply le_false_of_gt with c; [assumption|].
           now apply (Hseen m').
    + split; [|split]; cbn [fst snd].
      * intros m' s' Hin. apply in_app_iff in Hin. destruct Hin as [Hin|[Heq|[]]].
        -- now apply (Hseen m').
        -- now inversion Heq; subst.
      * exact Hnone.
      * intros m0 Hm0. destruct (Hsome m0 Hm0) as [Hpos [earlier [later [Hd Hearlier]]]].
        split; [exact Hpos|].
        exists earlier, (later ++ [(m, s)]). split; [|exact Hearlier].
        rewrite Hd, <- app_assoc. reflexivity.
Qed.

(** C5. For a results table and every metric,
    [get_best_model_from_results_df] returns the model whose score is the
    highest among the scores strictly above the baseline 0: the returned
    model's score exceeds 0, no model's score exceeds it, and no model
    that comes earlier in the table reaches it (a tie keeps the first).
    It returns [None] exactly when no score exceeds 0, in particular when
    every score is at most 0.  Over the scores m1: 0.8, m2: 0.95 it
    returns m2; over m1: -0.2 it returns [None]. *)
Theorem get_best_model_highest_above_zero :
  (forall (df : DataFrame) (metric : metric_fn),
      NoDup (columns df) ->
      In "y" (columns df) ->
      exists accuracy_dict best,
        get_model_accuracy_dict df metric = Ok accuracy_dict
        /\ get_best_model_from_results_df df metric = Ok best
        /\ (best = None <->
            forall m s, In (m, s) accuracy_dict -> gt s (of_Z 0) = false)
        /\ ((forall m s, In (m, s) accuracy_dict -> le s (of_Z 0) = true) ->
            best = None)
        /\ (forall m, best = Some m ->
              exists earlier s later,
                accuracy_dict = earlier ++ (m, s) :: later
                /\ gt s (of_Z 0) = true
                /\ (forall m' s', In (m', s') accuracy_dict -> gt s' s = false)
                /\ (forall m' s', In (m', s') earlier -> le s s' = false)))
  /\ get_best_model_from_results_df results_m1_m2
       (scored_by [("m1", Fin (8 # 10)); ("m2", Fin (95 # 100))]) = Ok (Some "m2")
  /\ get_best_model_from_results_df results_m1
       (scored_by [("m1", Fin (- 2 # 10))]) = Ok None.
Proof.
  split; [|split; reflexivity].
  intros df metric Hnd Hy.
  pose proof (accuracy_dict_of_models df metric Hnd Hy) as Hd.
  set (d := map (fun c => (c, metric (column df "y") (column df c))) (models df)) in *.
  unfold get_best_model_from_results_df. rewrite Hd. cbn [bind].
  pose proof (best_loop_invariant d) as Hinv.
  destruct (fold_left _ d (None, of_Z 0)) as [b c].
  destruct Hinv as [Hseen [Hnone Hsome]]. cbn [fst snd] in *.
  exists d, b.
  assert (Hiff : b = None <-> forall m s, In (m, s) d -> gt s (of_Z 0) = false).
  { split.
    - intros -> m s Hin. rewrite <- (Hnone eq_refl). now apply (Hseen m).
    - intros Hall. destruct b as [m|]; [|reflexivity].
      destruct (Hsome m eq_refl) as [Hpos [earlier [later [Hd' _]]]].
      rewrite (Hall m c) in Hpos; [discriminate|].
      rewrite Hd'. apply in_app_iff. right. now left. }
  split; [reflexivity | split; [reflexivity | split; [exact Hiff | split]]].
  - intros Hall. apply Hiff. intros m s Hin. apply le_gt_false. now apply (Hall m).
  - intros m ->. destruct (Hsome m eq_refl) as [Hpos [earlier [later [Hd' Hearlier]]]].
    exists earlier, c, later. repeat split; assumption.
Qed.

Lemma get_best_model_highest_above_zero_witness :
  NoDup (columns results_m1_m2) /\ In "y" (columns results_m1_m2) /\
  exists accuracy_dict best,
    get_model_accuracy_dict results_m1_m2
      (scored_by [("m1", Fin (8 # 10)); ("m2", Fin (95 # 100))]) = Ok accuracy_dict
    /\ get_best_model_from_results_df results_m1_m2
         (scored_by [("m1", Fin (8 # 10)); ("m2", Fin (95 # 100))]) = Ok best.
Proof.
  assert (Hnd : NoDup (columns results_m1_m2)).
  { repeat constructor; simpl; intuition discriminate. }
  assert (Hy : In "y" (columns results_m1_m2)) by (simpl; tauto).
  split; [exact Hnd | split; [exact Hy|]].
  destruct (proj1 get_best_model_highest_above_zero results_m1_m2
              (scored_by [("m1", Fin (8 # 10)); ("m2", Fin (95 # 100))]) Hnd Hy)
    as [d [b [H1 [H2 _]]]].
  exists d, b. split; [exact H1 | exact H2].
Defined.

(** ** [get_results_from_reconciled_df] *)

Lemma drop_unreconciled_none (df : DataFrame) (cols : list string) :
  (forall c, In c cols -> c = "ds" \/ c = "y" \/ contains "BottomUp" c = true) ->
  drop_unreconciled df cols = Ok None.
Proof.
  induction cols as [|c cols IH]; intros H; [reflexivity|].
  cbn [drop_unreconciled].
  assert (IH' : drop_unreconciled df cols = Ok None).
  { apply IH. intros x Hx. apply H. now right. }
  destruct (H c (or_introl eq_refl)) as [->|[->|Hm]].
  - exact IH'.
  - exact IH'.
  - rewrite Hm. cbn [negb]. now destruct (negb (str_in c ["ds"; "y"])).
Qed.

(** C10. If every column of the reconciled table other than ds and y
    carries the marker BottomUp (in particular if there is no other
    column), [get_results_from_reconciled_df] raises the unbound-variable
    error instead of returning: [results_df] is bound only where a column
    without the marker is dropped. *)
Theorem get_results_from_reconciled_df_unbound (reconciled_df hierarchy_df : DataFrame) :
  (forall c, In c (columns reconciled_df) ->
             c = "ds" \/ c = "y" \/ contains "BottomUp" c = true) ->
  get_results_from_reconciled_df reconciled_df hierarchy_df = Raise UnboundLocalError.
Proof.
  intros H. unfold get_results_from_reconciled_df.
  now rewrite drop_unreconciled_none.
Qed.

Lemma get_results_from_reconciled_df_unbound_witness :
  (forall c, In c (columns reconciled_only) ->
             c = "ds" \/ c = "y" \/ contains "BottomUp" c = true)
  /\ get_results_from_reconciled_df reconciled_only leaves_a_b = Raise UnboundLocalError.
Proof.
  assert (H : forall c, In c (columns reconciled_only) ->
                        c = "ds" \/ c = "y" \/ contains "BottomUp" c = true).
  { simpl. intros c [<-|[<-|[<-|[]]]]; auto. }
  split; [exact H|].
  exact (get_results_from_reconciled_df_unbound reconciled_only leaves_a_b H).
Defined.

Lemma drop_one_label (df : DataFrame) (c : string) :
  In c (columns df) ->
  drop df [c]
  = Ok (mkDF (filter (fun x => negb (String.eqb x c)) (columns df)) (index_name df)
          (map (fun ir => (fst ir, del_cell c (snd ir))) (body df))).
Proof.
  intros Hin. unfold drop. cbn [forallb].
  rewrite (proj2 (str_in_In c (columns df)) Hin). cbn [andb].
  f_equal. f_equal.
  - apply filter_ext. intros x. unfold str_in. cbn [existsb]. now rewrite orb_false_r.
  - apply map_ext. intros [i r]. cbn [fst snd]. unfold del_cell. apply f_equal.
    apply filter_ext. intros kv. unfold str_in. cbn [existsb]. now rewrite orb_false_r.
Qed.

Lemma drop_unreconciled_first (df : DataFrame) (cols : list string) (c : string) :
  incl cols (columns df) ->
  first_unreconciled cols = Some c ->
  drop_unreconciled df cols
  = Ok (Some (mkDF (filter (fun x => negb (String.eqb x c)) (columns df)) (index_name df)
                (map (fun ir => (fst ir, del_cell c (snd ir))) (body df)))).
Proof.
  induction cols as [|x cols IH]; intros Hincl Hfirst; [discriminate|].
  cbn [first_unreconciled drop_unreconciled] in *.
  assert (Hincl' : incl cols (columns df)).
  { intros y Hy. apply Hincl. now right. }
  destruct (negb (str_in x ["ds"; "y"])); cbn [andb] in *.
  - destruct (negb (contains "BottomUp" x)).
    + inversion Hfirst; subst x.
      rewrite drop_one_label by (apply Hincl; now left). reflexivity.
    + now apply IH.
  - now apply IH.
Qed.

Lemma filter_absent (c : string) (cols : list string) :
  ~ In c cols -> filter (fun x => negb (String.eqb x c)) cols = cols.
Proof.
  induction cols as [|y cols IH]; intros H; [reflexivity|].
  cbn [filter]. destruct (String.eqb_spec y c) as [->|_]; cbn [negb].
  - exfalso. apply H. now left.
  - f_equal. apply IH. intros Hin. apply H. now right.
Qed.

Lemma filter_out_once (c : string) (cols : list string) :
  NoDup cols -> In c cols ->
  filter (fun x => negb (String.eqb x c)) cols = remove_one c cols.
Proof.
  induction cols as [|x cols IH]; intros Hnd Hin; [destruct Hin|].
  inversion Hnd as [|? ? Hx Hnd']; subst.
  cbn [filter remove_one]. destruct (String.eqb_spec x c) as [->|Hne]; cbn [negb].
  - now apply filter_absent.
  - f_equal. apply IH; [assumption|]. destruct Hin; [congruence | assumption].
Qed.

Lemma first_unreconciled_In (cols : list string) (c : string) :
  first_unreconciled cols = Some c -> In c cols.
Proof.
  induction cols as [|x cols IH]; [discriminate|].
  cbn [first_unreconciled].
  destruct (negb (str_in x ["ds"; "y"]) && negb (contains "BottomUp" x)).
  - intros H. inversion H. now left.
  - intros H. right. now apply IH.
Qed.

Lemma remove_one_length (c : string) (cols : list string) :
  In c cols -> S (List.length (remove_one c cols)) = List.length cols.
Proof.
  induction cols as [|x cols IH]; intros Hin; [destruct Hin|].
  cbn [remove_one]. destruct (String.eqb_spec x c) as [->|Hne]; [reflexivity|].
  cbn [List.length]. f_equal. apply IH. destruct Hin; [congruence | assumption].
Qed.

Lemma unpack_rows (ids : list string) (c : string) (rows : list (value * row)) :
  (forall s, In s ids -> contains "total/" (removeprefix "total/" s) = false) ->
  map (fun ir => (str_replace "total/" "" (fst ir), snd ir))
      (filter (fun ir => isin ids (fst ir))
              (map (fun ir => (fst ir, del_cell c (snd ir))) rows))
  = map (fun ir => (strip_total (fst ir), del_cell c (snd ir)))
        (filter (fun ir => isin ids (fst ir)) rows).
Proof.
  intros Hids. induction rows as [|[i r] rows IH]; [reflexivity|].
  cbn [map filter fst snd]. destruct (isin ids i) eqn:E.
  - cbn [map fst snd]. rewrite IH. f_equal. f_equal.
    destruct i; try discriminate. cbn [isin] in E. apply str_in_In in E.
    cbn [str_replace strip_total]. f_equal.
    apply (replace_is_removeprefix "t"%char "otal/"). now apply Hids.
  - exact IH.
Qed.

Lemma text_index_has_accessor (labels : list value) :
  forallb is_str labels = true -> has_str_accessor labels = true.
Proof.
  destruct labels as [|v labels]; [reflexivity|]. cbn [forallb has_str_accessor existsb].
  intros H. apply andb_true_iff in H. destruct H as [Hv _].
  destruct v; try discriminate. reflexivity.
Qed.

Lemma filter_then_relabel (f : value -> value) (p : value -> bool) (g : row -> row)
    (rows : list (value * row)) :
  map (fun ir => (f (fst ir), snd ir))
      (filter (fun ir => p (fst ir)) (map (fun ir => (fst ir, g (snd ir))) rows))
  = map (fun ir => (f (fst ir), g (snd ir))) (filter (fun ir => p (fst ir)) rows).
Proof.
  induction rows as [|[i r] rows IH]; [reflexivity|].
  cbn [map filter fst snd]. destruct (p i); cbn [map fst snd]; now rewrite IH.
Qed.

(** Lines 181-190 on a table labelled by text that has an unreconciled
    column. *)
Lemma get_results_from_reconciled_df_text (df h : DataFrame) (c : string) :
  has_str_accessor (index df) = true ->
  first_unreconciled (columns df) = Some c ->
  get_results_from_reconciled_df df h
  = Ok (mkDF (filter (fun x => negb (String.eqb x c)) (columns df)) (index_name df)
          (map (fun ir => (str_replace "total/" "" (fst ir), del_cell c (snd ir)))
               (filter (fun ir => isin (columns h) (fst ir)) (body df)))).
Proof.
  intros Htext Hc. unfold get_results_from_reconciled_df.
  rewrite (drop_unreconciled_first df (columns df) c (incl_refl _) Hc).
  cbn [bind]. unfold index. cbn [body]. rewrite map_map. cbn [fst].
  change (map (fun x => fst x) (body df)) with (index df). rewrite Htext.
  unfold map_index, filter_index. cbn [columns index_name body].
  now rewrite filter_then_relabel.
Qed.

(** C2, as the code has it.  For a reconciled table with distinct column
    labels and at least one row, labelled by series identifiers (text),
    in which some column other than ds and y lacks the marker BottomUp,
    [get_results_from_reconciled_df] returns a table from which exactly
    one column has gone, the first such column; it keeps the rows
    labelled by a leaf column name of the hierarchy matrix, in order,
    without their cell under the column removed and with total/
    replaced by nothing in their labels; and, when no leaf name contains
    "total/" past a leading "total/", each kept label is the leaf name
    without that prefix.  For the columns ds, y, m1, m1/BottomUp and the
    leaves a, b the result has the columns ds, y, m1/BottomUp and the
    rows a and b. *)
Theorem get_results_from_reconciled_df_unpacks :
  (forall reconciled_df hierarchy_df : DataFrame,
      NoDup (columns reconciled_df) ->
      index reconciled_df <> [] ->
      forallb is_str (index reconciled_df) = true ->
      first_unreconciled (columns reconciled_df) <> None ->
      exists out c,
        get_results_from_reconciled_df reconciled_df hierarchy_df = Ok out
        /\ first_unreconciled (columns reconciled_df) = Some c
        /\ columns out = remove_one c (columns reconciled_df)
        /\ S (List.length (columns out)) = List.length (columns reconciled_df)
        /\ body out
           = map (fun ir => (str_replace "total/" "" (fst ir), del_cell c (snd ir)))
                 (filter (fun ir => isin (columns hierarchy_df) (fst ir))
                         (body reconciled_df))
        /\ ((forall s, In s (columns hierarchy_df) ->
                       contains "total/" (removeprefix "total/" s) = false) ->
            unpacks_as_specified reconciled_df hierarchy_df
            /\ forall i, In i (index out) ->
                 exists s, In s (columns hierarchy_df)
                           /\ i = VStr (removeprefix "total/" s)))
  /\ get_results_from_reconciled_df reconciled_example leaves_a_b
     = Ok (mkDF ["ds"; "y"; "m1/BottomUp"] (Some "unique_id")
             [(VStr "a", [("ds", VTime 0); ("y", VInt 1); ("m1/BottomUp", VInt 2)]);
              (VStr "b", [("ds", VTime 0); ("y", VInt 1); ("m1/BottomUp", VInt 3)])]).
Proof.
  split; [|reflexivity].
  intros df h Hnd _ Htext Hsome.
  destruct (first_unreconciled (columns df)) as [c|] eqn:Hc; [clear Hsome | congruence].
  pose proof (first_unreconciled_In _ _ Hc) as Hin.
  pose proof (get_results_from_reconciled_df_text df h c
                (text_index_has_accessor _ Htext) Hc) as Hrun.
  rewrite (filter_out_once c (columns df) Hnd Hin) in Hrun.
  eexists. exists c. split; [exact Hrun|]. cbn [columns body].
  split; [reflexivity|]. split; [reflexivity|].
  split; [now apply remove_one_length|]. split; [reflexivity|].
  intros Hleaf.
  assert (Hrows : map (fun ir => (str_replace "total/" "" (fst ir), del_cell c (snd ir)))
                      (filter (fun ir => isin (columns h) (fst ir)) (body df))
                  = map (fun ir => (strip_total (fst ir), del_cell c (snd ir)))
                        (filter (fun ir => isin (columns h) (fst ir)) (body df))).
  { rewrite <- (unpack_rows (columns h) c (body df) Hleaf).
    now rewrite filter_then_relabel. }
  split.
  - eexists. split; [exact Hrun|]. exists c. cbn [columns body]. auto.
  - intros i Hi. unfold index in Hi. cbn [body] in Hi. rewrite Hrows in Hi.
    rewrite map_map in Hi. cbn [fst] in Hi.
    apply in_map_iff in Hi. destruct Hi as [[j r] [Hj Hr]].
    apply filter_In in Hr. destruct Hr as [_ Hr]. cbn [fst] in *.
    destruct j; try discriminate. cbn [isin] in Hr. apply str_in_In in Hr.
    exists s. split; [assumption | now rewrite <- Hj].
Qed.

Lemma get_results_from_reconciled_df_unpacks_witness :
  NoDup (columns reconciled_example)
  /\ index reconciled_example <> []
  /\ forallb is_str (index reconciled_example) = true
  /\ first_unreconciled (columns reconciled_example) <> None
  /\ (forall s, In s (columns leaves_a_b) ->
                contains "total/" (removeprefix "total/" s) = false)
  /\ unpacks_as_specified reconciled_example leaves_a_b.
Proof.
  assert (H1 : NoDup (columns reconciled_example)).
  { repeat constructor; simpl; intuition discriminate. }
  assert (H0 : index reconciled_example <> []) by discriminate.
  assert (H2 : forallb is_str (index reconciled_example) = true) by reflexivity.
  assert (H3 : first_unreconciled (columns reconciled_example) <> None).
  { simpl. discriminate. }
  assert (H4 : forall s, In s (columns leaves_a_b) ->
                         contains "total/" (removeprefix "total/" s) = false).
  { simpl. intros s [<-|[<-|[]]]; reflexivity. }
  repeat (split; [assumption|]).
  destruct (proj1 get_results_from_reconciled_df_unpacks
              reconciled_example leaves_a_b H1 H0 H2 H3)
    as [out [c [_ [_ [_ [_ [_ Hstrip]]]]]]].
  exact (proj1 (Hstrip H4)).
Defined.

(** C2, as stated, fails: a table whose forecast columns all carry the
    marker is not unpacked at all, there being no column to remove; and
    an identifier that contains "total/" past its prefix loses that
    occurrence too (total/subtotal/x becomes subx instead of
    subtotal/x). *)
Lemma get_results_from_reconciled_df_not_as_specified :
  ~ unpacks_as_specified reconciled_only leaves_a_b
  /\ ~ unpacks_as_specified reconciled_subtotal leaves_subtotal.
Proof.
  split.
  - intros [out [Hrun _]]. vm_compute in Hrun. discriminate.
  - intros [out [Hrun [c [Hc [_ Hbody]]]]].
    vm_compute in Hrun. inversion Hrun; subst out; clear Hrun.
    vm_compute in Hc. inversion Hc; subst c; clear Hc.
    vm_compute in Hbody. discriminate.
Qed.

(** ** The optional dependency *)

(** C9. When the hierarchical-forecasting package is absent,
    [get_hierarchy_from_df] and [reconcile_forecasts] raise nothing, for
    every input: each logs exactly one warning and returns [None]. *)
Theorem absent_package_warns_and_returns_none
    (lib : Library) (df nixtla_df forecast_df hierarchy_df : DataFrame)
    (model_args : settings) (hierarchy_dict : tags) :
  let h := @get_hierarchy_from_df lib None df model_args in
  let r := reconcile_forecasts None nixtla_df forecast_df hierarchy_df hierarchy_dict in
  fst h = Ok None /\ List.length (snd h) = 1
  /\ fst r = Ok None /\ List.length (snd r) = 1
  /\ snd h = ["HierarchicalForecast is not installed, but `get_hierarchy_from_df` has been called. This should never happen."]
  /\ snd r = ["HierarchicalForecast is not installed, but `reconcile_forecasts` has been called. This should never happen."].
Proof.
  cbv zeta. unfold get_hierarchy_from_df, reconcile_forecasts. cbn [fst snd List.length].
  repeat split.
Qed.

(** ** Cells *)

Lemma value_eqb_eq (a b : value) : value_eqb a b = true <-> a = b.
Proof.
  destruct a, b; simpl; split; intros H; try discriminate; try reflexivity;
    try (inversion H; subst;
         first [apply Z.eqb_refl | apply String.eqb_refl | apply Bool.eqb_reflx]).
  - apply Bool.eqb_prop in H. now subst.
  - apply Z.eqb_eq in H. now subst.
  - apply Z.eqb_eq in H. now subst.
  - apply String.eqb_eq in H. now subst.
  - apply Z.eqb_eq in H. now subst.
  - apply Z.eqb_eq in H. now subst.
Qed.

Lemma value_eqb_refl (a : value) : value_eqb a a = true.
Proof. now apply value_eqb_eq. Qed.

Lemma value_eqb_neq (a b : value) : value_eqb a b = false <-> a <> b.
Proof.
  rewrite <- value_eqb_eq. destruct (value_eqb a b); split; congruence.
Qed.

Lemma unique_In (x : value) (a : list value) : In x (unique a) <-> In x a.
Proof.
  induction a as [|y a IH]; [reflexivity|].
  cbn [unique In]. rewrite filter_In, IH, negb_true_iff, value_eqb_neq.
  split.
  - intros [H|[H _]]; auto.
  - intros [H|H]; auto.
    destruct (value_eqb x y) eqn:E.
    + apply value_eqb_eq in E. auto.
    + apply value_eqb_neq in E. auto.
Qed.

Lemma unique_NoDup (a : list value) : NoDup (unique a).
Proof.
  induction a as [|y a IH]; cbn [unique]; constructor.
  - rewrite filter_In, negb_true_iff, value_eqb_neq. intros [_ H]. now apply H.
  - now apply NoDup_filter.
Qed.

(** ** The most frequent time delta *)

Lemma minus_is_delta (a b d : value) : Numpy.minus a b = Ok d -> is_delta d.
Proof.
  destruct a, b; simpl; intros H; inversion H; exact I.
Qed.

Lemma diff_step (x y : value) (a : list value) :
  Numpy.diff (x :: y :: a)
  = (d <- Numpy.minus y x ;; ds <- Numpy.diff (y :: a) ;; Ok (d :: ds)).
Proof. reflexivity. Qed.

Lemma diff_is_delta (a deltas : list value) :
  Numpy.diff a = Ok deltas -> Forall is_delta deltas.
Proof.
  revert deltas. induction a as [|x a IH]; intros deltas H.
  - inversion H. constructor.
  - destruct a as [|y a].
    + inversion H. constructor.
    + rewrite diff_step in H.
      destruct (Numpy.minus y x) as [d|] eqn:Ed; [|discriminate].
      cbn [bind] in H.
      destruct (Numpy.diff (y :: a)) as [ds|] eqn:Eds; [|discriminate].
      cbn [bind] in H. inversion H; subst. constructor.
      * exact (minus_is_delta _ _ _ Ed).
      * now apply IH.
Qed.

Lemma delta_ltb_irrefl (a : value) : Numpy.delta_ltb a a = false.
Proof. destruct a; simpl; try reflexivity. apply Z.ltb_irrefl. Qed.

Lemma delta_ltb_trans (a b c : value) :
  Numpy.delta_ltb a b = true -> Numpy.delta_ltb b c = true ->
  Numpy.delta_ltb a c = true.
Proof.
  destruct a, b, c; simpl; try congruence.
  rewrite !Z.ltb_lt. lia.
Qed.

Lemma delta_ltb_total (a b : value) :
  is_delta a -> is_delta b ->
  value_eqb a b = false -> Numpy.delta_ltb a b = false ->
  Numpy.delta_ltb b a = true.
Proof.
  destruct a, b; simpl; try congruence; try tauto.
  intros _ _. rewrite Z.eqb_neq, Z.ltb_ge, Z.ltb_lt. lia.
Qed.

Lemma above_absent (v : value) (t : list (value * nat)) :
  above v t -> table_count t v = 0.
Proof.
  induction t as [|[k n] t IH]; intros H; [reflexivity|].
  inversion H as [|? ? Hk Ht]; subst. cbn [table_count fst] in *.
  destruct (value_eqb v k) eqn:E.
  - apply value_eqb_eq in E. subst. rewrite delta_ltb_irrefl in Hk. discriminate.
  - now apply IH.
Qed.

Lemma count_in_above (u v : value) (t : list (value * nat)) :
  Numpy.delta_ltb u v = true -> above u t -> above u (Numpy.count_in v t).
Proof.
  intros Huv. induction t as [|[k n] t IH]; intros H.
  - repeat constructor. exact Huv.
  - inversion H as [|? ? Hk Ht]; subst. cbn [Numpy.count_in fst] in *.
    destruct (value_eqb v k).
    + now constructor.
    + destruct (Numpy.delta_ltb v k).
      * constructor; [exact Huv | now constructor].
      * constructor; [exact Hk | now apply IH].
Qed.

Lemma count_in_increasing (v : value) (t : list (value * nat)) :
  is_delta v -> Forall (fun kn => is_delta (fst kn)) t ->
  increasing t -> increasing (Numpy.count_in v t).
Proof.
  intros Hv. induction t as [|[k n] t IH]; intros Hd Hinc.
  - simpl. split; [constructor | exact I].
  - inversion Hd as [|? ? Hk Hd']; subst. cbn [fst] in Hk.
    destruct Hinc as [Habove Hinc]. cbn [Numpy.count_in].
    destruct (value_eqb v k) eqn:E.
    + split; assumption.
    + destruct (Numpy.delta_ltb v k) eqn:L.
      * split; [|split; assumption].
        constructor; [exact L|].
        eapply Forall_impl; [|exact Habove]. intros [k' n'] Hk'. cbn [fst] in *.
        now apply delta_ltb_trans with k.
      * split; [|now apply IH].
        apply count_in_above; [|exact Habove].
        apply delta_ltb_total; auto.
Qed.

Lemma count_in_keys (v : value) (t : list (value * nat)) :
  Forall (fun kn => is_delta (fst kn)) t -> is_delta v ->
  Forall (fun kn => is_delta (fst kn)) (Numpy.count_in v t).
Proof.
  intros Ht Hv. induction Ht as [|[k n] t Hk Ht IH]; cbn [Numpy.count_in].
  - repeat constructor. exact Hv.
  - destruct (value_eqb v k); [now constructor|].
    destruct (Numpy.delta_ltb v k); repeat constructor; assumption.
Qed.

Lemma count_in_count (v w : value) (t : list (value * nat)) :
  increasing t ->
  table_count (Numpy.count_in v t) w
  = table_count t w + (if value_eqb w v then 1 else 0).
Proof.
  induction t as [|[k n] t IH]; intros Hinc.
  - simpl. now destruct (value_eqb w v).
  - destruct Hinc as [Habove Hinc]. cbn [Numpy.count_in].
    destruct (value_eqb v k) eqn:E.
    + apply value_eqb_eq in E. subst k. cbn [table_count].
      destruct (value_eqb w v); lia.
    + destruct (Numpy.delta_ltb v k) eqn:L.
      * cbn [table_count]. destruct (value_eqb w v) eqn:Ew; [|lia].
        apply value_eqb_eq in Ew. subst w. rewrite E.
        rewrite above_absent; [lia|].
        eapply Forall_impl; [|exact Habove]. intros [k' n'] Hk'. cbn [fst] in *.
        now apply delta_ltb_trans with k.
      * cbn [table_count]. destruct (value_eqb w k) eqn:Ew.
        -- apply value_eqb_eq in Ew. subst w.
           destruct (value_eqb k v) eqn:E'; [|lia].
           apply value_eqb_eq in E'. subst. rewrite value_eqb_refl in E. discriminate.
        -- now apply IH.
Qed.

Lemma occurrences_cons (w v : value) (l : list value) :
  occurrences w (v :: l) = (if value_eqb w v then 1 else 0) + occurrences w l.
Proof.
  unfold occurrences. cbn [filter]. now destruct (value_eqb w v).
Qed.

Lemma counts_table (l : list value) (t : list (value * nat)) :
  Forall is_delta l ->
  Forall (fun kn => is_delta (fst kn)) t ->
  increasing t ->
  let t' := fold_left (fun acc v => Numpy.count_in v acc) l t in
  increasing t'
  /\ forall w, table_count t' w = table_count t w + occurrences w l.
Proof.
  revert t. induction l as [|v l IH]; intros t Hl Ht Hinc; cbn zeta.
  - split; [assumption|]. intros w. unfold occurrences. simpl. lia.
  - inversion Hl as [|? ? Hv Hl']; subst. cbn [fold_left].
    destruct (IH (Numpy.count_in v t) Hl' (count_in_keys v t Ht Hv)
                 (count_in_increasing v t Hv Ht Hinc)) as [H1 H2].
    split; [exact H1|]. intros w.
    rewrite H2, count_in_count, occurrences_cons by assumption. lia.
Qed.

Lemma table_count_at (t : list (value * nat)) (i : nat) (k : value) (n : nat) :
  increasing t -> nth_error t i = Some (k, n) -> table_count t k = n.
Proof.
  revert i. induction t as [|[k0 n0] t IH]; intros i Hinc Hi.
  - destruct i; discriminate.
  - destruct Hinc as [Habove Hinc]. destruct i as [|i]; cbn [nth_error table_count] in *.
    + inversion Hi; subst. now rewrite value_eqb_refl.
    + assert (Hlt : Numpy.delta_ltb k0 k = true).
      { unfold above in Habove. rewrite Forall_forall in Habove.
        apply (Habove (k, n)). eapply nth_error_In. exact Hi. }
      destruct (value_eqb k k0) eqn:E.
      * apply value_eqb_eq in E. subst. rewrite delta_ltb_irrefl in Hlt. discriminate.
      * eapply IH; eassumption.
Qed.

Lemma table_count_bound (t : list (value * nat)) (w : value) (m : nat) :
  (forall n, In n (map snd t) -> n <= m) -> table_count t w <= m.
Proof.
  induction t as [|[k n] t IH]; intros H; cbn [table_count]; [lia|].
  destruct (value_eqb w k).
  - apply H. now left.
  - apply IH. intros x Hx. apply H. now right.
Qed.

Lemma argmax_from_max (a : list nat) (best_i best i : nat) :
  exists m,
    ((Numpy.argmax_from best_i best i a = best_i /\ m = best)
     \/ exists k, Numpy.argmax_from best_i best i a = i + k /\ nth_error a k = Some m)
    /\ best <= m
    /\ forall x, In x a -> x <= m.
Proof.
  revert best_i best i. induction a as [|x a IH]; intros best_i best i.
  - exists best. split; [left; split; reflexivity|]. split; [lia|]. intros x [].
  - cbn [Numpy.argmax_from]. destruct (Nat.ltb_spec best x) as [Hlt|Hge].
    + destruct (IH i x (S i)) as [m [Hm [Hle Hall]]].
      exists m. split; [|split].
      * right. destruct Hm as [[Hj ->]|[k [Hj Hk]]].
        -- exists 0. split; [lia | reflexivity].
        -- exists (S k). split; [lia | exact Hk].
      * lia.
      * intros y [<-|Hy]; [lia | now apply Hall].
    + destruct (IH best_i best (S i)) as [m [Hm [Hle Hall]]].
      exists m. split; [|split].
      * destruct Hm as [[Hj ->]|[k [Hj Hk]]].
        -- left. split; [exact Hj | reflexivity].
        -- right. exists (S k). split; [lia | exact Hk].
      * exact Hle.
      * intros y [<-|Hy]; [lia | now apply Hall].
Qed.

Lemma argmax_max (a : list nat) :
  a <> [] ->
  exists j m, Numpy.argmax a = Ok j /\ nth_error a j = Some m
              /\ forall x, In x a -> x <= m.
Proof.
  destruct a as [|x a]; [congruence|]. intros _.
  destruct (argmax_from_max a 0 x 1) as [m [Hm [Hle Hall]]].
  exists (Numpy.argmax_from 0 x 1 a), m. split; [reflexivity|]. split.
  - destruct Hm as [[-> ->]|[k [-> Hk]]]; [reflexivity | exact Hk].
  - intros y [<-|Hy]; [exact Hle | now apply Hall].
Qed.

(** The delta the fallback takes is a mode of the successive deltas. *)
Lemma most_common_delta_is_mode (date_series deltas : list value) :
  Numpy.diff date_series = Ok deltas ->
  deltas <> [] ->
  exists delta,
    most_common_delta date_series = Ok delta
    /\ In delta deltas
    /\ forall d, occurrences d deltas <= occurrences delta deltas.
Proof.
  intros Hdiff Hne. unfold most_common_delta. rewrite Hdiff. cbn [bind].
  unfold Numpy.unique_counts.
  destruct (counts_table deltas [] (diff_is_delta _ _ Hdiff) (Forall_nil _) I)
    as [Hinc Hcount].
  set (t := fold_left (fun acc v => Numpy.count_in v acc) deltas []) in *.
  cbn [table_count] in Hcount.
  destruct deltas as [|d0 deltas']; [congruence|].
  assert (Hd0 : 1 <= occurrences d0 (d0 :: deltas')).
  { rewrite occurrences_cons, value_eqb_refl. lia. }
  assert (Ht : map snd t <> []).
  { intros Hnil. destruct t as [|p t']; [|discriminate].
    specialize (Hcount d0). cbn [table_count] in Hcount. lia. }
  destruct (argmax_max (map snd t) Ht) as [j [m [Hj [Hm Hall]]]].
  rewrite Hj. cbn [bind].
  rewrite nth_error_map in Hm.
  destruct (nth_error t j) as [[k n]|] eqn:Et; [|discriminate].
  cbn [option_map snd] in Hm. inversion Hm; subst n.
  exists k. unfold list_index. rewrite nth_error_map, Et. cbn [option_map fst].
  assert (Hk : occurrences k (d0 :: deltas') = m).
  { pose proof (Hcount k) as Hck. cbn [Nat.add] in Hck. rewrite <- Hck.
    eapply table_count_at; eassumption. }
  assert (Hmax : forall d, occurrences d (d0 :: deltas') <= occurrences k (d0 :: deltas')).
  { intros d. pose proof (Hcount d) as Hcd. cbn [Nat.add] in Hcd.
    rewrite Hk, <- Hcd. now apply table_count_bound. }
  split; [reflexivity | split; [|exact Hmax]].
  specialize (Hmax d0). unfold occurrences in Hmax at 2.
  destruct (filter (value_eqb k) (d0 :: deltas')) as [|x xs] eqn:Ef.
  - cbn [List.length] in Hmax. lia.
  - assert (Hx : In x (filter (value_eqb k) (d0 :: deltas'))) by (rewrite Ef; now left).
    apply filter_In in Hx. destruct Hx as [Hx Hkx].
    apply value_eqb_eq in Hkx. now subst.
Qed.

(** ** [infer_frequency] *)

Section InferFrequency.
Context {lib : Library}.
Variables (df : DataFrame) (time_column default : string).

Lemma infer_frequency_caught :
  infer_frequency_try df time_column = Raise TypeError ->
  infer_frequency df time_column default = Ok default.
Proof. intros H. unfold infer_frequency. now rewrite H. Qed.

Lemma infer_frequency_propagates (e : exn) :
  e <> TypeError ->
  infer_frequency_try df time_column = Raise e ->
  infer_frequency df time_column default = Raise e.
Proof.
  intros He H. unfold infer_frequency. rewrite H. cbn [try_except].
  destruct e; try reflexivity. congruence.
Qed.

Lemma infer_frequency_categorical (date_series : list value) (f : string) :
  date_series_of df time_column = Ok date_series ->
  infer_freq date_series = Ok (Some f) ->
  infer_frequency df time_column default = Ok f.
Proof.
  intros Hd Hf. unfold infer_frequency, infer_frequency_try.
  now rewrite Hd; cbn [bind]; rewrite Hf.
Qed.

Lemma infer_frequency_fallback (date_series : list value) (delta : value) :
  date_series_of df time_column = Ok date_series ->
  infer_freq date_series = Ok None ->
  most_common_delta date_series = Ok delta ->
  infer_frequency df time_column default
  = (f <- try_except (f <- timedelta_freqstr delta ;; Ok (Some f)) TypeError
            (Ok (Some default)) ;;
     Ok (match f with Some f => f | None => default end)).
Proof.
  intros Hd Hf Hm. unfold infer_frequency, infer_frequency_try.
  rewrite Hd; cbn [bind]; rewrite Hf; cbn [bind]; rewrite Hm. reflexivity.
Qed.

Lemma sort_values_columns (sorted : DataFrame) :
  sort_values df time_column = Ok sorted ->
  columns sorted = columns df /\ In time_column (columns df).
Proof.
  unfold sort_values, getitem. intros H.
  destruct (str_in time_column (columns df)) eqn:E; [|discriminate].
  cbn [bind] in H. destruct (argsort _); [|discriminate].
  cbn [bind] in H. inversion H. cbn [columns]. split; [reflexivity|].
  now apply str_in_In.
Qed.

Lemma date_series_of_not_datetime (sorted : DataFrame) :
  sort_values df time_column = Ok sorted ->
  to_datetime (values (column sorted time_column)) = Raise TypeError ->
  date_series_of df time_column = Raise TypeError.
Proof.
  intros Hs Ht. unfold date_series_of. rewrite Hs. cbn [bind].
  destruct (sort_values_columns sorted Hs) as [Hc Hin].
  unfold getitem. rewrite Hc, (proj2 (str_in_In _ _) Hin). cbn [bind].
  unfold pd_to_datetime. now rewrite Ht.
Qed.

End InferFrequency.




(** ** Rows and frames *)

Lemma cell_set_cell_eq (c : string) (v : value) (r : row) :
  cell c (set_cell c v r) = v.
Proof. unfold set_cell. cbn [cell]. now rewrite String.eqb_refl. Qed.

Lemma cell_del_cell_neq (c c' : string) (r : row) :
  c <> c' -> cell c (del_cell c' r) = cell c r.
Proof.
  intros Hne. induction r as [|[l v] r IH]; [reflexivity|].
  unfold del_cell in *. cbn [filter fst cell].
  destruct (String.eqb_spec l c') as [->|Hl]; cbn [negb].
  - rewrite IH. destruct (String.eqb_spec c c'); [contradiction | reflexivity].
  - cbn [cell]. now rewrite IH.
Qed.

Lemma cell_set_cell_neq (c c' : string) (v : value) (r : row) :
  c <> c' -> cell c (set_cell c' v r) = cell c r.
Proof.
  intros Hne. unfold set_cell. cbn [cell].
  destruct (String.eqb_spec c c'); [contradiction|]. now apply cell_del_cell_neq.
Qed.

Lemma labels_del_cell (c : string) (r : row) :
  incl (map fst (del_cell c r)) (map fst r).
Proof.
  intros l Hl. apply in_map_iff in Hl. destruct Hl as [kv [<- Hkv]].
  apply filter_In in Hkv. apply in_map. tauto.
Qed.

Lemma labels_set_cell (c : string) (v : value) (r : row) :
  incl (map fst (set_cell c v r)) (c :: map fst r).
Proof.
  intros l [<-|Hl]; [now left | right]. now apply (labels_del_cell c r).
Qed.

(** Reading a relabelled row: the cell under the new label is the cell
    under the only old label that maps to it. *)
Lemma cell_relabel (f : string -> string) (c c' : string) (r : row) :
  f c = c' ->
  (forall l, In l (map fst r) -> f l = c' -> l = c) ->
  cell c' (map (fun kv => (f (fst kv), snd kv)) r) = cell c r.
Proof.
  intros Hc. induction r as [|[l v] r IH]; intros Hinj; [reflexivity|].
  cbn [map fst snd cell].
  destruct (String.eqb_spec c' (f l)) as [Heq|Hne].
  - rewrite (Hinj l (or_introl eq_refl) (eq_sym Heq)). now rewrite String.eqb_refl.
  - destruct (String.eqb_spec c l) as [->|_]; [congruence|].
    apply IH. intros l' Hl'. apply Hinj. now right.
Qed.

Lemma set_cells_absent (c : string) (kvs : list (string * value)) (r : row) :
  ~ In c (map fst kvs) -> cell c (set_cells kvs r) = cell c r.
Proof.
  revert r. induction kvs as [|[l v] kvs IH]; intros r H; [reflexivity|].
  unfold set_cells in *. cbn [fold_left fst snd].
  rewrite IH.
  - apply cell_set_cell_neq. intros ->. apply H. now left.
  - intros Hin. apply H. now right.
Qed.

Lemma labels_set_cells (kvs : list (string * value)) (r : row) :
  incl (map fst (set_cells kvs r)) (map fst kvs ++ map fst r).
Proof.
  revert r. induction kvs as [|[l v] kvs IH]; intros r; [apply incl_refl|].
  unfold set_cells in *. cbn [fold_left fst snd map app].
  intros x Hx. apply IH in Hx. apply in_app_iff in Hx. destruct Hx as [Hx|Hx].
  - right. apply in_app_iff. now left.
  - apply labels_set_cell in Hx. destruct Hx as [<-|Hx]; [now left|].
    right. apply in_app_iff. now right.
Qed.

(** Distinct labels, each assigned once: reading them back gives the
    values assigned. *)
Lemma row_key_set_cells (labels : list string) (k : list value) (r : row) :
  NoDup labels -> List.length k = List.length labels ->
  row_key labels (set_cells (combine labels k) r) = k.
Proof.
  revert k r. induction labels as [|l labels IH]; intros k r Hnd Hlen.
  - destruct k; [reflexivity | discriminate].
  - destruct k as [|v k]; [discriminate|].
    inversion Hnd as [|? ? Hl Hnd']; subst.
    cbn [combine]. unfold set_cells. cbn [fold_left fst snd].
    change (fold_left _ (combine labels k) ?r0) with (set_cells (combine labels k) r0).
    unfold row_key. cbn [map]. f_equal.
    + rewrite set_cells_absent; [apply cell_set_cell_eq|].
      intros Hin. apply Hl. apply in_map_iff in Hin.
      destruct Hin as [[l' v'] [<- Hin]]. now apply in_combine_l in Hin.
    + apply IH; [assumption|]. simpl in Hlen. lia.
Qed.

Lemma add_label_In (x c : string) (cols : list string) :
  In x (add_label c cols) <-> x = c \/ In x cols.
Proof.
  unfold add_label. destruct (str_in c cols) eqn:E.
  - apply str_in_In in E. split; [tauto|]. intros [->|H]; assumption.
  - rewrite in_app_iff. cbn [In]. split; [intros [H|[H|[]]]; auto | intros [H|H]; auto].
Qed.

Lemma add_label_present (c : string) (cols : list string) :
  In c cols -> add_label c cols = cols.
Proof. intros H. unfold add_label. now rewrite (proj2 (str_in_In c cols) H). Qed.

Lemma add_label_new (c : string) (cols : list string) :
  ~ In c cols -> add_label c cols = cols ++ [c].
Proof. intros H. unfold add_label. now rewrite (proj2 (str_in_not_In c cols) H). Qed.

Lemma getitem_present (d : DataFrame) (c : string) :
  In c (columns d) -> getitem d c = Ok (column d c).
Proof. intros H. unfold getitem. now rewrite (proj2 (str_in_In _ _) H). Qed.

Lemma values_column (d : DataFrame) (c : string) :
  values (column d c) = map (fun ir => cell c (snd ir)) (body d).
Proof. unfold values, column. cbn [items]. now rewrite map_map. Qed.

Lemma combine_with_map (A B : Type) (f : A -> B) (l : list A) :
  combine l (map f l) = map (fun x => (x, f x)) l.
Proof. induction l as [|x l IH]; [reflexivity|]. cbn [map combine]. now rewrite IH. Qed.

(** [df[c] = ...] with a value computed from each row. *)
Lemma setitem_rowwise (d : DataFrame) (c : string) (f : value * row -> value) :
  setitem d c (map f (body d))
  = Ok (mkDF (add_label c (columns d)) (index_name d)
          (map (fun ir => (fst ir, set_cell c (f ir) (snd ir))) (body d))).
Proof.
  unfold setitem, nrows. rewrite length_map, Nat.eqb_refl.
  now rewrite combine_with_map, map_map.
Qed.

Lemma map_result_rowwise (A B C : Type) (f : B -> result C) (g : A -> B) (h : A -> C)
    (l : list A) :
  (forall x, In x l -> f (g x) = Ok (h x)) ->
  map_result f (map g l) = Ok (map h l).
Proof.
  induction l as [|x l IH]; intros H; [reflexivity|].
  cbn [map map_result]. rewrite (H x (or_introl eq_refl)). cbn [bind].
  rewrite IH; [reflexivity|]. intros y Hy. apply H. now right.
Qed.

Lemma scalar_columns_fold (kvs : list (string * value)) (d : DataFrame) :
  body (fold_left (fun d kv => setitem_scalar d (fst kv) (snd kv)) kvs d)
  = map (fun ir => (fst ir, set_cells kvs (snd ir))) (body d)
  /\ index_name (fold_left (fun d kv => setitem_scalar d (fst kv) (snd kv)) kvs d)
     = index_name d
  /\ forall x, In x (columns (fold_left (fun d kv => setitem_scalar d (fst kv) (snd kv))
                                        kvs d))
               <-> In x (map fst kvs) \/ In x (columns d).
Proof.
  revert d. induction kvs as [|[l v] kvs IH]; intros d.
  - cbn [fold_left map]. split; [|split; [reflexivity | intros x; cbn [In]; tauto]].
    rewrite <- (map_id (body d)) at 1. apply map_ext. now intros [i r].
  - cbn [fold_left fst snd]. destruct (IH (setitem_scalar d l v)) as [Hb [Hi Hc]].
    split; [|split].
    + rewrite Hb. unfold setitem_scalar. cbn [body]. rewrite map_map. reflexivity.
    + rewrite Hi. reflexivity.
    + intros x. rewrite Hc. unfold setitem_scalar. cbn [columns map fst In].
      rewrite add_label_In. intuition (subst; auto).
Qed.

(** ** The loop over groups *)

Ltac bind_ok H :=
  match type of H with
  | bind ?m _ = Ok _ =>
      let E := fresh "E" in
      destruct m eqn:E; cbn [bind] in H; [|discriminate H]
  end.

Lemma filter_known_labels (known new : list string) :
  incl new known -> filter (fun c => negb (str_in c known)) new = [].
Proof.
  induction new as [|c new IH]; intros H; [reflexivity|].
  cbn [filter]. rewrite (proj2 (str_in_In c known) (H c (or_introl eq_refl))).
  cbn [negb]. apply IH. intros x Hx. apply H. now right.
Qed.

Section Resampling.
Context {lib : Library}.
Variables (df : DataFrame) (cfg : settings).
Hypothesis Hwide : wide_table df cfg.

Lemma resample_target_names (g : DataFrame) (means : Series) :
  resample_target cfg g = Ok means ->
  name means = target cfg /\ sindex_name means = Some (order_by cfg).
Proof.
  unfold resample_target. intros H.
  bind_ok H. destruct a as [s rest].
  unfold pop in E. bind_ok E. bind_ok E. inversion E; subst; clear E.
  unfold getitem in E0. destruct (str_in (order_by cfg) (columns g)); [|discriminate].
  inversion E0; subst; clear E0.
  cbn [fst snd] in H. bind_ok H.
  unfold pd_to_datetime in E. bind_ok E. inversion E; subst; clear E.
  bind_ok H. unfold set_index in E.
  destruct (Nat.eqb _ _); [|discriminate]. inversion E; subst; clear E.
  bind_ok H. unfold getitem in E. cbn [columns] in E.
  destruct (str_in (target cfg) (columns rest)); [|discriminate].
  inversion E; subst; clear E.
  unfold resample in H. bind_ok H. inversion H; subst; clear H.
  cbn [name sindex_name column index_name with_values]. auto.
Qed.

(** One turn of the loop: the rows of the group go under the rows
    gathered so far; the labels stay. *)
Lemma resample_group_step (acc : DataFrame) (k : list value) (means : Series) :
  resample_target cfg (group_frame df (group_by cfg) k) = Ok means ->
  (forall c, In c (columns df) -> In c (columns acc)) ->
  resample_group cfg acc (k, group_frame df (group_by cfg) k)
  = Ok (mkDF (columns acc) None
          (body acc ++ reindexed (map (fun iv => (fst iv, resampled_row cfg k iv))
                                      (items means)))).
Proof.
  intros Hmeans Hacc. unfold resample_group. rewrite Hmeans. cbn [bind].
  destruct (resample_target_names _ _ Hmeans) as [Hname Hidx].
  destruct (scalar_columns_fold (combine (group_by cfg) k) (frame_of_series means))
    as [Hb [Hi Hc]].
  set (filled := fold_left (fun d kv => setitem_scalar d (fst kv) (snd kv))
                           (combine (group_by cfg) k) (frame_of_series means)) in *.
  assert (Hcols : forall x, In x (columns filled) ->
                            In x (group_by cfg) \/ x = target cfg).
  { intros x Hx. apply Hc in Hx. destruct Hx as [Hx|Hx].
    - left. apply in_map_iff in Hx. destruct Hx as [[l v] [<- Hx]].
      now apply in_combine_l in Hx.
    - right. unfold frame_of_series in Hx. cbn [columns In] in Hx.
      destruct Hx as [Hx|[]]. congruence. }
  assert (Hi' : index_name filled = Some (order_by cfg)).
  { rewrite Hi. unfold frame_of_series. cbn [index_name]. exact Hidx. }
  unfold reset_index. rewrite Hi'.
  assert (Ho : str_in (order_by cfg) (columns filled) = false).
  { apply str_in_not_In. intros Hx. destruct (Hcols _ Hx) as [Hg|Ht].
    - now apply (order_not_group _ _ Hwide).
    - now apply (order_not_target _ _ Hwide). }
  rewrite Ho. cbn [bind]. unfold concat. cbn [columns index_name body].
  rewrite filter_known_labels.
  - rewrite app_nil_r. f_equal. f_equal.
    + now destruct (index_name acc).
    + f_equal. f_equal. rewrite Hb. unfold frame_of_series. cbn [body].
      rewrite !map_map. apply map_ext. intros [i v]. cbn [fst snd].
      unfold resampled_row. now rewrite Hname.
  - intros x [<-|Hx].
    + apply Hacc. exact (order_present _ _ Hwide).
    + apply Hacc. destruct (Hcols _ Hx) as [Hg| ->].
      * now apply (groups_present _ _ Hwide).
      * exact (target_present _ _ Hwide).
Qed.

Lemma resample_loop (ks : list (list value)) (acc : DataFrame) :
  (forall k, In k ks -> exists means,
        resample_target cfg (group_frame df (group_by cfg) k) = Ok means) ->
  (forall c, In c (columns df) -> In c (columns acc)) ->
  index_name acc = None ->
  for_each (map (fun k => (k, group_frame df (group_by cfg) k)) ks)
           (resample_group cfg) acc
  = Ok (mkDF (columns acc) None
          (body acc ++ flat_map (group_rows_resampled df cfg) ks)).
Proof.
  revert acc. induction ks as [|k ks IH]; intros acc Hok Hacc Hidx.
  - cbn [map for_each flat_map]. rewrite app_nil_r. destruct acc. cbn in *. now subst.
  - cbn [map for_each flat_map].
    destruct (Hok k (or_introl eq_refl)) as [means Hmeans].
    rewrite (resample_group_step acc k means Hmeans Hacc). cbn [bind].
    rewrite IH; cbn [columns index_name body]; auto.
    + rewrite <- app_assoc. unfold group_rows_resampled at 2, group_means.
      now rewrite Hmeans.
    + intros k' Hk'. apply Hok. now right.
Qed.

End Resampling.

Lemma key_eqb_eq (a b : list value) : key_eqb a b = true <-> a = b.
Proof.
  revert b. induction a as [|x a IH]; intros [|y b]; cbn [key_eqb];
    try (split; [discriminate | discriminate]); [tauto|].
  rewrite andb_true_iff, value_eqb_eq, IH. split.
  - intros [-> ->]. reflexivity.
  - intros H. inversion H. auto.
Qed.

Lemma distinct_In (k : list value) (ks : list (list value)) :
  In k (distinct ks) <-> In k ks.
Proof.
  induction ks as [|x ks IH]; [reflexivity|].
  cbn [distinct In]. rewrite filter_In, IH, negb_true_iff. split.
  - intros [H|[H _]]; auto.
  - intros [H|H]; auto.
    destruct (key_eqb k x) eqn:E.
    + apply key_eqb_eq in E. auto.
    + auto.
Qed.

Lemma group_keys_In (df : DataFrame) (by_ : list string) (k : list value) :
  In k (group_keys df by_)
  <-> In k (group_rows df by_) /\ existsb isnull k = false.
Proof.
  unfold group_keys, group_rows. rewrite distinct_In, filter_In, negb_true_iff.
  reflexivity.
Qed.

Lemma list_eqb_eq (a b : list string) : list_eqb a b = true <-> a = b.
Proof.
  revert b. induction a as [|x a IH]; intros [|y b]; cbn [list_eqb];
    try (split; [discriminate | discriminate]); [tauto|].
  rewrite andb_true_iff, String.eqb_eq, IH. split.
  - intros [-> ->]. reflexivity.
  - intros H. inversion H. auto.
Qed.

Lemma forallb_present (cs cols : list string) :
  incl cs cols -> forallb (fun c => str_in c cols) cs = true.
Proof.
  intros H. apply forallb_forall. intros c Hc. apply str_in_In. now apply H.
Qed.

Lemma snd_reindexed (rows : list (value * row)) :
  map snd (reindexed rows) = map snd rows.
Proof.
  unfold reindexed, range_index.
  set (n := List.length rows).
  assert (Hlen : List.length (map (fun i => VInt (Z.of_nat i)) (seq 0 n))
                 = List.length (map snd rows)).
  { now rewrite !length_map, length_seq. }
  revert Hlen. generalize (map (fun i => VInt (Z.of_nat i)) (seq 0 n)).
  generalize (map snd rows). clear.
  intros b. induction b as [|y b IH]; intros [|x a] H; try discriminate; [reflexivity|].
  cbn [combine map snd]. f_equal. apply IH. simpl in H. lia.
Qed.

Lemma groupby_keys {lib : Library} (df : DataFrame) (by_ : list string) :
  by_ <> [] -> incl by_ (columns df) ->
  groupby df by_
  = Ok (map (fun k => (k, group_frame df by_ k)) (group_order (group_keys df by_))).
Proof.
  intros Hne Hin. unfold groupby. rewrite (forallb_present _ _ Hin).
  destruct by_; [congruence | reflexivity].
Qed.

Lemma resample_every_group_grouped {lib : Library} (df : DataFrame) (cfg : settings) :
  group_by cfg <> [] -> group_by cfg <> ["__group_by"] ->
  resample_every_group df cfg
  = (groups <- groupby df (group_by cfg) ;;
     for_each groups (resample_group cfg) (empty_frame (columns df))).
Proof.
  intros Hne Hmark. unfold resample_every_group.
  assert (Hm : list_eqb (group_by cfg) ["__group_by"] = false).
  { destruct (list_eqb _ _) eqn:E; [|reflexivity].
    apply list_eqb_eq in E. congruence. }
  rewrite Hm. cbn [negb]. destruct (group_by cfg); [congruence | reflexivity].
Qed.

Section Resampled.
Context {lib : Library} {contract : LibraryContract lib}.
Variables (df : DataFrame) (cfg : settings).
Hypothesis Hwide : wide_table df cfg.
Hypothesis Hwell : resamples_well df cfg.

(** Lines 37-48 on a wide table: the rows of every group, under the
    labels of the table. *)
Lemma resample_every_group_rows :
  resample_every_group df cfg
  = Ok (mkDF (columns df) None
          (flat_map (group_rows_resampled df cfg)
                    (group_order (group_keys df (group_by cfg))))).
Proof.
  rewrite resample_every_group_grouped;
    [| exact (groups_given _ _ Hwide) | exact (groups_not_marker _ _ Hwide)].
  rewrite groupby_keys;
    [| exact (groups_given _ _ Hwide) | exact (groups_present _ _ Hwide)].
  cbn [bind].
  rewrite (resample_loop df cfg Hwide); cbn [empty_frame columns index_name body app];
    auto.
  intros k Hk.
  apply (Permutation_in _ (group_order_permutes _)) in Hk.
  destruct (Hwell k Hk) as [means [Hmeans _]]. now exists means.
Qed.

Lemma group_key_length (k : list value) :
  In k (group_keys df (group_by cfg)) -> List.length k = List.length (group_by cfg).
Proof.
  intros Hk. apply group_keys_In in Hk. destruct Hk as [Hk _].
  unfold group_rows in Hk. apply in_map_iff in Hk. destruct Hk as [ir [<- _]].
  unfold row_key. apply length_map.
Qed.

Lemma resampled_row_key (k : list value) (iv : value * value) :
  In k (group_keys df (group_by cfg)) ->
  row_key (group_by cfg) (resampled_row cfg k iv) = k.
Proof.
  intros Hk. unfold resampled_row.
  rewrite <- (row_key_set_cells (group_by cfg) k [(target cfg, snd iv)]) at 2.
  - unfold row_key. apply map_ext_in. intros g Hg. apply cell_set_cell_neq.
    intros ->. now apply (order_not_group _ _ Hwide).
  - exact (groups_distinct _ _ Hwide).
  - now apply group_key_length.
Qed.

Lemma resampled_row_order (k : list value) (iv : value * value) :
  cell (order_by cfg) (resampled_row cfg k iv) = fst iv.
Proof. apply cell_set_cell_eq. Qed.

Lemma resampled_row_labels (k : list value) (iv : value * value) :
  incl (map fst (resampled_row cfg k iv)) (columns df).
Proof.
  unfold resampled_row. intros l Hl. apply labels_set_cell in Hl.
  destruct Hl as [<-|Hl]; [exact (order_present _ _ Hwide)|].
  apply labels_set_cells in Hl. apply in_app_iff in Hl. destruct Hl as [Hl|Hl].
  - apply (groups_present _ _ Hwide). apply in_map_iff in Hl.
    destruct Hl as [[l' v] [<- Hl]]. now apply in_combine_l in Hl.
  - cbn [map fst In] in Hl. destruct Hl as [<-|[]]. exact (target_present _ _ Hwide).
Qed.

(** The rows that come out of the loop: every one belongs to a group of
    the table and carries a timestamp; every group has one. *)
Lemma resampled_rows_sound (r : row) :
  In r (map snd (flat_map (group_rows_resampled df cfg)
                          (group_order (group_keys df (group_by cfg))))) ->
  In (row_key (group_by cfg) r) (group_keys df (group_by cfg))
  /\ is_datetime (cell (order_by cfg) r) = true
  /\ incl (map fst r) (columns df).
Proof.
  intros Hr. apply in_map_iff in Hr. destruct Hr as [[i r'] [Heq Hr]].
  cbn [snd] in Heq. subst r'.
  apply in_flat_map in Hr. destruct Hr as [k [Hk Hr]].
  apply (Permutation_in _ (group_order_permutes _)) in Hk.
  assert (Hr' : In r (map snd (group_rows_resampled df cfg k))).
  { apply in_map_iff. now exists (i, r). }
  unfold group_rows_resampled in Hr'. rewrite snd_reindexed, map_map in Hr'.
  cbn [snd] in Hr'. apply in_map_iff in Hr'. destruct Hr' as [iv [<- Hiv]].
  split; [|split].
  - now rewrite resampled_row_key.
  - rewrite resampled_row_order.
    destruct (Hwell k Hk) as [means [Hmeans [_ Hdt]]].
    unfold group_means in Hiv. rewrite Hmeans in Hiv.
    rewrite forallb_forall in Hdt. apply Hdt. now apply in_map.
  - apply resampled_row_labels.
Qed.

Lemma resampled_rows_complete (k : list value) :
  In k (group_keys df (group_by cfg)) ->
  exists r,
    In r (map snd (flat_map (group_rows_resampled df cfg)
                            (group_order (group_keys df (group_by cfg)))))
    /\ row_key (group_by cfg) r = k.
Proof.
  intros Hk. destruct (Hwell k Hk) as [means [Hmeans [Hne _]]].
  destruct (items means) as [|iv ivs] eqn:Eiv; [congruence|].
  exists (resampled_row cfg k iv). split; [|now apply resampled_row_key].
  assert (Hin : In (resampled_row cfg k iv) (map snd (group_rows_resampled df cfg k))).
  { unfold group_rows_resampled, group_means. rewrite Hmeans, Eiv.
    rewrite snd_reindexed. cbn [map snd]. now left. }
  apply in_map_iff in Hin. destruct Hin as [[i r] [Heq Hin]].
  apply in_map_iff. exists (i, r). split; [exact Heq|].
  apply in_flat_map. exists k. split; [|exact Hin].
  apply (Permutation_in _ (Permutation_sym (group_order_permutes _))). exact Hk.
Qed.

End Resampled.

(** ** Normalizing *)

Lemma select_present (d : DataFrame) (cs : list string) :
  incl cs (columns d) ->
  select d cs
  = Ok (mkDF cs (index_name d)
          (map (fun ir => (fst ir, map (fun c => (c, cell c (snd ir))) cs)) (body d))).
Proof. intros H. unfold select. now rewrite (forallb_present _ _ H). Qed.

Lemma cell_projection (f : string -> value) (cs : list string) (g : string) :
  In g cs -> cell g (map (fun c => (c, f c)) cs) = f g.
Proof.
  induction cs as [|c cs IH]; intros H; [destruct H|].
  cbn [map cell]. destruct (String.eqb_spec g c) as [->|Hne]; [reflexivity|].
  apply IH. destruct H; [congruence | assumption].
Qed.

Lemma values_with_values (s : Series) : values (with_values s (values s)) = values s.
Proof.
  unfold values, with_values. cbn [items].
  induction (items s) as [|[i v] its IH]; [reflexivity|].
  cbn [map combine fst snd]. now rewrite IH.
Qed.

Section Text.
Context {lib : Library}.

Lemma to_str_text (v : value) : to_str (VStr (to_str v)) = to_str v.
Proof. reflexivity. Qed.

Lemma astype_str_columns_rows (cs : list string) (d : DataFrame) :
  incl cs (columns d) ->
  astype_str_columns d cs
  = Ok (mkDF (columns d) (index_name d)
          (map (fun ir => (fst ir, astype_cells cs (snd ir))) (body d))).
Proof.
  unfold astype_str_columns.
  revert d. induction cs as [|c cs IH]; intros d Hin.
  - cbn [for_each]. destruct d as [cols idx rows]. cbn [columns index_name body].
    f_equal. f_equal. rewrite <- (map_id rows) at 1. apply map_ext. now intros [i r].
  - cbn [for_each].
    assert (Hc : In c (columns d)) by (apply Hin; now left).
    rewrite (getitem_present d c Hc). cbn [bind].
    unfold astype_str. rewrite values_column, map_map.
    rewrite (setitem_rowwise d c (fun ir => VStr (to_str (cell c (snd ir))))).
    cbn [bind]. rewrite IH.
    + cbn [columns index_name body]. rewrite (add_label_present c _ Hc).
      now rewrite map_map.
    + cbn [columns]. rewrite (add_label_present c _ Hc).
      intros x Hx. apply Hin. now right.
Qed.

Lemma cell_astype_cells_other (cs : list string) (c : string) (r : row) :
  ~ In c cs -> cell c (astype_cells cs r) = cell c r.
Proof.
  revert r. induction cs as [|x cs IH]; intros r H; [reflexivity|].
  unfold astype_cells in *. cbn [fold_left]. rewrite IH.
  - apply cell_set_cell_neq. intros ->. apply H. now left.
  - intros Hin. apply H. now right.
Qed.

Lemma cell_astype_cells (cs : list string) (c : string) (r : row) :
  In c cs -> cell c (astype_cells cs r) = VStr (to_str (cell c r)).
Proof.
  revert r. induction cs as [|x cs IH]; intros r H; [destruct H|].
  unfold astype_cells in *. cbn [fold_left].
  destruct (in_dec String.string_dec c cs) as [Hin|Hout].
  - rewrite (IH _ Hin). destruct (String.eqb_spec c x) as [->|Hne].
    + now rewrite cell_set_cell_eq.
    + now rewrite cell_set_cell_neq.
  - change (fold_left _ cs ?r0) with (astype_cells cs r0).
    rewrite cell_astype_cells_other by assumption.
    destruct H as [->|H]; [|contradiction]. apply cell_set_cell_eq.
Qed.

Lemma labels_astype_cells (cs : list string) (r : row) :
  incl (map fst (astype_cells cs r)) (cs ++ map fst r).
Proof.
  revert r. induction cs as [|x cs IH]; intros r; [apply incl_refl|].
  unfold astype_cells in *. cbn [fold_left app]. intros l Hl.
  apply IH in Hl. apply in_app_iff in Hl. destruct Hl as [Hl|Hl].
  - right. apply in_app_iff. now left.
  - apply labels_set_cell in Hl. destruct Hl as [<-|Hl]; [now left|].
    right. apply in_app_iff. now right.
Qed.

Lemma agg_join_rows (sep : string) (d : DataFrame) :
  body d <> [] ->
  agg_join sep d
  = map_result
      (fun ir =>
         parts <- map_result expect_str (row_key (columns d) (snd ir)) ;;
         Ok (VStr (join sep parts)))
      (body d).
Proof.
  unfold agg_join. destruct (body d); [congruence | reflexivity].
Qed.

(** Lines 54: the grouping cells of a row, as text, joined. *)
Lemma agg_join_keys (cs : list string) (idx : option string) (rows : list (value * row)) :
  rows <> [] ->
  agg_join "/"
    (mkDF cs idx
       (map (fun ir => (fst ir, map (fun c => (c, cell c (astype_cells cs (snd ir)))) cs))
            rows))
  = Ok (map (fun ir => VStr (join "/" (map to_str (row_key cs (snd ir))))) rows).
Proof.
  intros Hne. rewrite agg_join_rows
    by (cbn [body]; destruct rows; [congruence | discriminate]).
  cbn [columns body].
  apply map_result_rowwise. intros [i r] _. cbn [fst snd].
  assert (Hparts : map_result expect_str
                     (row_key cs (map (fun c => (c, cell c (astype_cells cs r))) cs))
                   = Ok (map to_str (row_key cs r))).
  { unfold row_key.
    assert (Hgen : forall sub, incl sub cs ->
              map_result expect_str
                (map (fun c => cell c (map (fun c0 => (c0, cell c0 (astype_cells cs r))) cs))
                     sub)
              = Ok (map to_str (map (fun c => cell c r) sub))).
    { induction sub as [|g sub IH]; intros Hsub; [reflexivity|].
      cbn [map map_result].
      rewrite cell_projection by (apply Hsub; now left).
      rewrite cell_astype_cells by (apply Hsub; now left).
      cbn [expect_str bind]. rewrite IH; [reflexivity|].
      intros x Hx. apply Hsub. now right. }
    apply Hgen, incl_refl. }
  rewrite Hparts. reflexivity.
Qed.

End Text.

Lemma setitem_rows (A : Type) (cols : list string) (idx : option string)
    (g : A -> value * row) (f : A -> value) (c : string) (l : list A) :
  setitem (mkDF cols idx (map g l)) c (map f l)
  = Ok (mkDF (add_label c cols) idx
          (map (fun x => (fst (g x), set_cell c (f x) (snd (g x)))) l)).
Proof.
  unfold setitem, nrows. cbn [body columns index_name].
  rewrite !length_map, Nat.eqb_refl. f_equal. f_equal.
  induction l as [|x l IH]; [reflexivity|].
  cbn [map combine fst snd]. now rewrite IH.
Qed.

Lemma rename_three (t o gc c : string) :
  t <> o -> gc <> t -> gc <> o ->
  rename_label (dict_of [(t, "y"); (o, "ds"); (gc, "unique_id")]) c
  = if String.eqb c t then "y"
    else if String.eqb c o then "ds"
    else if String.eqb c gc then "unique_id"
    else c.
Proof.
  intros Hto Hgt Hgo. unfold dict_of. cbn [fold_left dict_set fst snd].
  rewrite (proj2 (String.eqb_neq o t)) by congruence. cbn [dict_set].
  rewrite (proj2 (String.eqb_neq gc t)) by congruence.
  rewrite (proj2 (String.eqb_neq gc o)) by congruence.
  unfold rename_label. cbn [dict_get].
  destruct (String.eqb c t); [reflexivity|].
  destruct (String.eqb c o); [reflexivity|].
  destruct (String.eqb c gc); reflexivity.
Qed.

Lemma rename_one (a b c : string) :
  rename_label (dict_of [(a, b)]) c = if String.eqb c a then b else c.
Proof.
  unfold dict_of, rename_label. cbn [fold_left dict_set dict_get fst snd].
  now destruct (String.eqb c a).
Qed.

Section Labels.
Variables (df : DataFrame) (cfg : settings).
Hypothesis Hwide : wide_table df cfg.

(** How line 60 renames the labels of a wide table, [gc] being either
    the single grouping column or the placeholder. *)
Lemma renamed_labels (gc l : string) :
  gc <> target cfg -> gc <> order_by cfg ->
  (gc = "ignore this" \/ In gc (columns df)) ->
  (l = "unique_id" /\ gc = "ignore this" \/ In l (columns df)) ->
  let f := rename_label (dict_of [(target cfg, "y"); (order_by cfg, "ds");
                                   (gc, "unique_id")]) in
  (f l = "y" -> l = target cfg)
  /\ (f l = "ds" -> l = order_by cfg)
  /\ (f l = "unique_id" -> l = gc \/ (l = "unique_id" /\ gc = "ignore this")).
Proof.
  intros Hgt Hgo Hgc Hl f. subst f.
  pose proof (order_not_target _ _ Hwide) as Hot.
  rewrite rename_three by congruence.
  destruct (String.eqb_spec l (target cfg)) as [->|Hlt].
  { repeat split; try discriminate; auto. }
  destruct (String.eqb_spec l (order_by cfg)) as [->|Hlo].
  { repeat split; try discriminate; auto. }
  destruct (String.eqb_spec l gc) as [->|Hlg].
  { repeat split; try discriminate; auto. }
  split; [|split].
  - intros ->. destruct Hl as [[Hl _]|Hl]; [discriminate|].
    exfalso. apply Hlt. symmetry. exact (y_is_target _ _ Hwide Hl).
  - intros ->. destruct Hl as [[Hl _]|Hl]; [discriminate|].
    exfalso. apply Hlo. symmetry. exact (ds_is_order _ _ Hwide Hl).
  - intros ->. destruct Hl as [[_ Hl]|Hl]; [now right|].
    exfalso. exact (unique_id_free _ _ Hwide Hl).
Qed.

End Labels.

Section Names.
Context {lib : Library} {contract : LibraryContract lib}.
Variables (df : DataFrame) (cfg : settings).
Hypothesis Hwide : wide_table df cfg.

(** Lines 59-70 on a frame whose labels are known. *)
Lemma statsforecast_columns_rows (cols : list string) (rows : list (value * row))
    (gc u : string) :
  gc <> target cfg -> gc <> order_by cfg ->
  ((u = gc /\ In gc (columns df)) \/ (u = "unique_id" /\ gc = "ignore this")) ->
  In u cols -> In (order_by cfg) cols -> In (target cfg) cols ->
  (forall ir, In ir rows ->
     is_datetime (cell (order_by cfg) (snd ir)) = true
     /\ forall l, In l (map fst (snd ir)) -> known_label df gc l) ->
  statsforecast_columns (mkDF cols None rows) cfg gc []
  = Ok (mkDF ["unique_id"; "ds"; "y"] None
          (map (fun ir => (fst ir,
                           [("unique_id", cell u (snd ir));
                            ("ds", cell (order_by cfg) (snd ir));
                            ("y", cell (target cfg) (snd ir))]))
               rows)).
Proof.
  intros Hgt Hgo Hu Hucols Hocols Htcols Hrows.
  assert (Hgc : gc = "ignore this" \/ In gc (columns df)) by tauto.
  pose proof (order_not_target _ _ Hwide) as Hot.
  unfold statsforecast_columns, rename. cbv zeta. cbn [columns index_name body].
  set (f := rename_label (dict_of [(target cfg, "y"); (order_by cfg, "ds");
                                   (gc, "unique_id")])).
  assert (Hft : f (target cfg) = "y").
  { unfold f. rewrite rename_three by congruence. now rewrite String.eqb_refl. }
  assert (Hfo : f (order_by cfg) = "ds").
  { unfold f. rewrite rename_three by congruence.
    rewrite (proj2 (String.eqb_neq _ _) Hot). now rewrite String.eqb_refl. }
  assert (Hfu : f u = "unique_id").
  { unfold f. rewrite rename_three by congruence.
    destruct Hu as [[-> _]|[-> ->]].
    - rewrite (proj2 (String.eqb_neq _ _) Hgt), (proj2 (String.eqb_neq _ _) Hgo).
      now rewrite String.eqb_refl.
    - destruct (String.eqb_spec "unique_id" (target cfg)) as [E|_].
      { exfalso. apply (unique_id_free _ _ Hwide). rewrite E.
        exact (target_present _ _ Hwide). }
      destruct (String.eqb_spec "unique_id" (order_by cfg)) as [E|_].
      { exfalso. apply (unique_id_free _ _ Hwide). rewrite E.
        exact (order_present _ _ Hwide). }
      reflexivity. }
  assert (Hinj : forall l, known_label df gc l ->
            (f l = "y" -> l = target cfg)
            /\ (f l = "ds" -> l = order_by cfg)
            /\ (f l = "unique_id" -> l = u)).
  { intros l Hl.
    destruct (renamed_labels df cfg Hwide gc l Hgt Hgo Hgc Hl) as [H1 [H2 H3]].
    split; [exact H1 | split; [exact H2|]].
    intros Hful. destruct (H3 Hful) as [->|[-> Hg]].
    - destruct Hu as [[-> _]|[-> Hg]]; [reflexivity|].
      exfalso. destruct Hl as [[Hl _]|Hl].
      + subst gc. discriminate.
      + apply (placeholder_free _ _ Hwide). now rewrite <- Hg.
    - destruct Hu as [[_ Hin]|[-> _]]; [|reflexivity].
      exfalso. apply (placeholder_free _ _ Hwide). now rewrite <- Hg. }
  assert (Hin_u : str_in "unique_id" (map f cols) = true).
  { apply str_in_In. rewrite <- Hfu. now apply in_map. }
  rewrite Hin_u. cbn [negb].
  rewrite getitem_present by (cbn [columns]; rewrite <- Hfo; now apply in_map).
  cbn [bind]. unfold pd_to_datetime.
  match goal with |- context [column ?d "ds"] => set (d5 := d) end.
  assert (Hvals : values (column d5 "ds")
                  = map (fun ir => cell (order_by cfg) (snd ir)) rows).
  { rewrite values_column. unfold d5. cbn [body]. rewrite map_map.
    apply map_ext_in. intros ir Hir. cbn [snd].
    apply cell_relabel; [exact Hfo|].
    intros l Hl. apply Hinj. now apply (Hrows ir Hir). }
  assert (Hdt : forallb is_datetime (values (column d5 "ds")) = true).
  { rewrite Hvals. apply forallb_forall. intros v Hv.
    apply in_map_iff in Hv. destruct Hv as [ir [<- Hir]]. now apply Hrows. }
  rewrite (to_datetime_of_datetimes _ Hdt). cbn [bind].
  rewrite values_with_values, Hvals. unfold d5.
  rewrite setitem_rows. cbn [bind fst snd].
  assert (Hds : In "ds" (map f cols)) by (rewrite <- Hfo; now apply in_map).
  rewrite (add_label_present _ _ Hds).
  rewrite select_present.
  - cbn [columns index_name body app]. f_equal. f_equal.
    rewrite map_map. apply map_ext_in. intros ir Hir. cbn [fst snd map].
    destruct (Hrows ir Hir) as [_ Hlab].
    rewrite (cell_set_cell_neq "unique_id" "ds") by discriminate.
    rewrite (cell_set_cell_neq "y" "ds") by discriminate.
    rewrite cell_set_cell_eq.
    rewrite (cell_relabel f u "unique_id") by (auto; intros l Hl; now apply Hinj, Hlab).
    rewrite (cell_relabel f (target cfg) "y")
      by (auto; intros l Hl; now apply Hinj, Hlab).
    reflexivity.
  - cbn [columns app]. intros x [<-|[<-|[<-|[]]]].
    + rewrite <- Hfu. now apply in_map.
    + exact Hds.
    + rewrite <- Hft. now apply in_map.
Qed.

End Names.

Section Normalized.
Context {lib : Library} {contract : LibraryContract lib}.
Variables (df : DataFrame) (cfg : settings).
Hypothesis Hwide : wide_table df cfg.
Hypothesis Hwell : resamples_well df cfg.
Hypothesis Hsome : some_group df cfg.

(** With several grouping columns the loop over groups leaves a row. *)
Lemma resampled_rows_some :
  1 < List.length (group_by cfg) ->
  flat_map (group_rows_resampled df cfg) (group_order (group_keys df (group_by cfg)))
  <> [].
Proof.
  intros HN Hnil. destruct (Hsome HN) as [key [Hkey Hnull]].
  assert (Hk : In key (group_keys df (group_by cfg))).
  { apply group_keys_In. now split. }
  destruct (resampled_rows_complete df cfg Hwide Hwell _ Hk) as [r [Hr _]].
  rewrite Hnil in Hr. destruct Hr.
Qed.

Lemma single_group :
  ~ 1 < List.length (group_by cfg) -> exists g, group_by cfg = [g].
Proof.
  intros HN. pose proof (groups_given _ _ Hwide) as Hne.
  destruct (group_by cfg) as [|g [|g' gs]]; [congruence | now exists g |].
  simpl in HN. lia.
Qed.

Lemma unique_id_column_several (rows : list (value * row)) :
  1 < List.length (group_by cfg) ->
  rows <> [] ->
  unique_id_column (mkDF (columns df) None rows) cfg
  = Ok (mkDF (columns df ++ ["unique_id"]) None
          (map (fun ir =>
                  (fst ir,
                   set_cell "unique_id"
                     (VStr (join "/" (map to_str (row_key (group_by cfg) (snd ir)))))
                     (astype_cells (group_by cfg) (snd ir))))
               rows),
        "ignore this").
Proof.
  intros HN Hne. pose proof (groups_present _ _ Hwide) as HG.
  unfold unique_id_column. rewrite (proj2 (Nat.ltb_lt _ _) HN).
  rewrite astype_str_columns_rows by exact HG.
  cbn [bind columns index_name body].
  rewrite select_present by exact HG.
  cbn [bind columns index_name body]. rewrite map_map. cbn [fst snd].
  rewrite agg_join_keys by exact Hne. cbn [bind].
  rewrite setitem_rows. cbn [bind fst snd].
  now rewrite (add_label_new "unique_id") by exact (unique_id_free _ _ Hwide).
Qed.

(** Lines 37-70 on a wide table: one normalized row for each resampled
    row. *)
Lemma transform_to_nixtla_df_rows :
  transform_to_nixtla_df df cfg []
  = Ok (mkDF ["unique_id"; "ds"; "y"] None
          (map (fun ir => (fst ir, normalized_row cfg (snd ir)))
               (flat_map (group_rows_resampled df cfg)
                         (group_order (group_keys df (group_by cfg)))))).
Proof.
  pose proof (order_present _ _ Hwide) as Ho.
  pose proof (target_present _ _ Hwide) as Ht.
  pose proof (unique_id_free _ _ Hwide) as Hu.
  pose proof (placeholder_free _ _ Hwide) as Hp.
  pose proof (groups_present _ _ Hwide) as HG.
  unfold transform_to_nixtla_df.
  rewrite (resample_every_group_rows df cfg Hwide Hwell). cbn [bind].
  set (rows := flat_map _ _).
  assert (Hrows : forall ir, In ir rows ->
            is_datetime (cell (order_by cfg) (snd ir)) = true
            /\ incl (map fst (snd ir)) (columns df)).
  { intros ir Hir.
    destruct (resampled_rows_sound df cfg Hwide Hwell (snd ir)) as [_ H];
      [now apply in_map | exact H]. }
  destruct (Nat.ltb_spec 1 (List.length (group_by cfg))) as [HN|HN].
  - rewrite (unique_id_column_several rows HN (resampled_rows_some HN)).
    cbn [bind fst snd].
    rewrite (statsforecast_columns_rows df cfg Hwide _ _ "ignore this" "unique_id").
    + f_equal. f_equal. rewrite map_map. apply map_ext_in. intros ir Hir.
      cbn [fst snd]. unfold normalized_row, uid_of.
      rewrite (proj2 (Nat.ltb_lt _ _) HN).
      rewrite cell_set_cell_eq.
      rewrite !cell_set_cell_neq by (intros E; apply Hu; now rewrite <- E).
      rewrite !cell_astype_cells_other;
        [reflexivity | exact (target_not_group _ _ Hwide)
         | exact (order_not_group _ _ Hwide)].
    + intros E. apply Hp. now rewrite E.
    + intros E. apply Hp. now rewrite E.
    + right. split; reflexivity.
    + apply in_app_iff. right. now left.
    + apply in_app_iff. now left.
    + apply in_app_iff. now left.
    + intros ir Hir. apply in_map_iff in Hir. destruct Hir as [ir0 [<- Hir0]].
      cbn [snd]. destruct (Hrows ir0 Hir0) as [Hdt Hlab]. split.
      * rewrite cell_set_cell_neq by (intros E; apply Hu; now rewrite <- E).
        rewrite cell_astype_cells_other by exact (order_not_group _ _ Hwide).
        exact Hdt.
      * intros l Hl. apply labels_set_cell in Hl. destruct Hl as [<-|Hl].
        -- left. split; reflexivity.
        -- right. apply labels_astype_cells in Hl. apply in_app_iff in Hl.
           destruct Hl as [Hl|Hl]; [now apply HG | now apply Hlab].
  - apply Nat.le_ngt in HN. destruct (single_group HN) as [g Hg].
    unfold unique_id_column. rewrite (proj2 (Nat.ltb_ge _ _) (proj2 (Nat.le_ngt _ _) HN)).
    rewrite Hg. cbn [list_index nth_error bind fst snd].
    assert (Hgin : In g (group_by cfg)) by (rewrite Hg; now left).
    rewrite (statsforecast_columns_rows df cfg Hwide _ _ g g).
    + f_equal. f_equal. apply map_ext_in. intros ir Hir.
      unfold normalized_row, uid_of.
      rewrite (proj2 (Nat.ltb_ge _ _) (proj2 (Nat.le_ngt _ _) HN)).
      now rewrite Hg.
    + intros E. apply (target_not_group _ _ Hwide). now rewrite <- E.
    + intros E. apply (order_not_group _ _ Hwide). now rewrite <- E.
    + left. split; [reflexivity | now apply HG].
    + now apply HG.
    + exact Ho.
    + exact Ht.
    + intros ir Hir. destruct (Hrows ir Hir) as [Hdt Hlab]. split; [exact Hdt|].
      intros l Hl. right. now apply Hlab.
Qed.

End Normalized.

(** ** Splitting what was joined *)

Lemma contains_sep_cons (c : ascii) (s : string) :
  contains "/" (String c s) = false -> c <> "/"%char /\ contains "/" s = false.
Proof.
  cbn [contains String.prefix]. intros H. apply orb_false_iff in H.
  destruct H as [Hp Hc]. split; [|exact Hc].
  intros ->. destruct (ascii_dec "/" "/") as [_|n]; [|now elim n].
  destruct s; discriminate.
Qed.

Lemma split_plain (s : string) :
  contains "/" s = false -> split "/"%char s = [s].
Proof.
  induction s as [|c s IH]; intros H; [reflexivity|].
  apply contains_sep_cons in H. destruct H as [Hc Hs].
  cbn [split]. rewrite (proj2 (Ascii.eqb_neq _ _) Hc). now rewrite (IH Hs).
Qed.

Lemma split_append (s rest : string) :
  contains "/" s = false ->
  split "/"%char (String.append s (String "/" rest)) = s :: split "/"%char rest.
Proof.
  induction s as [|c s IH]; intros H.
  - reflexivity.
  - apply contains_sep_cons in H. destruct H as [Hc Hs].
    cbn [String.append split]. rewrite (proj2 (Ascii.eqb_neq _ _) Hc).
    now rewrite (IH Hs).
Qed.

Lemma split_join (parts : list string) :
  parts <> [] ->
  (forall s, In s parts -> contains "/" s = false) ->
  split "/"%char (join "/" parts) = parts.
Proof.
  induction parts as [|p parts IH]; intros Hne Hall; [congruence|].
  destruct parts as [|q parts].
  - cbn [join]. apply split_plain. apply Hall. now left.
  - change (join "/" (p :: q :: parts))
      with (String.append p (String "/" (join "/" (q :: parts)))).
    rewrite split_append by (apply Hall; now left).
    f_equal. apply IH; [discriminate|]. intros s Hs. apply Hall. now right.
Qed.

Lemma cell_split_cells_other (igs : list (nat * string)) (c : string) (r : row) :
  ~ In c (map snd igs) -> cell c (split_cells igs r) = cell c r.
Proof.
  revert r. induction igs as [|[i g] igs IH]; intros r H; [reflexivity|].
  unfold split_cells in *. cbn [fold_left fst snd]. rewrite IH.
  - apply cell_set_cell_neq. intros ->. apply H. now left.
  - intros Hin. apply H. now right.
Qed.

Lemma part_of_set_cell (i : nat) (g : string) (v : value) (r : row) :
  g <> "unique_id" -> part_of i (set_cell g v r) = part_of i r.
Proof.
  intros Hg. unfold part_of. rewrite cell_set_cell_neq; [reflexivity|]. congruence.
Qed.

Lemma labels_split_cells (igs : list (nat * string)) (r : row) :
  incl (map fst (split_cells igs r)) (map snd igs ++ map fst r).
Proof.
  revert r. induction igs as [|[i g] igs IH]; intros r; [apply incl_refl|].
  unfold split_cells in *. cbn [fold_left fst snd map app]. intros l Hl.
  apply IH in Hl. apply in_app_iff in Hl. destruct Hl as [Hl|Hl].
  - right. apply in_app_iff. now left.
  - apply labels_set_cell in Hl. destruct Hl as [<-|Hl]; [now left|].
    right. apply in_app_iff. now right.
Qed.

(** Distinct grouping columns, none of them [unique_id]: each reads
    back the part put under it. *)
Lemma row_key_split_cells (labels : list string) (idxs : list nat) (r : row) :
  NoDup labels -> ~ In "unique_id" labels ->
  List.length idxs = List.length labels ->
  row_key labels (split_cells (combine idxs labels) r)
  = map (fun i => part_of i r) idxs.
Proof.
  revert idxs r. induction labels as [|g labels IH]; intros idxs r Hnd Hu Hlen.
  - destruct idxs; [reflexivity | discriminate].
  - destruct idxs as [|i idxs]; [discriminate|].
    inversion Hnd as [|? ? Hg Hnd']; subst.
    assert (Hgu : g <> "unique_id") by (intros ->; apply Hu; now left).
    cbn [combine]. unfold split_cells. cbn [fold_left fst snd].
    change (fold_left _ (combine idxs labels) ?r0)
      with (split_cells (combine idxs labels) r0).
    unfold row_key. cbn [map]. f_equal.
    + rewrite cell_split_cells_other; [apply cell_set_cell_eq|].
      intros Hin. apply Hg. apply in_map_iff in Hin.
      destruct Hin as [[i' g'] [<- Hin]]. now apply in_combine_r in Hin.
    + change (map (fun c => cell c ?r0) labels) with (row_key labels r0).
      rewrite IH; auto.
      * apply map_ext. intros j. now apply part_of_set_cell.
      * intros H. apply Hu. now right.
Qed.

Lemma split_columns (igs : list (nat * string)) (cols : list string) (x : string) :
  In x (fold_left (fun cs ig => add_label (snd ig) cs) igs cols)
  <-> In x (map snd igs) \/ In x cols.
Proof.
  revert cols. induction igs as [|[i g] igs IH]; intros cols.
  - cbn [fold_left map In]. tauto.
  - cbn [fold_left map snd In]. rewrite IH, add_label_In. intuition (subst; auto).
Qed.

(** Lines 81-82: every turn puts one part of [unique_id] under one
    grouping column. *)
Lemma split_loop (igs : list (nat * string)) (d : DataFrame) :
  ~ In "unique_id" (map snd igs) ->
  In "unique_id" (columns d) ->
  (forall ir ig, In ir (body d) -> In ig igs ->
     exists v, split_part (fst ig) (cell "unique_id" (snd ir)) = Ok v) ->
  for_each igs split_unique_id d
  = Ok (mkDF (fold_left (fun cs ig => add_label (snd ig) cs) igs (columns d))
          (index_name d)
          (map (fun ir => (fst ir, split_cells igs (snd ir))) (body d))).
Proof.
  revert d. induction igs as [|[i g] igs IH]; intros d Hu Hin Hok.
  - cbn [for_each fold_left]. destruct d as [cols idx rows].
    cbn [columns index_name body]. f_equal. f_equal.
    rewrite <- (map_id rows) at 1. apply map_ext. now intros [j r].
  - cbn [for_each]. unfold split_unique_id at 1.
    rewrite (getitem_present d "unique_id" Hin). cbn [bind].
    rewrite values_column.
    rewrite (map_result_rowwise _ _ _ (split_part i) (fun ir => cell "unique_id" (snd ir))
               (fun ir => part_of i (snd ir))).
    + cbn [bind]. rewrite (setitem_rowwise d g (fun ir => part_of i (snd ir))).
      cbn [bind]. rewrite IH.
      * cbn [columns index_name body fold_left snd]. now rewrite map_map.
      * intros H. apply Hu. now right.
      * cbn [columns]. apply add_label_In. now right.
      * cbn [body]. intros ir ig Hir Hig. apply in_map_iff in Hir.
        destruct Hir as [ir0 [<- Hir0]]. cbn [snd].
        rewrite cell_set_cell_neq.
        -- apply Hok; [assumption | now right].
        -- intros E. apply Hu. left. now rewrite <- E.
    + intros ir Hir. destruct (Hok ir (i, g) Hir (or_introl eq_refl)) as [v Hv].
      unfold part_of. cbn [fst] in Hv. now rewrite Hv.
Qed.

Lemma parts_in_order (l : list string) (a : nat) (pre : list string) :
  List.length pre = a ->
  map (fun i => match nth_error (pre ++ l) i with
                | Some p => VStr p
                | None => VNull
                end) (seq a (List.length l))
  = map VStr l.
Proof.
  revert a pre. induction l as [|x l IH]; intros a pre Ha; [reflexivity|].
  cbn [List.length seq map]. f_equal.
  - rewrite nth_error_app2 by lia. subst a. now rewrite Nat.sub_diag.
  - specialize (IH (S a) (pre ++ [x])). rewrite <- app_assoc in IH. cbn [app] in IH.
    apply IH. rewrite length_app. simpl. lia.
Qed.

Lemma snd_enumerate (A : Type) (l : list A) : map snd (enumerate l) = l.
Proof.
  unfold enumerate. generalize 0. induction l as [|x l IH]; intros a; [reflexivity|].
  cbn [List.length seq combine map snd]. now rewrite IH.
Qed.

Section Returned.
Context {lib : Library}.
Variables (df : DataFrame) (cfg : settings).
Hypothesis Hwide : wide_table df cfg.
Hypothesis Hfree : delimiter_free df cfg.

Lemma group_not_reserved (g : string) :
  In g (group_by cfg) -> g <> "unique_id" /\ g <> "ds".
Proof.
  intros Hg. pose proof (groups_present _ _ Hwide g Hg) as Hin. split.
  - intros ->. exact (unique_id_free _ _ Hwide Hin).
  - intros ->. apply (order_not_group _ _ Hwide).
    now rewrite (ds_is_order _ _ Hwide Hin).
Qed.

(** Reading a grouping column after lines 87: the label survives the
    drop of [unique_id] and the renaming of [ds]. *)
Lemma cell_after_return (g : string) (r : row) :
  In g (group_by cfg) ->
  cell g (map (fun kv => (rename_label (dict_of [("ds", order_by cfg)]) (fst kv), snd kv))
              (del_cell "unique_id" r))
  = cell g r.
Proof.
  intros Hg. destruct (group_not_reserved g Hg) as [Hu Hd].
  rewrite (cell_relabel _ g g).
  - now apply cell_del_cell_neq.
  - rewrite rename_one. now rewrite (proj2 (String.eqb_neq _ _) Hd).
  - intros l _. rewrite rename_one. destruct (String.eqb_spec l "ds") as [->|_].
    + intros E. exfalso. apply (order_not_group _ _ Hwide). now rewrite E.
    + auto.
Qed.

Lemma uid_splits (k : list value) :
  1 < List.length (group_by cfg) ->
  In k (group_keys df (group_by cfg)) ->
  split "/"%char (join "/" (map to_str k)) = map to_str k.
Proof.
  intros HN Hk. apply split_join.
  - pose proof (group_key_length df cfg k Hk) as Hlen.
    destruct k; [simpl in Hlen; lia | discriminate].
  - intros s Hs. apply in_map_iff in Hs. destruct Hs as [v [<- Hv]].
    apply (Hfree HN k v); [|exact Hv].
    now apply group_keys_In in Hk.
Qed.

Lemma parts_of_normalized (r0 : row) :
  1 < List.length (group_by cfg) ->
  In (row_key (group_by cfg) r0) (group_keys df (group_by cfg)) ->
  map (fun i => part_of i (normalized_row cfg r0))
      (seq 0 (List.length (group_by cfg)))
  = returned_key cfg (row_key (group_by cfg) r0).
Proof.
  intros HN Hk. set (k := row_key (group_by cfg) r0) in *.
  assert (Hlen : List.length k = List.length (group_by cfg)).
  { unfold k, row_key. apply length_map. }
  pose proof (uid_splits k HN Hk) as Hsplit.
  unfold returned_key. rewrite (proj2 (Nat.ltb_lt _ _) HN).
  rewrite <- (map_map to_str VStr).
  rewrite <- (parts_in_order (map to_str k) 0 []) by reflexivity.
  rewrite length_map, Hlen. apply map_ext. intros i.
  unfold part_of.
  assert (Hc : cell "unique_id" (normalized_row cfg r0) = uid_of cfg k) by reflexivity.
  rewrite Hc. unfold uid_of. rewrite (proj2 (Nat.ltb_lt _ _) HN).
  cbn [split_part]. rewrite Hsplit. unfold list_index. cbn [app].
  now destruct (nth_error (map to_str k) i).
Qed.

Lemma returned_row_key_several (r0 : row) :
  1 < List.length (group_by cfg) ->
  In (row_key (group_by cfg) r0) (group_keys df (group_by cfg)) ->
  row_key (group_by cfg)
    (map (fun kv => (rename_label (dict_of [("ds", order_by cfg)]) (fst kv), snd kv))
         (del_cell "unique_id"
            (split_cells (enumerate (group_by cfg)) (normalized_row cfg r0))))
  = returned_key cfg (row_key (group_by cfg) r0).
Proof.
  intros HN Hk.
  transitivity (row_key (group_by cfg)
                  (split_cells (enumerate (group_by cfg)) (normalized_row cfg r0))).
  - unfold row_key. apply map_ext_in. intros g Hg. now apply cell_after_return.
  - unfold enumerate. rewrite row_key_split_cells.
    + now apply parts_of_normalized.
    + exact (groups_distinct _ _ Hwide).
    + intros H. now destruct (group_not_reserved _ H).
    + apply length_seq.
Qed.

(** Lines 78-87 on the normalized table. *)
Lemma get_results_from_nixtla_df_rows (rows : list (value * row)) :
  (forall ir, In ir rows ->
     In (row_key (group_by cfg) (snd ir)) (group_keys df (group_by cfg))) ->
  exists out,
    get_results_from_nixtla_df
      (mkDF ["unique_id"; "ds"; "y"] None
         (map (fun ir => (fst ir, normalized_row cfg (snd ir))) rows)) cfg
    = Ok out
    /\ In (order_by cfg) (columns out)
    /\ incl (group_by cfg) (columns out)
    /\ group_rows out (group_by cfg)
       = map (fun ir => returned_key cfg (row_key (group_by cfg) (snd ir))) rows.
Proof.
  intros Hrows. unfold get_results_from_nixtla_df. cbn [columns].
  change (str_in "unique_id" ["unique_id"; "ds"; "y"]) with true.
  unfold reset_index. cbn [columns index_name body bind].
  set (body2 := reindexed _).
  assert (Hsnd : map snd body2 = map (fun ir => normalized_row cfg (snd ir)) rows).
  { unfold body2. rewrite snd_reindexed, map_map. reflexivity. }
  assert (Hbody2 : forall ir2, In ir2 body2 ->
            exists ir, In ir rows /\ snd ir2 = normalized_row cfg (snd ir)).
  { intros ir2 Hir2. assert (H : In (snd ir2) (map snd body2)) by now apply in_map.
    rewrite Hsnd in H. apply in_map_iff in H. destruct H as [ir [Heq Hir]].
    now exists ir. }
  assert (Hpos : Nat.ltb 0 (List.length (group_by cfg)) = true).
  { apply Nat.ltb_lt. pose proof (groups_given _ _ Hwide).
    destruct (group_by cfg); [congruence | simpl; lia]. }
  rewrite Hpos.
  assert (Hfinal : forall (cols3 : list string) (final : row -> row),
            In "ds" cols3 -> In "unique_id" cols3 ->
            incl (group_by cfg) cols3 ->
            (forall ir, In ir rows ->
               row_key (group_by cfg)
                 (map (fun kv => (rename_label (dict_of [("ds", order_by cfg)]) (fst kv),
                                  snd kv))
                      (del_cell "unique_id" (final (normalized_row cfg (snd ir)))))
               = returned_key cfg (row_key (group_by cfg) (snd ir))) ->
            exists out,
              (dropped <- drop (mkDF cols3 None
                                  (map (fun ir => (fst ir, final (snd ir))) body2))
                               ["unique_id"] ;;
               Ok (rename dropped (dict_of [("ds", order_by cfg)]))) = Ok out
              /\ In (order_by cfg) (columns out)
              /\ incl (group_by cfg) (columns out)
              /\ group_rows out (group_by cfg)
                 = map (fun ir => returned_key cfg (row_key (group_by cfg) (snd ir)))
                       rows).
  { intros cols3 final Hds Huid HG Hkey.
    rewrite drop_one_label by exact Huid. cbn [bind columns index_name body].
    eexists. split; [reflexivity|]. unfold rename. cbn [columns index_name body].
    split; [|split].
    - apply in_map_iff. exists "ds". split.
      + rewrite rename_one. now rewrite String.eqb_refl.
      + apply filter_In. split; [exact Hds | reflexivity].
    - intros g Hg. destruct (group_not_reserved g Hg) as [Hgu Hgd].
      apply in_map_iff. exists g. split.
      + rewrite rename_one. now rewrite (proj2 (String.eqb_neq _ _) Hgd).
      + apply filter_In. split; [now apply HG|].
        now rewrite (proj2 (String.eqb_neq _ _) Hgu).
    - unfold group_rows. cbn [body]. rewrite !map_map. cbn [fst snd].
      rewrite <- (map_map snd (fun r => row_key (group_by cfg)
           (map (fun kv => (rename_label (dict_of [("ds", order_by cfg)]) (fst kv),
                            snd kv))
                (del_cell "unique_id" (final r))))).
      rewrite Hsnd, map_map. apply map_ext_in. exact Hkey. }
  destruct (Nat.ltb_spec 1 (List.length (group_by cfg))) as [HN|HN].
  - rewrite split_loop.
    + cbn [bind columns index_name body]. apply Hfinal.
      * apply split_columns. right. right. now left.
      * apply split_columns. right. now left.
      * intros g Hg. apply split_columns. left. now rewrite snd_enumerate.
      * intros ir Hir. apply returned_row_key_several; [exact HN | now apply Hrows].
    + rewrite snd_enumerate. intros H. now destruct (group_not_reserved _ H).
    + cbn [columns]. now left.
    + cbn [body]. intros ir2 ig Hir2 Hig.
      destruct (Hbody2 ir2 Hir2) as [ir [Hir Heq]]. rewrite Heq.
      assert (Hc : cell "unique_id" (normalized_row cfg (snd ir))
                   = uid_of cfg (row_key (group_by cfg) (snd ir))) by reflexivity.
      rewrite Hc. unfold uid_of. rewrite (proj2 (Nat.ltb_lt _ _) HN).
      cbn [split_part]. rewrite (uid_splits _ HN (Hrows ir Hir)).
      unfold list_index.
      destruct (nth_error (map to_str (row_key (group_by cfg) (snd ir))) (fst ig))
        as [p|] eqn:E.
      * now exists (VStr p).
      * exfalso. apply nth_error_None in E.
        rewrite length_map in E. unfold row_key in E. rewrite length_map in E.
        unfold enumerate in Hig. destruct ig as [i g]. apply in_combine_l in Hig.
        apply in_seq in Hig. cbn [fst] in E. lia.
  - assert (HN' : ~ 1 < List.length (group_by cfg)) by lia.
    destruct (single_group df cfg Hwide HN') as [g Hg].
    replace (list_index (group_by cfg) 0) with (@Ok string g)
      by (rewrite Hg; reflexivity).
    cbn [bind].
    rewrite getitem_present by (cbn [columns]; now left). cbn [bind].
    rewrite values_column.
    rewrite (setitem_rowwise _ g (fun ir => cell "unique_id" (snd ir))).
    cbn [bind columns index_name body].
    assert (Hgin : In g (group_by cfg)) by (rewrite Hg; now left).
    apply (Hfinal _ (fun r => set_cell g (cell "unique_id" r) r)).
    + apply add_label_In. right. right. now left.
    + apply add_label_In. right. now left.
    + rewrite Hg. intros x [<-|[]]. apply add_label_In. now left.
    + intros ir Hir. unfold returned_key.
      rewrite (proj2 (Nat.ltb_ge _ _) HN).
      unfold row_key. rewrite Hg. cbn [map]. f_equal.
      rewrite (cell_after_return g) by exact Hgin.
      rewrite cell_set_cell_eq.
      assert (Hc : cell "unique_id" (normalized_row cfg (snd ir))
                   = uid_of cfg (row_key (group_by cfg) (snd ir))) by reflexivity.
      rewrite Hc. unfold uid_of. rewrite (proj2 (Nat.ltb_ge _ _) HN).
      unfold row_key. rewrite Hg. reflexivity.
Qed.

End Returned.

(** ** The round trip *)

Lemma returned_key_text {lib : Library} (cfg : settings) (k : list value) :
  map to_str (returned_key cfg k) = map to_str k.
Proof.
  unfold returned_key. destruct (Nat.ltb 1 (List.length (group_by cfg)));
    [|reflexivity].
  rewrite map_map. apply map_ext. intros v. apply to_str_text.
Qed.


Lemma reference_contract : LibraryContract Reference.library.
Proof.
  split.
  - intros ks. apply Permutation_refl.
  - intros vs. cbn [to_datetime Reference.library].
    induction vs as [|v vs IH]; intros H; [reflexivity|].
    cbn [forallb] in H. apply andb_true_iff in H. destruct H as [Hv Hvs].
    cbn [map_result]. rewrite (IH Hvs).
    destruct v; try discriminate; reflexivity.
Qed.

Lemma sales_wide : wide_table sales by_region_and_store.
Proof.
  split; cbn [columns sales group_by order_by target by_region_and_store];
    try discriminate;
    try (repeat constructor; simpl; intuition discriminate);
    try (simpl; intuition discriminate).
  intros x Hx. simpl in *. tauto.
Qed.



(** C3, where the code departs from it.  With an empty list of grouping
    columns, the case in which no grouping exists, [transform_to_nixtla_df]
    does not return a table with the default [unique_id]: line 57 reads
    the first element of the empty list and raises an index error, for
    every table. *)
Theorem transform_to_nixtla_df_without_groups
    (lib : Library) (df : DataFrame) (freq order_col target_col : string)
    (levels exog_vars : list string) :
  transform_to_nixtla_df df (mkSettings freq [] order_col target_col levels) exog_vars
  = Raise IndexError.
Proof. reflexivity. Qed.

(** What lines 64-66 are there for: under the marker of no grouping the
    table comes back whole, every row with the default [unique_id]. *)
Lemma transform_to_nixtla_df_marker :
  @transform_to_nixtla_df Reference.library sales marked_ungrouped []
  = Ok (mkDF ["unique_id"; "ds"; "y"] None
          [(VInt 0, [("unique_id", VStr "1"); ("ds", VTime 0); ("y", VInt 5)]);
           (VInt 1, [("unique_id", VStr "1"); ("ds", VTime Reference.day);
                     ("y", VInt 6)]);
           (VInt 2, [("unique_id", VStr "1"); ("ds", VTime 0); ("y", VInt 7)])]).
Proof. reflexivity. Qed.

(** The inverse does provide for an empty list of grouping columns
    (line 79): it drops [unique_id] and renames [ds]. *)
Lemma get_results_from_nixtla_df_without_groups :
  get_results_from_nixtla_df
    (mkDF ["unique_id"; "ds"; "y"] None
       [(VInt 0, [("unique_id", VStr "1"); ("ds", VTime 0); ("y", VInt 5)])])
    ungrouped
  = Ok (mkDF ["day"; "y"] None [(VInt 0, [("day", VTime 0); ("y", VInt 5)])]).
Proof. reflexivity. Qed.

(** Whenever [transform_to_nixtla_df] returns, the columns are
    [unique_id], [ds], [y] and then the exogenous columns asked for. *)
Lemma transform_to_nixtla_df_columns (lib : Library) (df out : DataFrame)
    (settings_dict : settings) (exog_vars : list string) :
  transform_to_nixtla_df df settings_dict exog_vars = Ok out ->
  columns out = ["unique_id"; "ds"; "y"] ++ exog_vars.
Proof.
  unfold transform_to_nixtla_df, statsforecast_columns. cbv zeta. intros H.
  bind_ok H. bind_ok H. bind_ok H. bind_ok H. bind_ok H.
  unfold select in H.
  destruct (forallb _ _); [|discriminate]. now inversion H.
Qed.

(** ** [infer_frequency] on a column of timestamps *)

Lemma map_fst_combine (A B : Type) (a : list A) (b : list B) :
  List.length a = List.length b -> map fst (combine a b) = a.
Proof.
  revert b. induction a as [|x a IH]; intros [|y b] H; try discriminate; [reflexivity|].
  cbn [combine map fst]. f_equal. apply IH. now inversion H.
Qed.

Lemma map_snd_combine (A B : Type) (a : list A) (b : list B) :
  List.length a = List.length b -> map snd (combine a b) = b.
Proof.
  revert b. induction a as [|x a IH]; intros [|y b] H; try discriminate; [reflexivity|].
  cbn [combine map snd]. f_equal. apply IH. now inversion H.
Qed.

Lemma values_with_values_of (s : Series) (vs : list value) :
  List.length vs = List.length (items s) -> values (with_values s vs) = vs.
Proof.
  intros H. unfold values, with_values. cbn [items].
  apply map_snd_combine. now rewrite length_map.
Qed.

Lemma take_map (A B : Type) (f : A -> B) (l : list A) (order : list nat) :
  take (map f l) order = map f (take l order).
Proof.
  unfold take. induction order as [|i order IH]; [reflexivity|].
  cbn [flat_map]. rewrite map_app, IH, nth_error_map.
  now destruct (nth_error l i).
Qed.

Lemma take_seq_from (A : Type) (l pre : list A) :
  take (pre ++ l) (seq (List.length pre) (List.length l)) = l.
Proof.
  unfold take. revert pre. induction l as [|x l IH]; intros pre; [reflexivity|].
  cbn [List.length seq flat_map].
  rewrite nth_error_app2, Nat.sub_diag by lia. cbn [nth_error app].
  f_equal. specialize (IH (pre ++ [x])).
  rewrite <- app_assoc, length_app in IH. cbn [List.length app] in IH.
  now rewrite Nat.add_1_r in IH.
Qed.

Lemma take_seq (A : Type) (l : list A) : take l (seq 0 (List.length l)) = l.
Proof. exact (take_seq_from A l []). Qed.

Lemma take_permutes (A : Type) (l : list A) (order : list nat) :
  Permutation order (seq 0 (List.length l)) -> Permutation (take l order) l.
Proof.
  intros H. rewrite <- (take_seq A l) at 2. unfold take.
  now apply Permutation_flat_map.
Qed.

Lemma stamp_ltb_trichotomy (a b : value) :
  is_datetime a = true -> is_datetime b = true ->
  stamp_ltb b a = false -> a <> b -> stamp_ltb a b = true.
Proof.
  destruct a, b; cbn; intros Ha Hb Hlt Hne; try discriminate; try reflexivity;
    try congruence.
  apply Z.ltb_ge in Hlt. apply Z.ltb_lt.
  assert (ns <> ns0) by congruence. lia.
Qed.

Lemma stamp_ltb_asym (a b : value) : stamp_ltb a b = true -> stamp_ltb b a = false.
Proof.
  destruct a, b; cbn; intros H; try discriminate; try reflexivity.
  apply Z.ltb_lt in H. apply Z.ltb_ge. lia.
Qed.

Lemma stamp_ltb_irrefl (a : value) : stamp_ltb a a = false.
Proof. destruct a; cbn; try reflexivity. apply Z.ltb_irrefl. Qed.

Lemma sorted_filter (R : value -> value -> Prop) (p : value -> bool) (l : list value) :
  StronglySorted R l -> StronglySorted R (filter p l).
Proof.
  induction 1 as [|x l Hs IH Hall]; [constructor|].
  cbn [filter]. destruct (p x); [|exact IH].
  constructor; [exact IH|].
  rewrite Forall_forall in *. intros y Hy. apply filter_In in Hy. now apply Hall.
Qed.

Lemma sorted_app (R : value -> value -> Prop) (l1 l2 : list value) :
  StronglySorted R l1 -> StronglySorted R l2 ->
  (forall x y, In x l1 -> In y l2 -> R x y) ->
  StronglySorted R (l1 ++ l2).
Proof.
  induction 1 as [|x l Hs IH Hall]; intros H2 Hx; [exact H2|].
  cbn [app]. constructor.
  - apply IH; [exact H2|]. intros a b Ha Hb. apply Hx; [now right | exact Hb].
  - apply Forall_app. split; [exact Hall|].
    rewrite Forall_forall. intros y Hy. apply Hx; [now left | exact Hy].
Qed.

(** Of an ascending datetime column [unique] leaves the timestamps in
    strictly ascending order. *)
Lemma unique_strictly_ascending (l : list value) :
  forallb is_datetime l = true -> ascending l -> strictly_ascending (unique l).
Proof.
  unfold ascending, strictly_ascending.
  intros Hdt Hs. induction Hs as [|x l Hs IH Hall]; [constructor|].
  cbn [forallb] in Hdt. apply andb_true_iff in Hdt. destruct Hdt as [Hx Hl].
  cbn [unique]. constructor.
  - apply sorted_filter. now apply IH.
  - rewrite Forall_forall in *. intros y Hy. apply filter_In in Hy.
    destruct Hy as [Hy Hne]. apply (proj1 (unique_In _ _)) in Hy.
    apply negb_true_iff, value_eqb_neq in Hne.
    apply stamp_ltb_trichotomy; [exact Hx | | now apply Hall | congruence].
    rewrite forallb_forall in Hl. now apply Hl.
Qed.

(** Strictly ascending lists with the same entries are the same list. *)
Lemma strictly_ascending_unique (l1 l2 : list value) :
  strictly_ascending l1 -> strictly_ascending l2 ->
  (forall v, In v l1 <-> In v l2) -> l1 = l2.
Proof.
  unfold strictly_ascending. intros H1. revert l2.
  induction H1 as [|x l1 Hs1 IH Hall1]; intros l2 H2 Hin.
  - destruct l2 as [|y l2]; [reflexivity|]. destruct (proj2 (Hin y)). now left.
  - destruct H2 as [|y l2 Hs2 Hall2].
    + destruct (proj1 (Hin x)). now left.
    + rewrite Forall_forall in Hall1, Hall2.
      assert (Hxy : x = y).
      { destruct (proj1 (Hin x) (or_introl eq_refl)) as [Hxy|Hxy]; [now symmetry|].
        destruct (proj2 (Hin y) (or_introl eq_refl)) as [Hyx|Hyx]; [exact Hyx|].
        pose proof (Hall2 x Hxy) as Hlt. pose proof (Hall1 y Hyx) as Hgt.
        rewrite (stamp_ltb_asym _ _ Hlt) in Hgt. discriminate. }
      subst y. f_equal. apply IH; [exact Hs2|]. intros v. split; intros Hv.
      * destruct (proj1 (Hin v) (or_intror Hv)) as [<-|Hv2]; [|exact Hv2].
        pose proof (Hall1 x Hv) as Hlt. rewrite stamp_ltb_irrefl in Hlt. discriminate.
      * destruct (proj2 (Hin v) (or_intror Hv)) as [<-|Hv1]; [|exact Hv1].
        pose proof (Hall2 x Hv) as Hlt. rewrite stamp_ltb_irrefl in Hlt. discriminate.
Qed.

Section Sorting.
Context {lib : Library} {conversion : LibraryContract lib} {sorting : SortContract lib}.
Variables (df : DataFrame) (time_column : string).
Hypothesis Hin : In time_column (columns df).

Lemma sort_values_takes (order : list nat) :
  argsort (values (column df time_column)) = Ok order ->
  sort_values df time_column
  = Ok (mkDF (columns df) (index_name df) (take (body df) order)).
Proof.
  intros H. unfold sort_values, getitem.
  rewrite (proj2 (str_in_In _ _) Hin). cbn [bind]. rewrite H. reflexivity.
Qed.

Lemma sorted_column (order : list nat) :
  values (column (mkDF (columns df) (index_name df) (take (body df) order))
                 time_column)
  = take (values (column df time_column)) order.
Proof. rewrite !values_column. cbn [body]. now rewrite take_map. Qed.

Hypothesis Hstamps : forallb is_datetime (values (column df time_column)) = true.

(** The date series of a datetime column: the table sorted, every row
    kept; the column's timestamps, each once, strictly ascending. *)
Lemma date_series_of_datetimes :
  exists sorted date_series,
    sort_values df time_column = Ok sorted
    /\ columns sorted = columns df
    /\ Permutation (body sorted) (body df)
    /\ ascending (values (column sorted time_column))
    /\ date_series_of df time_column = Ok date_series
    /\ date_series = unique (values (column sorted time_column))
    /\ NoDup date_series
    /\ strictly_ascending date_series
    /\ forall v, In v date_series <-> In v (values (column df time_column)).
Proof.
  destruct (argsort_of_datetimes _ Hstamps) as [order Horder].
  pose proof (argsort_permutes _ _ Horder) as Hperm.
  pose proof (argsort_ascends _ _ Hstamps Horder) as Hasc.
  pose proof (sort_values_takes order Horder) as Hsort.
  set (sorted := mkDF (columns df) (index_name df) (take (body df) order)) in *.
  assert (Hcol : values (column sorted time_column)
                 = take (values (column df time_column)) order)
    by apply sorted_column.
  assert (Hpv : Permutation (values (column sorted time_column))
                            (values (column df time_column))).
  { rewrite Hcol. now apply take_permutes. }
  assert (Hdt : forallb is_datetime (values (column sorted time_column)) = true).
  { apply forallb_forall. intros v Hv. rewrite forallb_forall in Hstamps.
    apply Hstamps. eapply Permutation_in; eassumption. }
  exists sorted, (unique (values (column sorted time_column))).
  split; [exact Hsort|]. split; [reflexivity|]. split.
  { cbn [body sorted]. apply take_permutes.
    rewrite values_column, length_map in Hperm. exact Hperm. }
  split; [now rewrite Hcol|]. split.
  { unfold date_series_of. rewrite Hsort. cbn [bind]. unfold getitem.
    cbn [columns sorted]. rewrite (proj2 (str_in_In _ _) Hin). cbn [bind].
    unfold pd_to_datetime. rewrite (to_datetime_of_datetimes _ Hdt). cbn [bind].
    rewrite values_with_values_of; [reflexivity|].
    unfold values. now rewrite length_map. }
  split; [reflexivity|]. split; [apply unique_NoDup|]. split.
  { apply unique_strictly_ascending; [exact Hdt | now rewrite Hcol]. }
  intros v. rewrite unique_In. split; intros Hv.
  - eapply Permutation_in; eassumption.
  - eapply Permutation_in; [apply Permutation_sym|]; eassumption.
Qed.

End Sorting.

(** ** Daily timestamps with one gap *)

Lemma days_from_In (v : value) (n : nat) (t : Z) :
  In v (days_from t n) ->
  exists i, (0 <= i < Z.of_nat n)%Z /\ v = VTime (t + i * Reference.day).
Proof.
  revert t. induction n as [|n IH]; intros t; [intros []|].
  cbn [days_from]. intros [<-|H].
  - exists 0%Z. split; [lia | f_equal; lia].
  - destruct (IH _ H) as [i [Hi ->]]. exists (i + 1)%Z. split; [lia | f_equal; lia].
Qed.

Lemma day_positive : (0 < Reference.day)%Z.
Proof. reflexivity. Qed.

Lemma days_from_ascending (n : nat) (t : Z) : strictly_ascending (days_from t n).
Proof.
  unfold strictly_ascending. revert t.
  induction n as [|n IH]; intros t; cbn [days_from]; constructor; [apply IH|].
  rewrite Forall_forall. intros v Hv. destruct (days_from_In _ _ _ Hv) as [i [Hi ->]].
  cbn [stamp_ltb]. apply Z.ltb_lt. pose proof day_positive. nia.
Qed.

Lemma daily_with_one_gap_ascending (t : Z) (a b : nat) (k : Z) :
  (0 < k)%Z -> strictly_ascending (daily_with_one_gap t a b k).
Proof.
  intros Hk. unfold daily_with_one_gap.
  apply sorted_app; try apply days_from_ascending.
  intros x y Hx Hy.
  destruct (days_from_In _ _ _ Hx) as [i [Hi ->]].
  destruct (days_from_In _ _ _ Hy) as [j [Hj ->]].
  cbn [stamp_ltb]. apply Z.ltb_lt. pose proof day_positive. nia.
Qed.

Lemma daily_with_one_gap_datetimes (t : Z) (a b : nat) (k : Z) :
  forallb is_datetime (daily_with_one_gap t a b k) = true.
Proof.
  apply forallb_forall. intros v Hv. unfold daily_with_one_gap in Hv.
  apply in_app_or in Hv.
  destruct Hv as [Hv|Hv]; destruct (days_from_In _ _ _ Hv) as [i [_ ->]]; reflexivity.
Qed.

Lemma diff_days_from (n : nat) (t : Z) (l ds : list value) :
  Numpy.diff (VTime (t + Z.of_nat n * Reference.day) :: l) = Ok ds ->
  Numpy.diff (days_from t (S n) ++ l)
  = Ok (repeat (VDelta Reference.day) n ++ ds).
Proof.
  revert t. induction n as [|n IH]; intros t H.
  - cbn [days_from app repeat]. rewrite <- H. do 2 f_equal. f_equal. lia.
  - specialize (IH (t + Reference.day)%Z).
    replace (t + Reference.day + Z.of_nat n * Reference.day)%Z
      with (t + Z.of_nat (S n) * Reference.day)%Z in IH by lia.
    specialize (IH H).
    change (days_from t (S (S n)) ++ l)
      with (VTime t :: (days_from (t + Reference.day) (S n) ++ l)).
    change (days_from (t + Reference.day) (S n) ++ l)
      with (VTime (t + Reference.day)
              :: (days_from (t + Reference.day + Reference.day) n ++ l)) in *.
    cbn [Numpy.diff] in *. cbn [Numpy.minus bind].
    rewrite IH. cbn [bind repeat app].
    do 3 f_equal. lia.
Qed.

Lemma diff_daily_with_one_gap (t : Z) (a b : nat) (k : Z) :
  Numpy.diff (daily_with_one_gap t a b k)
  = Ok (repeat (VDelta Reference.day) a
        ++ VDelta (k * Reference.day) :: repeat (VDelta Reference.day) b).
Proof.
  unfold daily_with_one_gap. apply diff_days_from.
  set (u := (t + (Z.of_nat a + k) * Reference.day)%Z).
  assert (Hb : Numpy.diff (days_from u (S b)) = Ok (repeat (VDelta Reference.day) b)).
  { rewrite <- (app_nil_r (days_from u (S b))).
    rewrite (diff_days_from b u [] []); [now rewrite app_nil_r | reflexivity]. }
  change (days_from u (S b)) with (VTime u :: days_from (u + Reference.day) b) in *.
  cbn [Numpy.diff] in *. cbn [Numpy.minus bind].
  rewrite Hb. cbn [bind]. do 3 f_equal. unfold u. lia.
Qed.

Lemma count_in_repeat (d : value) (n m : nat) (rest : list (value * nat)) :
  fold_left (fun acc v => Numpy.count_in v acc) (repeat d n) ((d, m) :: rest)
  = (d, m + n) :: rest.
Proof.
  revert m. induction n as [|n IH]; intros m.
  - cbn [repeat fold_left]. now rewrite Nat.add_0_r.
  - cbn [repeat fold_left Numpy.count_in]. rewrite value_eqb_refl, IH.
    do 2 f_equal. lia.
Qed.

(** With steps of one day and a single longer step, all that
    [np.unique] counts is the day, first, and the longer step, once. *)
Lemma counts_of_daily_with_one_gap (a b : nat) (g : Z) :
  1 <= a + b -> (Reference.day < g)%Z ->
  Numpy.unique_counts (repeat (VDelta Reference.day) a
                       ++ VDelta g :: repeat (VDelta Reference.day) b)
  = ([VDelta Reference.day; VDelta g], [a + b; 1]).
Proof.
  intros Hab Hg. unfold Numpy.unique_counts.
  assert (Hne : value_eqb (VDelta g) (VDelta Reference.day) = false).
  { cbn [value_eqb]. apply Z.eqb_neq. lia. }
  assert (Hne' : value_eqb (VDelta Reference.day) (VDelta g) = false).
  { cbn [value_eqb]. apply Z.eqb_neq. lia. }
  assert (Hlt : Numpy.delta_ltb (VDelta Reference.day) (VDelta g) = true).
  { cbn [Numpy.delta_ltb]. apply Z.ltb_lt. lia. }
  assert (Hge : Numpy.delta_ltb (VDelta g) (VDelta Reference.day) = false).
  { cbn [Numpy.delta_ltb]. apply Z.ltb_ge. lia. }
  assert (Ht : fold_left (fun acc v => Numpy.count_in v acc)
                 (repeat (VDelta Reference.day) a
                  ++ VDelta g :: repeat (VDelta Reference.day) b) []
               = [(VDelta Reference.day, a + b); (VDelta g, 1)]).
  { rewrite fold_left_app. destruct a as [|a].
    - destruct b as [|b]; [cbn in Hab; lia|].
      cbn [repeat fold_left Numpy.count_in]. rewrite Hne', Hlt.
      rewrite count_in_repeat. reflexivity.
    - cbn [repeat fold_left Numpy.count_in]. rewrite count_in_repeat.
      cbn [fold_left Numpy.count_in]. rewrite Hne, Hge.
      rewrite count_in_repeat. do 2 f_equal; lia. }
  rewrite Ht. reflexivity.
Qed.

Lemma most_common_delta_daily_with_one_gap (t : Z) (a b : nat) (k : Z) :
  1 <= a + b -> (2 <= k)%Z ->
  most_common_delta (daily_with_one_gap t a b k) = Ok (VDelta Reference.day).
Proof.
  intros Hab Hk. unfold most_common_delta.
  rewrite diff_daily_with_one_gap. cbn [bind].
  rewrite counts_of_daily_with_one_gap;
    [|exact Hab | pose proof day_positive; nia].
  cbn [Numpy.argmax Numpy.argmax_from].
  destruct (Nat.ltb_spec (a + b) 1) as [Hlt|_]; [lia|]. reflexivity.
Qed.

(** ** The reference sort meets the contract *)

Lemma insert_sorted_permutes (p : value * nat) (acc : list (value * nat)) :
  Permutation (Reference.insert_sorted p acc) (p :: acc).
Proof.
  induction acc as [|q acc IH]; [apply Permutation_refl|].
  cbn [Reference.insert_sorted]. destruct (Reference.value_ltb _ _).
  - apply Permutation_refl.
  - eapply Permutation_trans; [apply perm_skip, IH | apply perm_swap].
Qed.

Lemma insertion_permutes (ps acc : list (value * nat)) :
  Permutation (fold_left (fun acc p => Reference.insert_sorted p acc) ps acc)
              (ps ++ acc).
Proof.
  revert acc. induction ps as [|p ps IH]; intros acc; [apply Permutation_refl|].
  cbn [fold_left app]. eapply Permutation_trans; [apply IH|].
  eapply Permutation_trans;
    [apply Permutation_app_head, insert_sorted_permutes|].
  apply Permutation_sym, Permutation_middle.
Qed.

Lemma value_ltb_stamps (a b : value) :
  is_datetime a = true -> is_datetime b = true ->
  Reference.value_ltb a b = stamp_ltb a b.
Proof. destruct a, b; try discriminate; reflexivity. Qed.

Lemma stamp_leb_trans (a b c : value) :
  is_datetime a = true -> is_datetime b = true -> is_datetime c = true ->
  stamp_ltb b a = false -> stamp_ltb c b = false -> stamp_ltb c a = false.
Proof.
  destruct a, b, c; cbn; try discriminate; try reflexivity.
  intros _ _ _. rewrite !Z.ltb_ge. lia.
Qed.

Lemma insert_sorted_ascends (p : value * nat) (acc : list (value * nat)) :
  is_datetime (fst p) = true ->
  forallb is_datetime (map fst acc) = true ->
  ascending (map fst acc) ->
  ascending (map fst (Reference.insert_sorted p acc)).
Proof.
  unfold ascending. intros Hp.
  induction acc as [|q acc IH]; intros Hdt Hs.
  - cbn. constructor; constructor.
  - cbn [map forallb] in Hdt. apply andb_true_iff in Hdt. destruct Hdt as [Hq Hacc].
    cbn [map] in Hs. inversion Hs as [|x l Hs' Hall]; subst x l.
    cbn [Reference.insert_sorted]. rewrite (value_ltb_stamps _ _ Hp Hq).
    destruct (stamp_ltb (fst p) (fst q)) eqn:E; cbn [map].
    + constructor; [exact Hs|]. constructor; [now apply stamp_ltb_asym|].
      rewrite Forall_forall in *. intros y Hy.
      apply (stamp_leb_trans (fst p) (fst q) y); auto.
      * rewrite forallb_forall in Hacc. now apply Hacc.
      * now apply stamp_ltb_asym.
    + constructor; [now apply IH|].
      rewrite Forall_forall in *. intros y Hy.
      assert (Hy' : In y (map fst (p :: acc))).
      { eapply Permutation_in; [|exact Hy].
        apply Permutation_map, insert_sorted_permutes. }
      destruct Hy' as [<-|Hy']; [|now apply Hall].
      destruct (fst p), (fst q); cbn in *; try discriminate; try reflexivity.
      apply Z.ltb_ge. apply Z.ltb_ge in E. lia.
Qed.

Lemma insertion_ascends (ps acc : list (value * nat)) :
  forallb is_datetime (map fst ps) = true ->
  forallb is_datetime (map fst acc) = true ->
  ascending (map fst acc) ->
  ascending (map fst (fold_left (fun acc p => Reference.insert_sorted p acc) ps acc)).
Proof.
  revert acc. induction ps as [|p ps IH]; intros acc Hps Hacc Hs; [exact Hs|].
  cbn [map forallb] in Hps. apply andb_true_iff in Hps. destruct Hps as [Hp Hps].
  cbn [fold_left]. apply IH; [exact Hps | |now apply insert_sorted_ascends].
  apply forallb_forall. intros v Hv.
  assert (Hv' : In v (map fst (p :: acc))).
  { eapply Permutation_in; [|exact Hv]. apply Permutation_map, insert_sorted_permutes. }
  destruct Hv' as [<-|Hv']; [exact Hp|].
  rewrite forallb_forall in Hacc. now apply Hacc.
Qed.

Lemma datetimes_one_kind (vs : list value) :
  forallb is_datetime vs = true -> Reference.one_kind vs = true.
Proof.
  intros H. unfold Reference.one_kind.
  assert (Hk : forall k, In k (flat_map (fun v => match Reference.kind_of v with
                                                  | Some k => [k]
                                                  | None => []
                                                  end) vs) ->
                         k = Reference.Times).
  { intros k Hk. apply in_flat_map in Hk. destruct Hk as [v [Hv Hk]].
    rewrite forallb_forall in H. specialize (H v Hv).
    destruct v; try discriminate; cbn in Hk;
      [destruct Hk | destruct Hk as [<-|[]]; reflexivity]. }
  destruct (flat_map _ vs) as [|k ks]; [reflexivity|].
  apply forallb_forall. intros k' Hk'.
  rewrite (Hk k (or_introl eq_refl)), (Hk k' (or_intror Hk')). reflexivity.
Qed.

(** The positions an insertion leaves are those of the cells it sorted. *)
Lemma take_positions (vs : list value) (ps : list (value * nat)) :
  (forall p, In p ps -> nth_error vs (snd p) = Some (fst p)) ->
  take vs (map snd ps) = map fst ps.
Proof.
  intros H. unfold take. induction ps as [|p ps IH]; [reflexivity|].
  cbn [map flat_map]. rewrite (H p (or_introl eq_refl)). cbn [app].
  f_equal. apply IH. intros q Hq. apply H. now right.
Qed.

Lemma combine_seq_positions (vs pre : list value) (p : value * nat) :
  In p (combine vs (seq (List.length pre) (List.length vs))) ->
  nth_error (pre ++ vs) (snd p) = Some (fst p).
Proof.
  revert pre. induction vs as [|v vs IH]; intros pre; [intros []|].
  cbn [List.length seq combine]. intros [<-|H].
  - cbn [fst snd]. rewrite nth_error_app2, Nat.sub_diag by lia. reflexivity.
  - specialize (IH (pre ++ [v])).
    rewrite <- app_assoc, length_app in IH. cbn [List.length app] in IH.
    rewrite Nat.add_1_r in IH. now apply IH.
Qed.

Lemma reference_sorts : SortContract Reference.library.
Proof.
  split; cbn [argsort Reference.library]; unfold Reference.argsort_values.
  - intros vs order H. destruct (Reference.one_kind vs); [|discriminate].
    inversion H as [Ho]. clear H Ho order.
    eapply Permutation_trans; [apply Permutation_map, insertion_permutes|].
    rewrite app_nil_r, map_snd_combine; [apply Permutation_refl|].
    now rewrite length_seq.
  - intros vs H. rewrite (datetimes_one_kind vs H). eexists. reflexivity.
  - intros vs order Hdt H. rewrite (datetimes_one_kind vs Hdt) in H.
    inversion H as [Ho]. clear H Ho order.
    assert (Hfst : map fst (combine vs (seq 0 (List.length vs))) = vs).
    { apply map_fst_combine. now rewrite length_seq. }
    rewrite take_positions.
    + apply insertion_ascends; [now rewrite Hfst | reflexivity | constructor].
    + intros p Hp. apply (combine_seq_positions vs [] p).
      eapply Permutation_in; [|exact Hp].
      eapply Permutation_trans; [apply insertion_permutes|].
      rewrite app_nil_r. apply Permutation_refl.
Qed.




(* ================================================================== *)
(** * Further properties of the module *)
(* ================================================================== *)

(** ** Further facts about lists and frames *)

Lemma fst_reindexed (rows : list (value * row)) :
  map fst (reindexed rows) = range_index (List.length rows).
Proof.
  unfold reindexed. apply map_fst_combine.
  unfold range_index. now rewrite !length_map, length_seq.
Qed.

(** ** Scores and the best model, at the edges *)

Lemma accuracy_loop_skips (df : DataFrame) (metric : metric_fn) (cols : list string)
    (acc : dict number) :
  filter (fun c => negb (reserved c)) cols = [] ->
  for_each cols
    (fun accuracy_dict column =>
       if str_in column ["unique_id"; "ds"; "y"; "cutoff"]
       then Ok accuracy_dict
       else
         y <- getitem df "y" ;;
         predicted <- getitem df column ;;
         let model_error := metric y predicted in
         Ok (dict_set accuracy_dict column model_error))
    acc
  = Ok acc.
Proof.
  induction cols as [|c cols IH]; intros H; [reflexivity|].
  cbn [filter] in H. unfold reserved in H at 1. cbn [for_each].
  destruct (str_in c ["unique_id"; "ds"; "y"; "cutoff"]); cbn [negb] in H;
    [|discriminate]. cbn [bind]. now apply IH.
Qed.

Lemma accuracy_loop_key_error (df : DataFrame) (metric : metric_fn) (cols : list string)
    (acc : dict number) :
  ~ In "y" (columns df) ->
  filter (fun c => negb (reserved c)) cols <> [] ->
  for_each cols
    (fun accuracy_dict column =>
       if str_in column ["unique_id"; "ds"; "y"; "cutoff"]
       then Ok accuracy_dict
       else
         y <- getitem df "y" ;;
         predicted <- getitem df column ;;
         let model_error := metric y predicted in
         Ok (dict_set accuracy_dict column model_error))
    acc
  = Raise KeyError.
Proof.
  intros Hy. induction cols as [|c cols IH]; intros H; [now elim H|].
  cbn [filter] in H. unfold reserved in H at 1. cbn [for_each].
  destruct (str_in c ["unique_id"; "ds"; "y"; "cutoff"]); cbn [negb] in H.
  - cbn [bind]. now apply IH.
  - unfold getitem at 1. apply str_in_not_In in Hy. rewrite Hy. reflexivity.
Qed.

(** X1. A results table without model columns scores to the empty
    mapping, whether or not it has the actuals; a table that has a model
    column but no column [y] makes [get_model_accuracy_dict] raise a key
    error at line 109. *)
Theorem get_model_accuracy_dict_without_actuals (df : DataFrame) (metric : metric_fn) :
  (models df = [] -> get_model_accuracy_dict df metric = Ok [])
  /\ (~ In "y" (columns df) -> models df <> [] ->
      get_model_accuracy_dict df metric = Raise KeyError).
Proof.
  split.
  - intros H. apply accuracy_loop_skips. exact H.
  - intros Hy H. apply accuracy_loop_key_error; assumption.
Qed.

Lemma get_model_accuracy_dict_without_actuals_witness :
  models results_without_models = []
  /\ ~ In "y" (columns results_without_actuals)
  /\ models results_without_actuals <> []
  /\ get_model_accuracy_dict results_without_models (scored_by []) = Ok []
  /\ get_model_accuracy_dict results_without_actuals (scored_by []) = Raise KeyError.
Proof.
  assert (H1 : models results_without_models = []) by reflexivity.
  assert (H2 : ~ In "y" (columns results_without_actuals)).
  { simpl. intuition discriminate. }
  assert (H3 : models results_without_actuals <> []) by (vm_compute; discriminate).
  repeat (split; [assumption|]).
  split.
  - exact (proj1 (get_model_accuracy_dict_without_actuals results_without_models
                    (scored_by [])) H1).
  - exact (proj2 (get_model_accuracy_dict_without_actuals results_without_actuals
                    (scored_by [])) H2 H3).
Defined.

Lemma dict_set_In (V : Type) (d : dict V) (c k : string) (x v : V) :
  In (k, v) (dict_set d c x) -> (k = c /\ v = x) \/ In (k, v) d.
Proof.
  induction d as [|[k' v'] d IH]; cbn [dict_set].
  - intros [H|[]]. inversion H. now left.
  - destruct (String.eqb c k') eqn:E.
    + apply String.eqb_eq in E. subst k'. intros [H|H].
      * inversion H. now left.
      * right. now right.
    + intros [H|H]; [right; now left|].
      destruct (IH H) as [?|?]; [now left | right; now right].
Qed.

Lemma accuracy_loop_entries (df : DataFrame) (metric : metric_fn) (cols : list string)
    (acc d : dict number) (P : string -> number -> Prop) :
  (forall k v, In (k, v) acc -> P k v) ->
  (forall c, In c cols -> reserved c = false -> In "y" (columns df) ->
             In c (columns df) -> P c (metric (column df "y") (column df c))) ->
  for_each cols
    (fun accuracy_dict column =>
       if str_in column ["unique_id"; "ds"; "y"; "cutoff"]
       then Ok accuracy_dict
       else
         y <- getitem df "y" ;;
         predicted <- getitem df column ;;
         let model_error := metric y predicted in
         Ok (dict_set accuracy_dict column model_error))
    acc
  = Ok d ->
  forall k v, In (k, v) d -> P k v.
Proof.
  match goal with |- context [for_each _ ?f _] => set (step := f) end.
  revert acc. induction cols as [|c cols IH]; intros acc Hacc Hcols H.
  - cbn [for_each] in H. inversion H. subst d. exact Hacc.
  - cbn [for_each] in H. unfold step at 1 in H.
    destruct (str_in c ["unique_id"; "ds"; "y"; "cutoff"]) eqn:Er.
    + cbn [bind] in H. apply (IH acc); [exact Hacc | | exact H].
      intros c' Hc'. apply Hcols. now right.
    + destruct (getitem df "y") as [y|] eqn:Ey; [|discriminate H].
      destruct (getitem df c) as [p|] eqn:Ec; [|discriminate H].
      cbn [bind] in H. cbv zeta in H.
      unfold getitem in Ey, Ec.
      destruct (str_in "y" (columns df)) eqn:Ey'; [|discriminate Ey].
      destruct (str_in c (columns df)) eqn:Ec'; [|discriminate Ec].
      inversion Ey; inversion Ec; subst y p.
      apply (IH (dict_set acc c (metric (column df "y") (column df c))));
        [ | | exact H].
      * intros k v Hin. apply dict_set_In in Hin. destruct Hin as [[-> ->]|Hin].
        -- apply Hcols; [now left | exact Er | now apply str_in_In | now apply str_in_In].
        -- now apply Hacc.
      * intros c' Hc'. apply Hcols. now right.
Qed.

(** X2. For a results table with distinct column labels and whatever
    the metric: a model that [get_best_model_from_results_df] returns is
    a column of the table other than unique_id, ds, y and cutoff, the
    table has the column [y], and the model's score is above zero. *)
Theorem get_best_model_is_a_scored_model (df : DataFrame) (metric : metric_fn)
    (m : string) :
  NoDup (columns df) ->
  get_best_model_from_results_df df metric = Ok (Some m) ->
  In m (columns df)
  /\ ~ In m ["unique_id"; "ds"; "y"; "cutoff"]
  /\ In "y" (columns df)
  /\ gt (metric (column df "y") (column df m)) (of_Z 0) = true.
Proof.
  unfold get_best_model_from_results_df. intros _ H.
  destruct (get_model_accuracy_dict df metric) as [d|e] eqn:Ed; [|discriminate H].
  cbn [bind] in H. inversion H as [Hbest]. clear H.
  pose proof (best_loop_invariant d) as [_ [_ Hsome]].
  destruct (Hsome m Hbest) as [Hgt [earlier [later [Hd _]]]].
  set (best := fold_left _ d _) in *.
  assert (Hin : In (m, snd best) d).
  { rewrite Hd. apply in_or_app. right. now left. }
  pose proof (accuracy_loop_entries df metric (columns df) [] d
                (fun k v => In k (columns df) /\ reserved k = false
                            /\ In "y" (columns df)
                            /\ v = metric (column df "y") (column df k))) as Hall.
  destruct (Hall (fun k v (F : In (k, v) []) => match F with end)
                 (fun c Hc Hr Hy Hc' => conj Hc' (conj Hr (conj Hy eq_refl)))
                 Ed m (snd best) Hin) as [Hm [Hr [Hy Hv]]].
  split; [exact Hm|]. split; [|split; [exact Hy|]].
  - unfold reserved in Hr. now apply str_in_not_In.
  - now rewrite <- Hv.
Qed.

Lemma get_best_model_is_a_scored_model_witness :
  NoDup (columns results_m1_m2)
  /\ get_best_model_from_results_df results_m1_m2
       (scored_by [("m1", Fin (8 # 10)); ("m2", Fin (95 # 100))]) = Ok (Some "m2")
  /\ In "m2" (columns results_m1_m2)
  /\ ~ In "m2" ["unique_id"; "ds"; "y"; "cutoff"].
Proof.
  assert (Hnd : NoDup (columns results_m1_m2)).
  { repeat constructor; simpl; intuition discriminate. }
  assert (H : get_best_model_from_results_df results_m1_m2
                (scored_by [("m1", Fin (8 # 10)); ("m2", Fin (95 # 100))])
              = Ok (Some "m2")) by reflexivity.
  split; [exact Hnd|]. split; [exact H|].
  destruct (get_best_model_is_a_scored_model results_m1_m2 _ "m2" Hnd H)
    as [H1 [H2 _]].
  split; assumption.
Defined.

(** ** Unpacking a reconciled table, without assumptions *)

Lemma first_unreconciled_none (cols : list string) :
  first_unreconciled cols = None <->
  forall c, In c cols -> c = "ds" \/ c = "y" \/ contains "BottomUp" c = true.
Proof.
  induction cols as [|x cols IH]; cbn [first_unreconciled].
  - split; [intros _ c [] | reflexivity].
  - destruct (str_in x ["ds"; "y"]) eqn:Er; cbn [negb andb].
    + rewrite IH. split.
      * intros H c [<-|Hc]; [|now apply H].
        apply str_in_In in Er. simpl in Er. intuition.
      * intros H c Hc. apply H. now right.
    + destruct (contains "BottomUp" x) eqn:Em; cbn [negb].
      * rewrite IH. split.
        -- intros H c [<-|Hc]; [|now apply H]. right. now right.
        -- intros H c Hc. apply H. now right.
      * split; [discriminate|]. intros H.
        destruct (H x (or_introl eq_refl)) as [->|[->|Hm]].
        -- discriminate Er.
        -- discriminate Er.
        -- rewrite Hm in Em. discriminate.
Qed.

Lemma first_unreconciled_some (cols : list string) (c : string) :
  first_unreconciled cols = Some c ->
  In c cols /\ c <> "ds" /\ c <> "y" /\ contains "BottomUp" c = false.
Proof.
  induction cols as [|x cols IH]; cbn [first_unreconciled]; [discriminate|].
  destruct (str_in x ["ds"; "y"]) eqn:Er; cbn [negb andb].
  - intros H. destruct (IH H) as [? ?]. split; [now right | assumption].
  - destruct (contains "BottomUp" x) eqn:Em; cbn [negb].
    + intros H. destruct (IH H) as [? ?]. split; [now right | assumption].
    + intros H. inversion H. subst x. split; [now left|].
      apply str_in_not_In in Er. simpl in Er. intuition.
Qed.

Lemma get_results_from_reconciled_df_cases (reconciled_df hierarchy_df : DataFrame) :
  match first_unreconciled (columns reconciled_df) with
  | Some c =>
      get_results_from_reconciled_df reconciled_df hierarchy_df
      = if has_str_accessor (index reconciled_df)
        then Ok (mkDF (filter (fun x => negb (String.eqb x c)) (columns reconciled_df))
                   (index_name reconciled_df)
                   (map (fun ir => (str_replace "total/" "" (fst ir),
                                    del_cell c (snd ir)))
                        (filter (fun ir => isin (columns hierarchy_df) (fst ir))
                                (body reconciled_df))))
        else Raise AttributeError
  | None =>
      get_results_from_reconciled_df reconciled_df hierarchy_df = Raise UnboundLocalError
  end.
Proof.
  destruct (first_unreconciled (columns reconciled_df)) as [c|] eqn:E.
  - destruct (has_str_accessor (index reconciled_df)) eqn:Ht.
    + now apply get_results_from_reconciled_df_text.
    + unfold get_results_from_reconciled_df.
      rewrite (drop_unreconciled_first reconciled_df (columns reconciled_df) c
                 (incl_refl _) E).
      cbn [bind]. unfold index. cbn [body]. rewrite map_map. cbn [fst].
      change (map (fun x => fst x) (body reconciled_df)) with (index reconciled_df).
      now rewrite Ht.
  - unfold get_results_from_reconciled_df.
    rewrite drop_unreconciled_none; [reflexivity|].
    now apply first_unreconciled_none.
Qed.

Lemma integer_index_has_no_accessor (labels : list value) :
  labels <> [] ->
  (forall i, In i labels -> exists z, i = VInt z) ->
  has_str_accessor labels = false.
Proof.
  intros Hne Hint. destruct labels as [|v labels]; [congruence|].
  unfold has_str_accessor. destruct (existsb _ (v :: labels)) eqn:E; [|reflexivity].
  apply existsb_exists in E. destruct E as [x [Hx Htext]].
  destruct (Hint x Hx) as [z ->]. discriminate.
Qed.

(** X3. For a reconciled table with at least one row.  When its rows
    are labelled by text, [get_results_from_reconciled_df] returns a
    table exactly when some column other than ds and y lacks the marker
    BottomUp in its name, and the only exception it raises is the
    unbound-local error.  When its labels are all integers and there is
    such a column, it raises an attribute error (the index has no [str]
    accessor at line 190). *)
Theorem get_results_from_reconciled_df_returns_iff
    (reconciled_df hierarchy_df : DataFrame) :
  index reconciled_df <> [] ->
  (forallb is_str (index reconciled_df) = true ->
   ((exists out, get_results_from_reconciled_df reconciled_df hierarchy_df = Ok out)
    <-> exists c, In c (columns reconciled_df) /\ c <> "ds" /\ c <> "y"
                  /\ contains "BottomUp" c = false)
   /\ forall e, get_results_from_reconciled_df reconciled_df hierarchy_df = Raise e ->
                e = UnboundLocalError)
  /\ ((forall i, In i (index reconciled_df) -> exists z, i = VInt z) ->
      (exists c, In c (columns reconciled_df) /\ c <> "ds" /\ c <> "y"
                 /\ contains "BottomUp" c = false) ->
      get_results_from_reconciled_df reconciled_df hierarchy_df = Raise AttributeError).
Proof.
  intros Hne.
  pose proof (get_results_from_reconciled_df_cases reconciled_df hierarchy_df) as H.
  split.
  - intros Htext. rewrite (text_index_has_accessor _ Htext) in H.
    destruct (first_unreconciled (columns reconciled_df)) as [c|] eqn:E.
    + split.
      * split.
        -- intros _. exists c. now apply first_unreconciled_some.
        -- intros _. eexists. exact H.
      * intros e He. rewrite H in He. discriminate.
    + split.
      * split.
        -- intros [out Hout]. rewrite H in Hout. discriminate.
        -- intros [c [Hc [Hds [Hy Hm]]]].
           destruct (proj1 (first_unreconciled_none _) E c Hc) as [?|[?|Hm']];
             [contradiction | contradiction | rewrite Hm' in Hm; discriminate].
      * intros e He. rewrite H in He. now inversion He.
  - intros Hint [c [Hc [Hds [Hy Hm]]]].
    rewrite (integer_index_has_no_accessor _ Hne Hint) in H.
    destruct (first_unreconciled (columns reconciled_df)) as [c'|] eqn:E; [exact H|].
    destruct (proj1 (first_unreconciled_none _) E c Hc) as [?|[?|Hm']];
      [contradiction | contradiction | rewrite Hm' in Hm; discriminate].
Qed.

Lemma get_results_from_reconciled_df_returns_iff_witness :
  index reconciled_two_models <> []
  /\ forallb is_str (index reconciled_two_models) = true
  /\ (exists c, In c (columns reconciled_two_models) /\ c <> "ds" /\ c <> "y"
                /\ contains "BottomUp" c = false)
  /\ (exists out,
        get_results_from_reconciled_df reconciled_two_models leaves_a_b = Ok out)
  /\ index reconciled_by_position <> []
  /\ get_results_from_reconciled_df reconciled_by_position leaves_a_b
     = Raise AttributeError.
Proof.
  assert (Ht : forallb is_str (index reconciled_two_models) = true) by reflexivity.
  assert (H : exists c, In c (columns reconciled_two_models) /\ c <> "ds" /\ c <> "y"
                        /\ contains "BottomUp" c = false).
  { exists "m1". repeat split; [simpl; tauto | discriminate | discriminate]. }
  assert (Hne : index reconciled_by_position <> []) by discriminate.
  assert (Hrows : index reconciled_two_models <> []) by discriminate.
  split; [exact Hrows|].
  split; [exact Ht|]. split; [exact H|]. split; [|split; [exact Hne|]].
  - exact (proj2 (proj1 (proj1 (get_results_from_reconciled_df_returns_iff
                                  reconciled_two_models leaves_a_b Hrows) Ht)) H).
  - apply (proj2 (get_results_from_reconciled_df_returns_iff
                    reconciled_by_position leaves_a_b Hne)).
    + intros i [<-|[<-|[]]]; now eexists.
    + exists "m1". repeat split; [simpl; tauto | discriminate | discriminate].
Defined.

(** X4. Whenever [get_results_from_reconciled_df] returns, it has left
    out the first column, other than ds and y, whose name lacks the
    marker, and nothing else: every other column is kept, a second
    unreconciled column included; the name of the index is kept; no row
    is added; every row kept was labelled by a column name of the
    hierarchy matrix, its new label is the old one with total/ replaced
    by nothing, and its cells under the columns kept are unchanged. *)
Theorem get_results_from_reconciled_df_keeps_the_rest
    (reconciled_df hierarchy_df out : DataFrame) :
  get_results_from_reconciled_df reconciled_df hierarchy_df = Ok out ->
  exists c,
    first_unreconciled (columns reconciled_df) = Some c
    /\ (forall x, In x (columns out) <-> In x (columns reconciled_df) /\ x <> c)
    /\ index_name out = index_name reconciled_df
    /\ nrows out <= nrows reconciled_df
    /\ forall i r, In (i, r) (body out) ->
         exists i0 r0,
           In (i0, r0) (body reconciled_df)
           /\ isin (columns hierarchy_df) i0 = true
           /\ i = str_replace "total/" "" i0
           /\ forall x, x <> c -> cell x r = cell x r0.
Proof.
  intros Hout.
  pose proof (get_results_from_reconciled_df_cases reconciled_df hierarchy_df) as H.
  destruct (first_unreconciled (columns reconciled_df)) as [c|] eqn:E;
    [|rewrite H in Hout; discriminate].
  rewrite H in Hout.
  destruct (has_str_accessor (index reconciled_df)); [|discriminate Hout].
  inversion Hout as [Heq]. clear Hout H.
  exists c. split; [reflexivity|]. cbn [columns index_name body nrows].
  split; [|split; [reflexivity|split]].
  - intros x. rewrite filter_In. rewrite negb_true_iff, String.eqb_neq. tauto.
  - unfold nrows. cbn [body]. rewrite length_map. apply filter_length_le.
  - intros i r Hin. apply in_map_iff in Hin. destruct Hin as [[i0 r0] [Hir Hin]].
    cbn [fst snd] in Hir. inversion Hir; subst i r. clear Hir.
    apply filter_In in Hin. destruct Hin as [Hin Hleaf]. cbn [fst] in Hleaf.
    exists i0, r0. repeat split; try assumption.
    intros x Hx. now apply cell_del_cell_neq.
Qed.

Lemma get_results_from_reconciled_df_keeps_the_rest_witness :
  exists out,
    get_results_from_reconciled_df reconciled_two_models leaves_a_b = Ok out
    /\ (In "m2" (columns out) <-> In "m2" (columns reconciled_two_models) /\ "m2" <> "m1").
Proof.
  assert (H : get_results_from_reconciled_df reconciled_two_models leaves_a_b
              = Ok (mkDF ["ds"; "y"; "m2"; "m1/BottomUp"; "m2/BottomUp"]
                      (Some "unique_id")
                      [(VStr "a", [("ds", VTime 0); ("y", VInt 1); ("m2", VInt 3);
                                   ("m1/BottomUp", VInt 2); ("m2/BottomUp", VInt 1)])]))
    by (vm_compute; reflexivity).
  eexists. split; [exact H|].
  destruct (get_results_from_reconciled_df_keeps_the_rest reconciled_two_models
              leaves_a_b _ H) as [c [Hc [Hcols _]]].
  inversion Hc. subst c. exact (Hcols "m2").
Defined.

(** ** Frequency inference: the missing column, and ties of the fallback *)



Lemma argmax_from_first (a : list nat) (best_i best i : nat) :
  (Numpy.argmax_from best_i best i a = best_i /\ forall x, In x a -> x <= best)
  \/ exists k m,
       Numpy.argmax_from best_i best i a = i + k
       /\ nth_error a k = Some m
       /\ best < m
       /\ (forall x, In x a -> x <= m)
       /\ forall k' x, k' < k -> nth_error a k' = Some x -> x < m.
Proof.
  revert best_i best i. induction a as [|x a IH]; intros best_i best i.
  - left. split; [reflexivity | intros x []].
  - cbn [Numpy.argmax_from]. destruct (Nat.ltb_spec best x) as [Hlt|Hge].
    + right. destruct (IH i x (S i)) as [[Hj Hall]|[k [m [Hj [Hk [Hlt' [Hall Hbefore]]]]]]].
      * exists 0, x. split; [lia|]. split; [reflexivity|]. split; [exact Hlt|]. split.
        -- intros y [<-|Hy]; [lia | now apply Hall].
        -- intros k' y Hk'. lia.
      * exists (S k), m. split; [lia|]. split; [exact Hk|]. split; [lia|]. split.
        -- intros y [<-|Hy]; [lia | now apply Hall].
        -- intros k' y Hk' Hy. destruct k' as [|k']; cbn [nth_error] in Hy.
           ++ inversion Hy; subst. exact Hlt'.
           ++ apply (Hbefore k'); [lia | exact Hy].
    + destruct (IH best_i best (S i)) as [[Hj Hall]|[k [m [Hj [Hk [Hlt' [Hall Hbefore]]]]]]].
      * left. split; [exact Hj|]. intros y [<-|Hy]; [lia | now apply Hall].
      * right. exists (S k), m. split; [lia|]. split; [exact Hk|]. split; [exact Hlt'|].
        split.
        -- intros y [<-|Hy]; [lia | now apply Hall].
        -- intros k' y Hk' Hy. destruct k' as [|k']; cbn [nth_error] in Hy.
           ++ inversion Hy; subst. lia.
           ++ apply (Hbefore k'); [lia | exact Hy].
Qed.

Lemma argmax_first (a : list nat) (j : nat) :
  Numpy.argmax a = Ok j ->
  exists m, nth_error a j = Some m
            /\ (forall x, In x a -> x <= m)
            /\ forall i x, i < j -> nth_error a i = Some x -> x < m.
Proof.
  destruct a as [|x a]; [discriminate|]. cbn [Numpy.argmax]. intros H.
  inversion H as [Hj]. clear H.
  destruct (argmax_from_first a 0 x 1) as [[-> Hall]|[k [m [-> [Hk [Hlt [Hall Hbefore]]]]]]].
  - exists x. split; [reflexivity|]. split.
    + intros y [<-|Hy]; [lia | now apply Hall].
    + intros i y Hi. lia.
  - exists m. split; [exact Hk|]. split.
    + intros y [<-|Hy]; [lia | now apply Hall].
    + intros i y Hi Hy. destruct i as [|i]; cbn [nth_error] in Hy.
      * inversion Hy; subst. exact Hlt.
      * apply (Hbefore i); [lia | exact Hy].
Qed.

Lemma increasing_nth (t : list (value * nat)) (i i' : nat) (k k' : value) (n n' : nat) :
  increasing t -> i < i' ->
  nth_error t i = Some (k, n) -> nth_error t i' = Some (k', n') ->
  Numpy.delta_ltb k k' = true.
Proof.
  revert i i'. induction t as [|[k0 n0] t IH]; intros i i' Hinc Hlt Hi Hi'.
  - destruct i; discriminate.
  - destruct Hinc as [Habove Hinc]. destruct i' as [|i']; [lia|].
    cbn [nth_error] in Hi'. destruct i as [|i]; cbn [nth_error] in Hi.
    + inversion Hi; subst. unfold above in Habove. rewrite Forall_forall in Habove.
      apply (Habove (k', n')). eapply nth_error_In. exact Hi'.
    + apply (IH i i'); [exact Hinc | lia | exact Hi | exact Hi'].
Qed.

Lemma table_count_found (t : list (value * nat)) (w : value) :
  0 < table_count t w -> exists i, nth_error t i = Some (w, table_count t w).
Proof.
  induction t as [|[k n] t IH]; cbn [table_count]; [lia|].
  destruct (value_eqb w k) eqn:E.
  - apply value_eqb_eq in E. subst k. intros _. now exists 0.
  - intros H. destruct (IH H) as [i Hi]. now exists (S i).
Qed.

Lemma occurrences_In (d : value) (l : list value) : In d l -> 0 < occurrences d l.
Proof.
  induction l as [|v l IH]; [intros []|]. rewrite occurrences_cons.
  intros [->|H].
  - rewrite value_eqb_refl. lia.
  - specialize (IH H). lia.
Qed.

(** X6. The fallback of [infer_frequency] breaks ties towards the
    smallest difference: a difference of successive timestamps that
    occurs as often as the one lines 95-96 take is that one or a larger
    one ([np.unique] sorts, [np.argmax] takes the first maximum). *)
Theorem most_common_delta_ties_to_the_smallest
    (date_series deltas : list value) (delta : value) :
  Numpy.diff date_series = Ok deltas ->
  most_common_delta date_series = Ok delta ->
  forall d, In d deltas ->
            occurrences d deltas = occurrences delta deltas ->
            d = delta \/ Numpy.delta_ltb delta d = true.
Proof.
  intros Hdiff Hmc d Hd Htie. unfold most_common_delta in Hmc.
  rewrite Hdiff in Hmc. cbn [bind] in Hmc. unfold Numpy.unique_counts in Hmc.
  destruct (counts_table deltas [] (diff_is_delta _ _ Hdiff) (Forall_nil _) I)
    as [Hinc Hcount].
  set (t := fold_left (fun acc v => Numpy.count_in v acc) deltas []) in *.
  cbn [table_count Nat.add] in Hcount.
  destruct (Numpy.argmax (map snd t)) as [j|] eqn:Ej; [|discriminate Hmc].
  cbn [bind] in Hmc. unfold list_index in Hmc.
  destruct (argmax_first _ _ Ej) as [m [Hm [_ Hbefore]]].
  rewrite nth_error_map in Hmc, Hm.
  destruct (nth_error t j) as [[k n]|] eqn:Et; [|discriminate Hm].
  cbn [option_map fst snd] in Hmc, Hm. inversion Hmc; inversion Hm; subst k n.
  assert (Hdelta : occurrences delta deltas = m).
  { rewrite <- Hcount. eapply table_count_at; eassumption. }
  assert (Hpos : 0 < table_count t d).
  { rewrite Hcount. now apply occurrences_In. }
  destruct (table_count_found t d Hpos) as [i Hi].
  rewrite Hcount, Htie, Hdelta in Hi.
  destruct (Nat.lt_trichotomy i j) as [Hlt|[->|Hgt]].
  - exfalso. apply (Nat.lt_irrefl m). apply (Hbefore i m Hlt).
    rewrite nth_error_map, Hi. reflexivity.
  - left. rewrite Et in Hi. now inversion Hi.
  - right. eapply increasing_nth; eassumption.
Qed.

Lemma most_common_delta_ties_to_the_smallest_witness :
  Numpy.diff days_0_1_3 = Ok [VDelta Reference.day; VDelta (2 * Reference.day)]
  /\ most_common_delta days_0_1_3 = Ok (VDelta Reference.day)
  /\ (VDelta (2 * Reference.day) = VDelta Reference.day
      \/ Numpy.delta_ltb (VDelta Reference.day) (VDelta (2 * Reference.day)) = true).
Proof.
  split; [reflexivity|]. split; [reflexivity|].
  apply (most_common_delta_ties_to_the_smallest days_0_1_3
           [VDelta Reference.day; VDelta (2 * Reference.day)]
           (VDelta Reference.day) eq_refl eq_refl).
  - right. now left.
  - reflexivity.
Defined.

(** ** The normalized table of a grouped wide table *)

Lemma sales_some_group : some_group sales by_region_and_store.
Proof.
  intros _. exists [VStr "north"; VStr "n1"]. split; [now left | reflexivity].
Qed.

Lemma reference_resamples_sales :
  @resamples_well Reference.library sales by_region_and_store.
Proof.
  intros k Hk. vm_compute in Hk.
  destruct Hk as [<-|[<-|[]]]; eexists;
    (split; [vm_compute; reflexivity | split; [discriminate | reflexivity]]).
Qed.



(** ** A single grouping column, there and back *)


Lemma sales_of_one_region_wide : wide_table sales_of_one_region by_region.
Proof.
  split; cbn [columns sales_of_one_region group_by order_by target by_region];
    try discriminate;
    try (repeat constructor; simpl; intuition discriminate);
    try (simpl; intuition discriminate).
  intros x Hx. simpl in *. tauto.
Qed.


(** ** No grouping: the marker *)



(** ** Exogenous columns *)

Lemma cell_absent (c : string) (r : row) : ~ In c (map fst r) -> cell c r = VNull.
Proof.
  induction r as [|[c' v] r IH]; [reflexivity|]. cbn [map fst In cell]. intros H.
  destruct (String.eqb_spec c c') as [->|_]; [exfalso; apply H; now left|].
  apply IH. intros Hin. apply H. now right.
Qed.

Lemma forallb_absent (cs cols : list string) (c : string) :
  In c cs -> ~ In c cols -> forallb (fun c => str_in c cols) cs = false.
Proof.
  intros Hc Hn. destruct (forallb _ cs) eqn:E; [|reflexivity].
  rewrite forallb_forall in E. specialize (E c Hc). apply str_in_In in E.
  contradiction.
Qed.

Lemma rename_three_cases (t o gc c : string) :
  t <> o -> gc <> t -> gc <> o ->
  let f := rename_label (dict_of [(t, "y"); (o, "ds"); (gc, "unique_id")]) in
  f c = "y" \/ f c = "ds" \/ f c = "unique_id" \/ f c = c.
Proof.
  intros Hto Hgt Hgo f. subst f. rewrite rename_three by assumption.
  destruct (String.eqb c t); [now left|].
  destruct (String.eqb c o); [right; now left|].
  destruct (String.eqb c gc); [right; right; now left|].
  right; right; now right.
Qed.

Section Exogenous.
Context {lib : Library} {contract : LibraryContract lib}.
Variables (df : DataFrame) (cfg : settings).
Hypothesis Hwide : wide_table df cfg.

(** Lines 59-69 on a frame whose labels are known: what reaches the
    selection of line 70. *)
Lemma statsforecast_columns_before_select (cols : list string)
    (rows : list (value * row)) (gc u : string) (exog_vars : list string) :
  gc <> target cfg -> gc <> order_by cfg ->
  ((u = gc /\ In gc (columns df)) \/ (u = "unique_id" /\ gc = "ignore this")) ->
  In u cols -> In (order_by cfg) cols -> In (target cfg) cols ->
  (forall ir, In ir rows ->
     is_datetime (cell (order_by cfg) (snd ir)) = true
     /\ forall l, In l (map fst (snd ir)) -> known_label df gc l) ->
  let f := rename_label (dict_of [(target cfg, "y"); (order_by cfg, "ds");
                                   (gc, "unique_id")]) in
  (incl ["unique_id"; "ds"; "y"] (map f cols)
   /\ forall ir x, In ir rows ->
        (f x = "unique_id" -> x = u) ->
        (forall l, known_label df gc l -> f l = f x -> l = x) ->
        cell (f x)
             (set_cell "ds" (cell (order_by cfg) (snd ir))
                (map (fun kv => (f (fst kv), snd kv)) (snd ir)))
        = cell x (snd ir))
  /\ statsforecast_columns (mkDF cols None rows) cfg gc exog_vars
     = select (mkDF (map f cols) None
                 (map (fun ir =>
                         (fst ir,
                          set_cell "ds" (cell (order_by cfg) (snd ir))
                            (map (fun kv => (f (fst kv), snd kv)) (snd ir))))
                      rows))
              (["unique_id"; "ds"; "y"] ++ exog_vars).
Proof.
  intros Hgt Hgo Hu Hucols Hocols Htcols Hrows f.
  assert (Hgc : gc = "ignore this" \/ In gc (columns df)) by tauto.
  pose proof (order_not_target _ _ Hwide) as Hot.
  assert (Hft : f (target cfg) = "y").
  { unfold f. rewrite rename_three by congruence. now rewrite String.eqb_refl. }
  assert (Hfo : f (order_by cfg) = "ds").
  { unfold f. rewrite rename_three by congruence.
    rewrite (proj2 (String.eqb_neq _ _) Hot). now rewrite String.eqb_refl. }
  assert (Hfu : f u = "unique_id").
  { unfold f. rewrite rename_three by congruence.
    destruct Hu as [[-> _]|[-> ->]].
    - rewrite (proj2 (String.eqb_neq _ _) Hgt), (proj2 (String.eqb_neq _ _) Hgo).
      now rewrite String.eqb_refl.
    - destruct (String.eqb_spec "unique_id" (target cfg)) as [E|_].
      { exfalso. apply (unique_id_free _ _ Hwide). rewrite E.
        exact (target_present _ _ Hwide). }
      destruct (String.eqb_spec "unique_id" (order_by cfg)) as [E|_].
      { exfalso. apply (unique_id_free _ _ Hwide). rewrite E.
        exact (order_present _ _ Hwide). }
      reflexivity. }
  assert (Hinj : forall l, known_label df gc l -> f l = "ds" -> l = order_by cfg).
  { intros l Hl.
    now destruct (renamed_labels df cfg Hwide gc l Hgt Hgo Hgc Hl) as [_ [H2 _]]. }
  assert (Hds : In "ds" (map f cols)) by (rewrite <- Hfo; now apply in_map).
  split; [split|].
  - intros x [<-|[<-|[<-|[]]]].
    + rewrite <- Hfu. now apply in_map.
    + exact Hds.
    + rewrite <- Hft. now apply in_map.
  - intros ir x Hir Hxu Hx. destruct (Hrows ir Hir) as [_ Hlab].
    destruct (String.eqb_spec (f x) "ds") as [E|E].
    + rewrite E, cell_set_cell_eq.
      assert (Hxo : x = order_by cfg).
      { symmetry. apply Hx; [|now rewrite Hfo].
        right. exact (order_present _ _ Hwide). }
      now rewrite Hxo.
    + rewrite cell_set_cell_neq by exact E.
      apply cell_relabel; [reflexivity|].
      intros l Hl. apply Hx. now apply Hlab.
  - unfold statsforecast_columns, rename. cbv zeta. cbn [columns index_name body].
    fold f.
    assert (Hin_u : str_in "unique_id" (map f cols) = true).
    { apply str_in_In. rewrite <- Hfu. now apply in_map. }
    rewrite Hin_u. cbn [negb].
    rewrite getitem_present by (cbn [columns]; exact Hds).
    cbn [bind]. unfold pd_to_datetime.
    match goal with |- context [column ?d "ds"] => set (d5 := d) end.
    assert (Hvals : values (column d5 "ds")
                    = map (fun ir => cell (order_by cfg) (snd ir)) rows).
    { rewrite values_column. unfold d5. cbn [body]. rewrite map_map.
      apply map_ext_in. intros ir Hir. cbn [snd].
      apply cell_relabel; [exact Hfo|].
      intros l Hl. apply Hinj. now apply (Hrows ir Hir). }
    assert (Hdt : forallb is_datetime (values (column d5 "ds")) = true).
    { rewrite Hvals. apply forallb_forall. intros v Hv.
      apply in_map_iff in Hv. destruct Hv as [ir [<- Hir]]. now apply Hrows. }
    rewrite (to_datetime_of_datetimes _ Hdt). cbn [bind].
    rewrite values_with_values, Hvals. unfold d5.
    rewrite setitem_rows. cbn [bind fst snd].
    now rewrite (add_label_present _ _ Hds).
Qed.

Hypothesis Hwell : resamples_well df cfg.
Hypothesis Hsome : some_group df cfg.

Lemma resampled_rows_narrow (ks : list (list value)) (r : row) :
  In r (map snd (flat_map (group_rows_resampled df cfg) ks)) ->
  incl (map fst r) (order_by cfg :: target cfg :: group_by cfg).
Proof.
  intros Hr. apply in_map_iff in Hr. destruct Hr as [[i r'] [Heq Hr]].
  cbn [snd] in Heq. subst r'.
  apply in_flat_map in Hr. destruct Hr as [k [_ Hr]].
  assert (Hr' : In r (map snd (group_rows_resampled df cfg k))).
  { apply in_map_iff. now exists (i, r). }
  unfold group_rows_resampled in Hr'. rewrite snd_reindexed, map_map in Hr'.
  cbn [snd] in Hr'. apply in_map_iff in Hr'. destruct Hr' as [iv [<- _]].
  unfold resampled_row. intros l Hl. apply labels_set_cell in Hl.
  destruct Hl as [<-|Hl]; [now left|].
  apply labels_set_cells in Hl. apply in_app_iff in Hl. destruct Hl as [Hl|Hl].
  - right. right. apply in_map_iff in Hl.
    destruct Hl as [[l' v] [<- Hl]]. now apply in_combine_l in Hl.
  - cbn [map fst In] in Hl. destruct Hl as [<-|[]]. right. now left.
Qed.

(** Lines 37-69 on a wide table: the frame that reaches the selection of
    line 70 has the three normalized labels and the table's other
    labels; under a label of the table that is neither the order column,
    the target nor a grouping column, its cells are missing. *)
Lemma transform_to_nixtla_df_before_select (exog_vars : list string) :
  exists cols rows,
    transform_to_nixtla_df df cfg exog_vars
    = select (mkDF cols None rows) (["unique_id"; "ds"; "y"] ++ exog_vars)
    /\ incl ["unique_id"; "ds"; "y"] cols
    /\ (forall e, In e cols -> In e ["unique_id"; "ds"; "y"] \/ In e (columns df))
    /\ forall e, In e (columns df) ->
         e <> order_by cfg -> e <> target cfg -> ~ In e (group_by cfg) ->
         In e cols /\ forall ir, In ir rows -> cell e (snd ir) = VNull.
Proof.
  pose proof (order_present _ _ Hwide) as Ho.
  pose proof (target_present _ _ Hwide) as Ht.
  pose proof (unique_id_free _ _ Hwide) as Hu.
  pose proof (placeholder_free _ _ Hwide) as Hp.
  pose proof (groups_present _ _ Hwide) as HG.
  pose proof (order_not_target _ _ Hwide) as Hot.
  unfold transform_to_nixtla_df.
  rewrite (resample_every_group_rows df cfg Hwide Hwell). cbn [bind].
  set (rows := flat_map _ _).
  assert (Hrows : forall ir, In ir rows ->
            is_datetime (cell (order_by cfg) (snd ir)) = true
            /\ incl (map fst (snd ir)) (columns df)).
  { intros ir Hir.
    destruct (resampled_rows_sound df cfg Hwide Hwell (snd ir)) as [_ H];
      [now apply in_map | exact H]. }
  assert (Hnarrow : forall ir e, In ir rows ->
            e <> order_by cfg -> e <> target cfg -> ~ In e (group_by cfg) ->
            cell e (snd ir) = VNull).
  { intros ir e Hir Heo Het HeG. apply cell_absent. intros Hin.
    apply (resampled_rows_narrow (group_order (group_keys df (group_by cfg))))
      in Hin; [|now apply in_map].
    destruct Hin as [E|[E|Hin]]; [now apply Heo | now apply Het | now apply HeG]. }
  assert (Hstage : forall cols rows2 gc u,
            gc <> target cfg -> gc <> order_by cfg ->
            ((u = gc /\ In gc (columns df)) \/ (u = "unique_id" /\ gc = "ignore this")) ->
            In u cols -> incl (columns df) cols ->
            (forall l, In l cols -> l = "unique_id" \/ In l (columns df)) ->
            (~ In gc (columns df) \/ In gc (group_by cfg)) ->
            (forall ir, In ir rows2 ->
               is_datetime (cell (order_by cfg) (snd ir)) = true
               /\ (forall l, In l (map fst (snd ir)) -> known_label df gc l)
               /\ forall e, In e (columns df) -> e <> order_by cfg ->
                    e <> target cfg -> ~ In e (group_by cfg) ->
                    cell e (snd ir) = VNull) ->
            exists cols' rows',
              statsforecast_columns (mkDF cols None rows2) cfg gc exog_vars
              = select (mkDF cols' None rows') (["unique_id"; "ds"; "y"] ++ exog_vars)
              /\ incl ["unique_id"; "ds"; "y"] cols'
              /\ (forall e, In e cols' ->
                    In e ["unique_id"; "ds"; "y"] \/ In e (columns df))
              /\ forall e, In e (columns df) ->
                   e <> order_by cfg -> e <> target cfg -> ~ In e (group_by cfg) ->
                   In e cols' /\ forall ir, In ir rows' -> cell e (snd ir) = VNull).
  { intros cols rows2 gc u Hgt Hgo Hu' Hucols Hcols Hcols' Hgc' Hrows2.
    destruct (statsforecast_columns_before_select cols rows2 gc u exog_vars
                Hgt Hgo Hu' Hucols (Hcols _ Ho) (Hcols _ Ht)) as [[Hthree Hcell] Hrun].
    { intros ir Hir. destruct (Hrows2 ir Hir) as [H1 [H2 _]]. now split. }
    cbv zeta in Hthree, Hcell, Hrun.
    set (f := rename_label (dict_of [(target cfg, "y"); (order_by cfg, "ds");
                                     (gc, "unique_id")])) in *.
    assert (Hgc : gc = "ignore this" \/ In gc (columns df)) by tauto.
    assert (Hkeep : forall e, In e (columns df) ->
              e <> order_by cfg -> e <> target cfg -> ~ In e (group_by cfg) ->
              f e = e).
    { intros e He Heo Het HeG. unfold f. rewrite rename_three by congruence.
      rewrite (proj2 (String.eqb_neq _ _) Het), (proj2 (String.eqb_neq _ _) Heo).
      destruct (String.eqb_spec e gc) as [E|_]; [|reflexivity].
      exfalso. destruct Hgc' as [Hne|Hin];
        [apply Hne; now rewrite <- E | apply HeG; now rewrite E]. }
    eexists. eexists. split; [exact Hrun|]. split; [exact Hthree|]. split.
    - intros e He. apply in_map_iff in He. destruct He as [l [<- Hl]].
      destruct (rename_three_cases (target cfg) (order_by cfg) gc l
                  (fun E => Hot (eq_sym E)) Hgt Hgo) as [E|[E|[E|E]]];
        fold f in E; rewrite E.
      + left. right. right. now left.
      + left. right. now left.
      + left. now left.
      + destruct (Hcols' l Hl) as [->|Hin]; [left; now left | now right].
    - intros e He Heo Het HeG. pose proof (Hkeep e He Heo Het HeG) as Hfe. split.
      + rewrite <- Hfe. apply in_map. now apply Hcols.
      + intros ir Hir. apply in_map_iff in Hir. destruct Hir as [ir0 [<- Hir0]].
        cbn [snd]. rewrite <- Hfe at 1. rewrite (Hcell ir0 e Hir0).
        * destruct (Hrows2 ir0 Hir0) as [_ [_ H]]. now apply H.
        * rewrite Hfe. intros ->. contradiction.
        * intros l Hl. rewrite Hfe. intros Hfl.
          destruct (renamed_labels df cfg Hwide gc l Hgt Hgo Hgc Hl) as [H1 [H2 H3]].
          unfold f in Hfl. rewrite rename_three in Hfl by congruence.
          destruct (String.eqb_spec l (target cfg)) as [_|_].
          { exfalso. apply Het. rewrite <- Hfl. symmetry.
            apply (y_is_target _ _ Hwide). now rewrite Hfl. }
          destruct (String.eqb_spec l (order_by cfg)) as [_|_].
          { exfalso. apply Heo. rewrite <- Hfl. symmetry.
            apply (ds_is_order _ _ Hwide). now rewrite Hfl. }
          destruct (String.eqb_spec l gc) as [_|_]; [|exact Hfl].
          exfalso. apply Hu. now rewrite Hfl. }
  destruct (Nat.ltb_spec 1 (List.length (group_by cfg))) as [HN|HN].
  - rewrite (unique_id_column_several df cfg Hwide rows HN
               (resampled_rows_some df cfg Hwide Hwell Hsome HN)).
    cbn [bind fst snd].
    apply (Hstage _ _ "ignore this" "unique_id").
    + intros E. apply Hp. now rewrite E.
    + intros E. apply Hp. now rewrite E.
    + right. split; reflexivity.
    + apply in_app_iff. right. now left.
    + intros x Hx. apply in_app_iff. now left.
    + intros l Hl. apply in_app_iff in Hl. destruct Hl as [Hl|[<-|[]]]; [now right | now left].
    + left. exact Hp.
    + intros ir Hir. apply in_map_iff in Hir. destruct Hir as [ir0 [<- Hir0]].
      cbn [snd]. destruct (Hrows ir0 Hir0) as [Hdt Hlab]. split; [|split].
      * rewrite cell_set_cell_neq by (intros E; apply Hu; now rewrite <- E).
        rewrite cell_astype_cells_other by exact (order_not_group _ _ Hwide).
        exact Hdt.
      * intros l Hl. apply labels_set_cell in Hl. destruct Hl as [<-|Hl].
        -- left. split; reflexivity.
        -- right. apply labels_astype_cells in Hl. apply in_app_iff in Hl.
           destruct Hl as [Hl|Hl]; [now apply HG | now apply Hlab].
      * intros e He Heo Het HeG.
        rewrite cell_set_cell_neq by (intros E; apply Hu; now rewrite <- E).
        rewrite cell_astype_cells_other by exact HeG.
        now apply Hnarrow.
  - apply Nat.le_ngt in HN. destruct (single_group df cfg Hwide HN) as [g Hg].
    unfold unique_id_column. rewrite (proj2 (Nat.ltb_ge _ _) (proj2 (Nat.le_ngt _ _) HN)).
    replace (list_index (group_by cfg) 0) with (@Ok string g)
      by (rewrite Hg; reflexivity).
    cbn [bind fst snd].
    assert (Hgin : In g (group_by cfg)) by (rewrite Hg; now left).
    apply (Hstage _ _ g g).
    + intros E. apply (target_not_group _ _ Hwide). now rewrite <- E.
    + intros E. apply (order_not_group _ _ Hwide). now rewrite <- E.
    + left. split; [reflexivity | now apply HG].
    + now apply HG.
    + apply incl_refl.
    + intros l Hl. now right.
    + now right.
    + intros ir Hir. destruct (Hrows ir Hir) as [Hdt Hlab]. split; [exact Hdt|]. split.
      * intros l Hl. right. now apply Hlab.
      * intros e He Heo Het HeG. now apply Hnarrow.
Qed.

End Exogenous.


Lemma sales_with_price_wide : wide_table sales_with_price by_region.
Proof.
  split; cbn [columns sales_with_price group_by order_by target by_region];
    try discriminate;
    try (repeat constructor; simpl; intuition discriminate);
    try (simpl; intuition discriminate).
  intros x Hx. simpl in *. tauto.
Qed.




(** ** The shape of every normalized table *)

Lemma labels_projection (f : string -> value) (cs : list string) :
  map fst (map (fun c => (c, f c)) cs) = cs.
Proof.
  induction cs as [|c cs IH]; [reflexivity|]. cbn [map fst]. now rewrite IH.
Qed.

(** X12. For a wide table (distinct labels; the names ds, y and
    unique_id free or already naming the column they will name, so that
    the renaming of line 60 repeats no label): whenever
    [transform_to_nixtla_df] returns, the table has exactly the columns
    unique_id, ds, y and then the exogenous columns asked for, in that
    order, and every row holds exactly one cell for each of them. *)
Theorem transform_to_nixtla_df_shape
    (lib : Library) (df out : DataFrame) (settings_dict : settings)
    (exog_vars : list string) :
  wide_table df settings_dict ->
  transform_to_nixtla_df df settings_dict exog_vars = Ok out ->
  columns out = ["unique_id"; "ds"; "y"] ++ exog_vars
  /\ forall ir, In ir (body out) -> map fst (snd ir) = columns out.
Proof.
  unfold transform_to_nixtla_df, statsforecast_columns. cbv zeta. intros _ H.
  bind_ok H. bind_ok H. bind_ok H. bind_ok H. bind_ok H.
  unfold select in H.
  destruct (forallb _ _); [|discriminate]. inversion H. cbn [columns body].
  split; [reflexivity|]. intros ir Hir. apply in_map_iff in Hir.
  destruct Hir as [ir0 [<- _]]. cbn [snd].
  exact (labels_projection (fun c => cell c (snd ir0))
           (["unique_id"; "ds"; "y"] ++ exog_vars)).
Qed.

Lemma transform_to_nixtla_df_shape_witness :
  exists out,
    @transform_to_nixtla_df Reference.library sales by_region_and_store [] = Ok out
    /\ columns out = ["unique_id"; "ds"; "y"].
Proof.
  assert (H : @transform_to_nixtla_df Reference.library sales by_region_and_store []
              = Ok (mkDF ["unique_id"; "ds"; "y"] None
                      [(VInt 0, [("unique_id", VStr "north/n1"); ("ds", VTime 0);
                                 ("y", VInt 5)]);
                       (VInt 1, [("unique_id", VStr "north/n1");
                                 ("ds", VTime Reference.day); ("y", VInt 6)]);
                       (VInt 0, [("unique_id", VStr "south/s1"); ("ds", VTime 0);
                                 ("y", VInt 7)])]))
    by (vm_compute; reflexivity).
  eexists. split; [exact H|].
  exact (proj1 (transform_to_nixtla_df_shape Reference.library sales _
                  by_region_and_store [] sales_wide H)).
Defined.

(** ** Back from the normalized layout: identifiers and their parts *)

Lemma map_result_first_error (A B : Type) (f : A -> result B) (l : list A) (e : exn) :
  (forall x, In x l -> (exists y, f x = Ok y) \/ f x = Raise e) ->
  (exists x, In x l /\ f x = Raise e) ->
  map_result f l = Raise e.
Proof.
  induction l as [|x l IH]; intros Hall [x0 [Hin Hx0]]; [destruct Hin|].
  cbn [map_result]. destruct (Hall x (or_introl eq_refl)) as [[y Hy]|Hx].
  - rewrite Hy. cbn [bind]. rewrite IH; [reflexivity | |].
    + intros z Hz. apply Hall. now right.
    + destruct Hin as [<-|Hin]; [rewrite Hy in Hx0; discriminate|].
      now exists x0.
  - now rewrite Hx.
Qed.

Lemma split_step (d : DataFrame) (i : nat) (g : string) :
  g <> "unique_id" ->
  In "unique_id" (columns d) ->
  (forall ir, In ir (body d) ->
     exists v, split_part i (cell "unique_id" (snd ir)) = Ok v) ->
  exists d',
    split_unique_id d (i, g) = Ok d'
    /\ In "unique_id" (columns d')
    /\ map (fun ir => cell "unique_id" (snd ir)) (body d')
       = map (fun ir => cell "unique_id" (snd ir)) (body d).
Proof.
  intros Hg Hin Hok.
  assert (Hu : ~ In "unique_id" (map snd [(i, g)])).
  { cbn [map snd In]. intros [E|[]]. now apply Hg. }
  pose proof (split_loop [(i, g)] d Hu Hin) as H. cbn [for_each] in H.
  assert (Hparts : forall ir ig, In ir (body d) -> In ig [(i, g)] ->
            exists v, split_part (fst ig) (cell "unique_id" (snd ir)) = Ok v).
  { intros ir ig Hir [<-|[]]. now apply Hok. }
  specialize (H Hparts).
  destruct (split_unique_id d (i, g)) as [d'|e]; cbn [bind] in H; [|discriminate H].
  exists d'. split; [reflexivity|]. inversion H as [Hd']. clear H.
  cbn [columns body fold_left snd]. split.
  - apply add_label_In. now right.
  - rewrite map_map. apply map_ext. intros ir. cbn [snd].
    exact (cell_split_cells_other [(i, g)] "unique_id" (snd ir) Hu).
Qed.

(** The loop of lines 81-82 from position [a] on, when some identifier
    has too few parts for the columns that are left. *)
Lemma split_loop_short (labels : list string) (a : nat) (d : DataFrame) :
  In "unique_id" (columns d) ->
  ~ In "unique_id" labels ->
  (forall v, In v (map (fun ir => cell "unique_id" (snd ir)) (body d)) ->
     exists s, v = VStr s /\ a <= List.length (split "/"%char s)) ->
  (exists s, In (VStr s) (map (fun ir => cell "unique_id" (snd ir)) (body d))
             /\ List.length (split "/"%char s) < a + List.length labels) ->
  for_each (combine (seq a (List.length labels)) labels) split_unique_id d
  = Raise IndexError.
Proof.
  revert a d. induction labels as [|g labels IH]; intros a d Hin Hu Hall [s0 [Hs0 Hshort]].
  - exfalso. destruct (Hall _ Hs0) as [s [E Hle]]. inversion E; subst s.
    cbn [List.length] in Hshort. lia.
  - cbn [List.length seq combine for_each].
    assert (Hg : g <> "unique_id") by (intros ->; apply Hu; now left).
    destruct (existsb (fun v => match v with
                                | VStr s => Nat.leb (List.length (split "/"%char s)) a
                                | _ => false
                                end)
                (map (fun ir => cell "unique_id" (snd ir)) (body d))) eqn:Ex.
    + apply existsb_exists in Ex. destruct Ex as [v [Hv Hlen]].
      destruct v as [| | | |s| |]; try discriminate. apply Nat.leb_le in Hlen.
      unfold split_unique_id. rewrite (getitem_present d "unique_id" Hin).
      cbn [bind]. rewrite values_column.
      rewrite (map_result_first_error _ _ (split_part a) _ IndexError); [reflexivity| |].
      * intros v Hv'. destruct (Hall v Hv') as [s' [-> _]]. cbn [split_part].
        unfold list_index. destruct (nth_error (split "/"%char s') a).
        -- left. now eexists.
        -- now right.
      * exists (VStr s). split; [exact Hv|]. cbn [split_part]. unfold list_index.
        rewrite (proj2 (nth_error_None _ _) Hlen). reflexivity.
    + assert (Hlong : forall v, In v (map (fun ir => cell "unique_id" (snd ir)) (body d)) ->
                exists s, v = VStr s /\ S a <= List.length (split "/"%char s)).
      { intros v Hv. destruct (Hall v Hv) as [s [-> Hle]]. exists s. split; [reflexivity|].
        destruct (Nat.le_gt_cases (List.length (split "/"%char s)) a) as [Hle'|Hgt];
          [|exact Hgt].
        exfalso. assert (Hex : existsb (fun v => match v with
                                | VStr s => Nat.leb (List.length (split "/"%char s)) a
                                | _ => false
                                end)
                (map (fun ir => cell "unique_id" (snd ir)) (body d)) = true).
        { apply existsb_exists. exists (VStr s). split; [exact Hv|].
          now apply Nat.leb_le. }
        rewrite Hex in Ex. discriminate. }
      destruct (split_step d a g Hg Hin) as [d' [Hstep [Hin' Hcells]]].
      { intros ir Hir.
        destruct (Hlong (cell "unique_id" (snd ir))) as [s [-> Hle]].
        - apply in_map_iff. now exists ir.
        - cbn [split_part]. unfold list_index.
          destruct (nth_error (split "/"%char s) a) eqn:E; [now eexists|].
          apply nth_error_None in E. lia. }
      rewrite Hstep. cbn [bind]. apply IH.
      * exact Hin'.
      * intros H. apply Hu. now right.
      * rewrite Hcells. exact Hlong.
      * rewrite Hcells. exists s0. split; [exact Hs0|]. cbn [List.length] in Hshort. lia.
Qed.



Lemma split_cells_at (labels : list string) (r : row) (i : nat) (g : string) :
  NoDup labels -> ~ In "unique_id" labels ->
  nth_error labels i = Some g ->
  cell g (split_cells (enumerate labels) r) = part_of i r.
Proof.
  intros Hnd Hu Hg.
  pose proof (row_key_split_cells labels (seq 0 (List.length labels)) r Hnd Hu
                (length_seq _ _)) as H.
  assert (Hi : i < List.length labels).
  { apply nth_error_Some. rewrite Hg. discriminate. }
  assert (Hl : nth_error (row_key labels (split_cells (enumerate labels) r)) i
               = Some (cell g (split_cells (enumerate labels) r))).
  { unfold row_key.
    exact (map_nth_error (fun c => cell c (split_cells (enumerate labels) r))
             i labels Hg). }
  unfold enumerate in Hl. rewrite H in Hl.
  rewrite nth_error_map, nth_error_seq in Hl.
  rewrite (proj2 (Nat.ltb_lt _ _) Hi) in Hl. cbn [option_map Nat.add] in Hl.
  now inversion Hl.
Qed.



(** X15. A table that has no [unique_id] column but is indexed by
    [unique_id], as the forecasting library returns it: with one
    grouping column (not named unique_id, ds or like the order column),
    [get_results_from_nixtla_df] returns a table whose grouping column
    holds the index labels, row by row, whose own index counts from
    zero, and which has the order column when the table had [ds]. *)
Theorem get_results_from_nixtla_df_indexed_by_series
    (nixtla_df : DataFrame) (model_args : settings) (g : string) :
  ~ In "unique_id" (columns nixtla_df) ->
  index_name nixtla_df = Some "unique_id" ->
  group_by model_args = [g] ->
  g <> "unique_id" -> g <> "ds" -> g <> order_by model_args ->
  exists out,
    get_results_from_nixtla_df nixtla_df model_args = Ok out
    /\ In g (columns out)
    /\ values (column out g) = index nixtla_df
    /\ index out = range_index (nrows nixtla_df)
    /\ (In "ds" (columns nixtla_df) -> In (order_by model_args) (columns out)).
Proof.
  intros Hu Hidx Hg Hgu Hgd Hgo. unfold get_results_from_nixtla_df.
  rewrite (proj2 (str_in_not_In _ _) Hu). unfold reset_index. rewrite Hidx.
  rewrite (proj2 (str_in_not_In _ _) Hu). cbn [bind].
  rewrite Hg. cbn [List.length Nat.ltb Nat.leb list_index nth_error bind].
  rewrite getitem_present by (cbn [columns]; now left). cbn [bind].
  rewrite values_column.
  rewrite (setitem_rowwise _ g (fun ir => cell "unique_id" (snd ir))).
  cbn [bind columns index_name body].
  rewrite drop_one_label by (cbn [columns]; apply add_label_In; right; now left).
  cbn [bind columns index_name body]. eexists. split; [reflexivity|].
  unfold rename. cbn [columns index_name body].
  assert (Hrg : rename_label (dict_of [("ds", order_by model_args)]) g = g).
  { rewrite rename_one. now rewrite (proj2 (String.eqb_neq _ _) Hgd). }
  split; [|split; [|split]].
  - apply in_map_iff. exists g. split; [exact Hrg|].
    apply filter_In. split; [apply add_label_In; now left|].
    now apply negb_true_iff, String.eqb_neq.
  - rewrite values_column. cbn [body]. rewrite !map_map. cbn [fst snd].
    unfold index.
    rewrite <- (map_map snd
      (fun r => cell g
         (map (fun kv => (rename_label (dict_of [("ds", order_by model_args)]) (fst kv),
                          snd kv))
              (del_cell "unique_id" (set_cell g (cell "unique_id" r) r))))).
    rewrite snd_reindexed, !map_map. apply map_ext. intros ir. cbn [fst snd].
    rewrite (cell_relabel _ g g).
    + rewrite cell_del_cell_neq by exact Hgu.
      now rewrite !cell_set_cell_eq.
    + exact Hrg.
    + intros l _. rewrite rename_one.
      destruct (String.eqb_spec l "ds") as [->|_]; [|auto].
      intros E. exfalso. now apply Hgo.
  - unfold index, nrows. cbn [body]. rewrite !map_map. cbn [fst].
    rewrite <- (length_map
                  (fun ir : value * row =>
                     (fst ir, set_cell "unique_id" (fst ir) (snd ir)))
                  (body nixtla_df)).
    exact (fst_reindexed _).
  - intros Hds. apply in_map_iff. exists "ds". split.
    + rewrite rename_one. now rewrite String.eqb_refl.
    + apply filter_In. split; [|reflexivity].
      apply add_label_In. right. right. exact Hds.
Qed.

Lemma get_results_from_nixtla_df_indexed_by_series_witness :
  exists out,
    get_results_from_nixtla_df forecasts_by_series by_region = Ok out
    /\ In "region" (columns out)
    /\ values (column out "region") = [VStr "north"; VStr "south"].
Proof.
  destruct (get_results_from_nixtla_df_indexed_by_series forecasts_by_series
              by_region "region") as [out [Hout [Hin [Hvals _]]]];
    try reflexivity; try discriminate.
  - simpl. intuition discriminate.
  - exists out. split; [exact Hout|]. split; [exact Hin | exact Hvals].
Defined.

(** ** Rows and index on the way back *)

Lemma reset_index_index (d d' : DataFrame) (b : bool) :
  reset_index d b = Ok d' ->
  index d' = range_index (nrows d) /\ index_name d' = None.
Proof.
  unfold reset_index. destruct b.
  - intros H. inversion H. unfold index. cbn [body index_name].
    split; [apply fst_reindexed | reflexivity].
  - destruct (str_in _ (columns d)); [discriminate|].
    intros H. inversion H. unfold index, nrows. cbn [body index_name].
    split; [|reflexivity]. rewrite fst_reindexed. now rewrite length_map.
Qed.

Lemma setitem_index (d d' : DataFrame) (c : string) (vs : list value) :
  setitem d c vs = Ok d' -> index d' = index d /\ index_name d' = index_name d.
Proof.
  unfold setitem. destruct (Nat.eqb_spec (List.length vs) (nrows d)) as [Hlen|_];
    [|discriminate].
  intros H. inversion H. unfold index. cbn [body index_name]. split; [|reflexivity].
  rewrite map_map. cbn [fst]. rewrite <- (map_map fst fst).
  now rewrite map_fst_combine.
Qed.

Lemma split_loop_index (igs : list (nat * string)) (d d' : DataFrame) :
  for_each igs split_unique_id d = Ok d' ->
  index d' = index d /\ index_name d' = index_name d.
Proof.
  revert d. induction igs as [|[i g] igs IH]; intros d H.
  - cbn [for_each] in H. inversion H. now split.
  - cbn [for_each] in H. bind_ok H. destruct (IH _ H) as [H1 H2].
    unfold split_unique_id in E. bind_ok E. bind_ok E.
    destruct (setitem_index _ _ _ _ E) as [H3 H4]. split; congruence.
Qed.

Lemma drop_index (d d' : DataFrame) (labels : list string) :
  drop d labels = Ok d' -> index d' = index d /\ index_name d' = index_name d.
Proof.
  unfold drop. destruct (forallb _ labels); [|discriminate].
  intros H. inversion H. unfold index. cbn [body index_name]. split; [|reflexivity].
  now rewrite map_map.
Qed.

(** X16. Whenever [get_results_from_nixtla_df] returns, the table has as
    many rows as the one given, an unnamed index, and the index labels
    0, 1, 2, ... *)
Theorem get_results_from_nixtla_df_resets_index
    (nixtla_df out : DataFrame) (model_args : settings) :
  get_results_from_nixtla_df nixtla_df model_args = Ok out ->
  index out = range_index (nrows nixtla_df)
  /\ index_name out = None
  /\ nrows out = nrows nixtla_df.
Proof.
  unfold get_results_from_nixtla_df. intros H.
  bind_ok H. bind_ok H. bind_ok H. inversion H as [Hout]. clear H.
  destruct (reset_index_index _ _ _ E) as [H1 H2].
  destruct (drop_index _ _ _ E1) as [H5 H6].
  assert (Hmid : index a0 = index a /\ index_name a0 = index_name a).
  { destruct (Nat.ltb 0 (List.length (group_by model_args))).
    - destruct (Nat.ltb 1 (List.length (group_by model_args))).
      + now apply split_loop_index in E0.
      + bind_ok E0. bind_ok E0. now apply setitem_index in E0.
    - inversion E0. now split. }
  destruct Hmid as [H3 H4].
  assert (Hidx : index (rename a1 (dict_of [("ds", order_by model_args)]))
                 = range_index (nrows nixtla_df)).
  { unfold rename, index. cbn [body]. rewrite map_map. cbn [fst].
    change (map (fun x => fst x) (body a1)) with (index a1). congruence. }
  split; [exact Hidx|]. split.
  - unfold rename. cbn [index_name]. congruence.
  - assert (Hn : List.length (index (rename a1 (dict_of [("ds", order_by model_args)])))
                 = List.length (range_index (nrows nixtla_df))) by now rewrite Hidx.
    unfold index, range_index in Hn. rewrite !length_map, length_seq in Hn. exact Hn.
Qed.

Lemma get_results_from_nixtla_df_resets_index_witness :
  exists out,
    get_results_from_nixtla_df normalized_labelled by_region = Ok out
    /\ index out = [VInt 0%Z; VInt 1%Z].
Proof.
  assert (H : get_results_from_nixtla_df normalized_labelled by_region
              = Ok (mkDF ["day"; "y"; "region"] None
                      [(VInt 0, [("region", VStr "north"); ("day", VTime 0);
                                 ("y", VInt 5)]);
                       (VInt 1, [("region", VStr "south"); ("day", VTime 0);
                                 ("y", VInt 7)])]))
    by (vm_compute; reflexivity).
  eexists. split; [exact H|].
  exact (proj1 (get_results_from_nixtla_df_resets_index normalized_labelled _
                  by_region H)).
Defined.

(** ** The optional package, installed *)

(** Lines 148-156, the package installed: the preparation of the table
    that [aggregate] receives. *)
Lemma get_hierarchy_from_df_prepared
    (lib : Library) (hf : HierarchicalForecast) (df : DataFrame) (model_args : settings)
    (stamps : list value) :
  let renamed :=
    rename df (dict_of [(order_by model_args, "ds"); (target model_args, "y")]) in
  In "ds" (columns renamed) ->
  incl (group_by model_args) (columns renamed) ->
  to_datetime (values (column renamed "ds")) = Ok stamps ->
  List.length stamps = nrows df ->
  fst (get_hierarchy_from_df (Some hf) df model_args)
  = (nixtla_df <-
       insert_first
         (mkDF (columns renamed) (index_name df)
            (map (fun p => (fst (fst p),
                            astype_cells (group_by model_args)
                              (set_cell "ds" (snd p) (snd (fst p)))))
                 (combine (body renamed) stamps)))
         "Total" (VStr "total") ;;
     out <- aggregate hf nixtla_df (spec_hierarchy_from_list (hierarchy model_args)) ;;
     Ok (Some out)).
Proof.
  intros renamed Hds HG Hconv Hlen.
  unfold get_hierarchy_from_df. cbn [fst]. cbv zeta. fold renamed.
  rewrite getitem_present by exact Hds. cbn [bind]. unfold pd_to_datetime.
  rewrite Hconv. cbn [bind].
  assert (Hrows : nrows renamed = nrows df).
  { unfold renamed, rename, nrows. cbn [body]. apply length_map. }
  rewrite values_with_values_of
    by (unfold column; cbn [items]; rewrite length_map; fold (nrows renamed); congruence).
  unfold setitem. rewrite Hlen, <- Hrows, Nat.eqb_refl. cbn [bind].
  rewrite (add_label_present _ _ Hds).
  rewrite astype_str_columns_rows by exact HG.
  cbn [bind columns index_name body]. rewrite map_map. cbn [fst snd].
  reflexivity.
Qed.

(** X17. The package installed.  When, after renaming, the table has
    distinct labels, among them [ds] and the grouping columns (none of
    them [ds]) and no column named Total, and [ds] converts to as many
    timestamps as there are rows, [get_hierarchy_from_df] returns what
    [aggregate] returns, wrapped, or raises what it raises; [aggregate]
    is given the specification that [spec_hierarchy_from_list] builds
    from the hierarchy setting, and a table that has Total as its first
    column before the renamed columns, the index labels of the input,
    "total" in every cell of Total, the converted timestamps under [ds]
    and text in every cell of a grouping column. *)
Theorem get_hierarchy_from_df_hands_over
    (lib : Library) (hf : HierarchicalForecast) (df : DataFrame) (model_args : settings)
    (stamps : list value) :
  let renamed :=
    rename df (dict_of [(order_by model_args, "ds"); (target model_args, "y")]) in
  NoDup (columns renamed) ->
  In "ds" (columns renamed) ->
  incl (group_by model_args) (columns renamed) ->
  ~ In "ds" (group_by model_args) ->
  ~ In "Total" (columns renamed) ->
  to_datetime (values (column renamed "ds")) = Ok stamps ->
  List.length stamps = nrows df ->
  exists prepared,
    fst (get_hierarchy_from_df (Some hf) df model_args)
    = (out <- aggregate hf prepared (spec_hierarchy_from_list (hierarchy model_args)) ;;
       Ok (Some out))
    /\ columns prepared = "Total" :: columns renamed
    /\ index prepared = index df
    /\ (forall v, In v (values (column prepared "Total")) -> v = VStr "total")
    /\ values (column prepared "ds") = stamps
    /\ forall g, In g (group_by model_args) ->
         forall v, In v (values (column prepared g)) -> exists s, v = VStr s.
Proof.
  intros renamed _ Hds HG Hnods Htotal Hconv Hlen.
  pose proof (get_hierarchy_from_df_prepared lib hf df model_args stamps
                Hds HG Hconv Hlen) as Hrun.
  cbv zeta in Hrun. fold renamed in Hrun. rewrite Hrun.
  unfold insert_first. cbn [columns index_name body].
  rewrite (proj2 (str_in_not_In _ _) Htotal). cbn [bind].
  assert (Hbody : List.length (body renamed) = List.length stamps).
  { unfold renamed, rename. cbn [body]. rewrite length_map. now rewrite Hlen. }
  eexists. split; [reflexivity|]. cbn [columns]. split; [reflexivity|].
  split; [|split; [|split]].
  - unfold index. cbn [body]. rewrite !map_map. cbn [fst].
    rewrite <- (map_map fst fst), (map_fst_combine _ _ _ _ Hbody).
    unfold renamed, rename. cbn [body]. now rewrite map_map.
  - intros v Hv. rewrite values_column in Hv. cbn [body] in Hv.
    rewrite map_map in Hv. cbn [snd] in Hv. apply in_map_iff in Hv.
    destruct Hv as [p [<- _]]. apply cell_set_cell_eq.
  - rewrite values_column. cbn [body]. rewrite !map_map. cbn [fst snd].
    rewrite <- (map_snd_combine _ _ _ _ Hbody) at 2. apply map_ext. intros p.
    rewrite cell_set_cell_neq by discriminate.
    rewrite cell_astype_cells_other by exact Hnods.
    apply cell_set_cell_eq.
  - intros g Hg v Hv. rewrite values_column in Hv. cbn [body] in Hv.
    rewrite !map_map in Hv. cbn [fst snd] in Hv. apply in_map_iff in Hv.
    destruct Hv as [p [<- _]].
    rewrite cell_set_cell_neq by (intros ->; apply Htotal; now apply HG).
    rewrite cell_astype_cells by exact Hg. now eexists.
Qed.

Lemma get_hierarchy_from_df_hands_over_witness :
  exists prepared,
    fst (@get_hierarchy_from_df Reference.library (Some echo_package) sales hierarchical)
    = (out <- aggregate echo_package prepared
                [["Total"]; ["Total"; "region"]; ["Total"; "region"; "store"]] ;;
       Ok (Some out))
    /\ columns prepared = ["Total"; "region"; "store"; "ds"; "y"]
    /\ values (column prepared "ds") = [VTime 0; VTime Reference.day; VTime 0].
Proof.
  assert (Hnd : NoDup (columns (rename sales
                           (dict_of [(order_by hierarchical, "ds");
                                     (target hierarchical, "y")])))).
  { repeat constructor; simpl; intuition discriminate. }
  assert (HG : incl (group_by hierarchical)
                    (columns (rename sales
                                (dict_of [(order_by hierarchical, "ds");
                                          (target hierarchical, "y")])))).
  { intros x Hx. simpl in *. tauto. }
  destruct (get_hierarchy_from_df_hands_over Reference.library echo_package sales
              hierarchical [VTime 0; VTime Reference.day; VTime 0] Hnd)
    as [prepared [Hrun [Hcols [_ [_ [Hds _]]]]]];
    [ simpl; tauto | exact HG | simpl; intuition discriminate
    | simpl; intuition discriminate | reflexivity | reflexivity | ].
  exists prepared. split; [exact Hrun|]. split; [exact Hcols | exact Hds].
Defined.



(** X19. [get_hierarchy_from_df] and [reconcile_forecasts] return [None]
    exactly when the package is missing, and they log something exactly
    then: with the package installed neither returns [None] nor logs,
    whatever the arguments. *)
Theorem package_missing_iff_none_and_warning
    (lib : Library) (HierarchicalReconciliation : option HierarchicalForecast)
    (df nixtla_df forecast_df hierarchy_df : DataFrame)
    (model_args : settings) (hierarchy_dict : tags) :
  let h := get_hierarchy_from_df HierarchicalReconciliation df model_args in
  let r := reconcile_forecasts HierarchicalReconciliation nixtla_df forecast_df
             hierarchy_df hierarchy_dict in
  (fst h = Ok None <-> HierarchicalReconciliation = None)
  /\ (snd h = [] <-> HierarchicalReconciliation <> None)
  /\ (fst r = Ok None <-> HierarchicalReconciliation = None)
  /\ (snd r = [] <-> HierarchicalReconciliation <> None).
Proof.
  destruct HierarchicalReconciliation as [hf|];
    cbn [get_hierarchy_from_df reconcile_forecasts fst snd]; cbv zeta.
  - repeat split; try discriminate; try reflexivity; intros H; exfalso.
    + do 6 bind_ok H. discriminate H.
    + do 2 bind_ok H. discriminate H.
  - repeat split; try discriminate; try reflexivity; intros H; exfalso;
      now apply H.
Qed.

(** X20. The package installed, and the reconciler (called with the one
    reconciler BottomUp, the forecasts as Y_hat_df and the normalized
    table as Y_df) returning a table with at least one row, labelled by
    text: if every column of that table other than ds and y has the
    marker, [reconcile_forecasts] raises the unbound-local error;
    otherwise it returns a table with the columns of the reconciled
    table but the first unreconciled one, each of whose rows is labelled
    by a column name of the hierarchy matrix with total/ replaced by
    nothing. *)
Theorem reconcile_forecasts_unpacks
    (hf : HierarchicalForecast) (nixtla_df forecast_df hierarchy_df : DataFrame)
    (hierarchy_dict : tags) (reconciled_df : DataFrame) :
  reconcile hf [BottomUp] forecast_df nixtla_df hierarchy_df hierarchy_dict
  = Ok reconciled_df ->
  index reconciled_df <> [] ->
  forallb is_str (index reconciled_df) = true ->
  match first_unreconciled (columns reconciled_df) with
  | None =>
      fst (reconcile_forecasts (Some hf) nixtla_df forecast_df hierarchy_df
             hierarchy_dict)
      = Raise UnboundLocalError
  | Some c =>
      exists out,
        fst (reconcile_forecasts (Some hf) nixtla_df forecast_df hierarchy_df
               hierarchy_dict)
        = Ok (Some out)
        /\ (forall x, In x (columns out) <-> In x (columns reconciled_df) /\ x <> c)
        /\ forall i, In i (index out) ->
             exists leaf, In leaf (columns hierarchy_df)
                          /\ i = VStr (Py.replace "total/" "" leaf)
  end.
Proof.
  intros Hrec _ Htext. unfold reconcile_forecasts. cbn [fst]. cbv zeta.
  unfold DEFAULT_RECONCILER. rewrite Hrec. cbn [bind].
  pose proof (get_results_from_reconciled_df_cases reconciled_df hierarchy_df) as H.
  rewrite (text_index_has_accessor _ Htext) in H.
  destruct (first_unreconciled (columns reconciled_df)) as [c|].
  - rewrite H. cbn [bind]. eexists. split; [reflexivity|]. cbn [columns]. split.
    + intros x. rewrite filter_In, negb_true_iff, String.eqb_neq. tauto.
    + intros i Hi. unfold index in Hi. cbn [body] in Hi. rewrite map_map in Hi.
      cbn [fst] in Hi. apply in_map_iff in Hi. destruct Hi as [ir [<- Hir]].
      apply filter_In in Hir. destruct Hir as [_ Hleaf]. cbn [fst] in Hleaf.
      destruct (fst ir) as [| | | |s| |]; try discriminate Hleaf.
      cbn [isin] in Hleaf. apply str_in_In in Hleaf.
      exists s. split; [exact Hleaf | reflexivity].
  - now rewrite H.
Qed.

Lemma reconcile_forecasts_unpacks_witness :
  exists out,
    fst (reconcile_forecasts (Some echo_package) forecasts_m1 forecasts_m1
           leaves_total_a_b [])
    = Ok (Some out)
    /\ (In "m1/BottomUp" (columns out)
        <-> In "m1/BottomUp" ["ds"; "m1"; "m1/BottomUp"] /\ "m1/BottomUp" <> "m1")
    /\ index out = [VStr "a"; VStr "b"].
Proof.
  pose proof (reconcile_forecasts_unpacks echo_package forecasts_m1 forecasts_m1
                leaves_total_a_b []
                (mkDF ["ds"; "m1"; "m1/BottomUp"] (Some "unique_id")
                   [(VStr "total", [("m1/BottomUp", VInt 7); ("ds", VTime 0);
                                    ("m1", VInt 7)]);
                    (VStr "total/a", [("m1/BottomUp", VInt 4); ("ds", VTime 0);
                                      ("m1", VInt 4)]);
                    (VStr "total/b", [("m1/BottomUp", VInt 3); ("ds", VTime 0);
                                      ("m1", VInt 3)])])
                eq_refl ltac:(discriminate) eq_refl) as H.
  cbn [columns first_unreconciled str_in existsb String.eqb Ascii.eqb Bool.eqb
       negb andb orb contains String.prefix] in H.
  destruct H as [out [Hout [Hcols _]]].
  exists out. split; [exact Hout|]. split; [exact (Hcols "m1/BottomUp")|].
  vm_compute in Hout. inversion Hout. reflexivity.
Defined.
